(** * Market-Intelligence-Platform: the report converter and the two
    data adapters

    A shallow embedding of [convert-report-to-doc.py],
    [scripts/yahoo_finance.py] and [scripts/google_trends.py].

    Python [str] values are modelled by [string]; every [ascii] stands for
    the code point of the same number (0..255).  The built-in string
    methods the scripts call ([split], [strip], [replace], [startswith],
    [join], slicing) are given their Python semantics in [PyStr].  The
    python-docx [Document] is the list of the nodes appended to it, in
    order. *)

From Stdlib Require Import Strings.String Strings.Ascii Lists.List Bool.Bool
  Arith.PeanoNat NArith.NArith ZArith.ZArith Numbers.DecimalString Lia.
Import ListNotations.
Open Scope list_scope.
Open Scope string_scope.

(** ** Python strings *)

Module PyStr.

(** The line feed, Python's ['\n']. *)
Definition LF : ascii := "010"%char.
Definition nl : string := String LF "".

(** [str.isspace] on one code point below 256: TAB..CR, FS..US, SPACE,
    NEL and NBSP.  These are the characters [str.strip()] removes. *)
Definition is_space (c : ascii) : bool :=
  let n := N_of_ascii c in
  ((9 <=? n) && (n <=? 13) || (28 <=? n) && (n <=? 32)
   || (n =? 133) || (n =? 160))%N.

(** Truth value of a [str]: non-empty. *)
Definition truthy (s : string) : bool :=
  match s with "" => false | String _ _ => true end.

Fixpoint lstrip (s : string) : string :=
  match s with
  | "" => ""
  | String c s' => if is_space c then lstrip s' else s
  end.

Fixpoint rstrip (s : string) : string :=
  match s with
  | "" => ""
  | String c s' =>
      let r := rstrip s' in
      if is_space c && negb (truthy r) then "" else String c r
  end.

(** [s.strip()] *)
Definition strip (s : string) : string := rstrip (lstrip s).

(** [s.startswith(p)] *)
Definition startswith (p s : string) : bool := prefix p s.

(** [s[n:]] for [0 <= n] *)
Fixpoint drop (n : nat) (s : string) : string :=
  match n, s with
  | O, _ => s
  | S _, "" => ""
  | S k, String _ s' => drop k s'
  end.

(** Puts a character in front of the first piece of a list of pieces. *)
Definition cons_head (c : ascii) (l : list string) : list string :=
  match l with
  | [] => [String c ""]
  | p :: ps => String c p :: ps
  end.

(** The scan behind [s.split(sep)] for a non-empty [sep]: left to right,
    cutting at the leftmost occurrence and resuming after it.  [skip]
    counts the characters of a matched separator still to be passed
    over.  The result starts with the piece being read. *)
Fixpoint split_from (sep s : string) (skip : nat) : list string :=
  match s with
  | "" => [""]
  | String c s' =>
      match skip with
      | S k => split_from sep s' k
      | O =>
          if prefix sep s
          then "" :: split_from sep s' (String.length sep - 1)
          else cons_head c (split_from sep s' 0)
      end
  end.

(** [s.split(sep)], [sep] a non-empty literal at every call site. *)
Definition split (sep s : string) : list string := split_from sep s 0.

(** [sep.join(l)] *)
Fixpoint join (sep : string) (l : list string) : string :=
  match l with
  | [] => ""
  | [x] => x
  | x :: xs => x ++ sep ++ join sep xs
  end.

(** [s.replace(old, new)] for a non-empty [old]: the pieces between the
    non-overlapping occurrences of [old], found left to right, glued
    with [new]. *)
Definition replace (old new s : string) : string := join new (split old s).

End PyStr.
Import PyStr.

(** ** convert-report-to-doc.py: the document and the conversion pass *)

Module Converter.

(** Paragraph styles the script uses: the default one and ['List Bullet']. *)
Inductive pstyle : Type := Normal | ListBullet.

(** A node of the python-docx document: [add_heading(text, level)] or
    [add_paragraph(text, style)]. *)
Inductive node : Type :=
  | Heading (text : string) (level : nat)
  | Paragraph (text : string) (style : pstyle).

(** [Document()] and its two appending methods, in state-passing form. *)
Definition document : Type := list node.
Definition Document : document := [].
Definition add_heading (doc : document) (text : string) (level : nat)
  : document := (doc ++ [Heading text level])%list.
Definition add_paragraph (doc : document) (text : string) (style : pstyle)
  : document := (doc ++ [Paragraph text style])%list.

(** The delimiters of lines 39, 56, 60/77 and 82. *)
Definition sep_section : string := nl ++ "## ".
Definition sep_subsection : string := nl ++ "### ".
Definition sep_paragraph : string := nl ++ nl.
Definition sep_item : string := nl ++ "- ".

(** Lines 61-63: the text of a section before its first subsection. *)
Definition add_main_para (doc : document) (para : string) : document :=
  if truthy (strip para) then add_paragraph doc (strip para) Normal else doc.

(** Lines 83-86: one fragment of a bulleted paragraph. *)
Definition add_list_item (doc : document) (list_item : string) : document :=
  if truthy (strip list_item) then
    let list_item :=
      if startswith "- " list_item then drop 2 list_item else list_item in
    add_paragraph doc (strip list_item) ListBullet
  else doc.

(** Lines 79-88: one paragraph of a subsection. *)
Definition add_sub_para (doc : document) (para : string) : document :=
  if truthy (strip para) then
    if startswith "- " (strip para) then
      fold_left add_list_item (split sep_item (strip para)) doc
    else add_paragraph doc (strip para) Normal
  else doc.

(** Lines 67-88: one subsection, [subsections[j]] for [j >= 1]. *)
Definition process_subsection (doc : document) (subsection : string)
  : document :=
  let subsection_lines := split nl (strip subsection) in
  let subsection_title := hd "" subsection_lines in
  let subsection_content := strip (join nl (tl subsection_lines)) in
  let doc := add_heading doc subsection_title 2 in
  if truthy subsection_content then
    fold_left add_sub_para (split sep_paragraph subsection_content) doc
  else doc.

(** Lines 48-50. *)
Definition section_title (section : string) : string :=
  hd "" (split nl (strip section)).
Definition section_content (section : string) : string :=
  strip (join nl (tl (split nl (strip section)))).

(** Lines 56-88, from [section_content] on. *)
Definition process_body (doc : document) (section_content : string)
  : document :=
  let subsections := split sep_subsection section_content in
  let doc :=
    if negb (startswith "###" (hd "" subsections)) then
      fold_left add_main_para
        (split sep_paragraph (strip (hd "" subsections))) doc
    else doc in
  fold_left process_subsection (tl subsections) doc.

(** Lines 47-88: one section, [sections[i]] for [i >= 1]. *)
Definition process_section (doc : document) (section : string) : document :=
  let doc := add_heading doc (section_title section) 1 in
  process_body doc (section_content section).

(** Line 42. *)
Definition title_of (md_content : string) : string :=
  replace "# " "" (strip (hd "" (split sep_section md_content))).

(** Lines 36-88: the document built from the text of REPORT.md. *)
Definition convert (md_content : string) : document :=
  let doc := Document in
  let sections := split sep_section md_content in
  let doc := add_heading doc (title_of md_content) 0 in
  fold_left process_section (tl sections) doc.

End Converter.
Import Converter.

(** ** What each step appends

    Every step of the pass only appends to the document, so each has a
    list of nodes it contributes; the loops are then concatenations. *)

Definition bullet (t : string) : node := Paragraph t ListBullet.

(** Removal of the list marker, lines 84-85. *)
Definition unmark (list_item : string) : string :=
  if startswith "- " list_item then drop 2 list_item else list_item.

Definition nonblank (s : string) : bool := truthy (strip s).

(** The items of a bulleted paragraph as the loop of lines 82-86
    produces them, written as a pipeline over the fragments. *)
Definition bullet_items (block : string) : list string :=
  map strip (map unmark (filter nonblank (split sep_item block))).

Definition main_para_nodes (para : string) : list node :=
  if truthy (strip para) then [Paragraph (strip para) Normal] else [].

Definition sub_para_nodes (para : string) : list node :=
  if truthy (strip para) then
    if startswith "- " (strip para) then map bullet (bullet_items (strip para))
    else [Paragraph (strip para) Normal]
  else [].

Definition subsection_title (subsection : string) : string :=
  hd "" (split nl (strip subsection)).
Definition subsection_content (subsection : string) : string :=
  strip (join nl (tl (split nl (strip subsection)))).

Definition subsection_nodes (subsection : string) : list node :=
  Heading (subsection_title subsection) 2 ::
  (if truthy (subsection_content subsection)
   then flat_map sub_para_nodes
          (split sep_paragraph (subsection_content subsection))
   else []).

Definition body_nodes (content : string) : list node :=
  let subsections := split sep_subsection content in
  ((if negb (startswith "###" (hd "" subsections))
    then flat_map main_para_nodes
           (split sep_paragraph (strip (hd "" subsections)))
    else []) ++ flat_map subsection_nodes (tl subsections))%list.

Definition section_nodes (section : string) : list node :=
  Heading (section_title section) 1 :: body_nodes (section_content section).

(** The titles of the headings of one level, in document order. *)
Fixpoint headings_at (level : nat) (doc : document) : list string :=
  match doc with
  | [] => []
  | Heading t l :: rest =>
      if Nat.eqb l level then t :: headings_at level rest
      else headings_at level rest
  | Paragraph _ _ :: rest => headings_at level rest
  end.

(** Some occurrence of [sep] in [s]. *)
Fixpoint occurs (sep s : string) : bool :=
  prefix sep s ||
  match s with "" => false | String _ s' => occurs sep s' end.

(** No line feed in [s]. *)
Fixpoint single_line (s : string) : bool :=
  match s with
  | "" => true
  | String c s' => negb (Ascii.eqb c LF) && single_line s'
  end.


(** ** The claims' statements in the words of the specification *)

(** Bullet items as the specification words them: split on the item
    delimiter, strip the marker from the first fragment only, trim each,
    drop the empty ones. *)
Definition spec_bullet_items (block : string) : list string :=
  let items :=
    match split sep_item block with
    | [] => []
    | first :: rest => unmark first :: rest
    end in
  filter truthy (map strip items).

(** A block as the specification classifies it. *)
Definition spec_block_nodes (block : string) : list node :=
  if startswith "- " (strip block) then map bullet (spec_bullet_items block)
  else [Paragraph (strip block) Normal].

(** The title as the specification words it: surrounding whitespace and
    one leading marker removed, nothing else. *)
Definition spec_title (md_content : string) : string :=
  let fragment := strip (hd "" (split sep_section md_content)) in
  if startswith "# " fragment then drop 2 fragment else fragment.

(** ** Python exceptions, results and JSON values *)

Module Py.

(** A raised exception: the names of its class and of the classes that one
    derives from, most specific first, and its [str()]. *)
Record exn : Type := mk_exn {
  exn_mro : list string;
  exn_str : string
}.

(** [isinstance(e, cls)] *)
Definition isinstance (e : exn) (cls : string) : bool :=
  existsb (String.eqb cls) (exn_mro e).

(** What [except Exception] catches; [KeyboardInterrupt] and the like
    derive from [BaseException] only. *)
Definition derives_Exception (e : exn) : bool := isinstance e "Exception".

(** The outcome of evaluating Python code: a value or a raised exception. *)
Inductive res (A : Type) : Type :=
  | Ret (a : A)
  | Raise (e : exn).
Arguments Ret {A} a.
Arguments Raise {A} e.

Definition bind {A B : Type} (m : res A) (k : A -> res B) : res B :=
  match m with
  | Ret a => k a
  | Raise e => Raise e
  end.

(** [try: body  except Exception as e: handler(e)] *)
Definition try_except {A : Type} (body : res A) (handler : exn -> res A)
  : res A :=
  match body with
  | Ret a => Ret a
  | Raise e => if derives_Exception e then handler e else Raise e
  end.

(** [try: body  except: handler] (a bare [except] catches everything). *)
Definition try_except_all {A : Type} (body : res A) (handler : res A) : res A :=
  match body with
  | Ret a => Ret a
  | Raise _ => handler
  end.

#[local] Set Warnings "-register-all".

(** Values [json.dumps] serialises.  A number is kept in its printed form;
    an object keeps the insertion order of its keys, as a [dict] does. *)
Inductive json : Type :=
  | JNull
  | JBool (b : bool)
  | JNum (printed : string)
  | JStr (s : string)
  | JList (items : list json)
  | JObj (fields : list (string * json)).

Definition dict : Type := list (string * json).

(** [k in d] and [d.get(k, default)] *)
Fixpoint dict_lookup (d : dict) (k : string) : option json :=
  match d with
  | [] => None
  | (k', v) :: d' => if String.eqb k' k then Some v else dict_lookup d' k
  end.
Definition dict_mem (d : dict) (k : string) : bool :=
  match dict_lookup d k with Some _ => true | None => false end.
Definition dict_get (d : dict) (k : string) (default : json) : json :=
  match dict_lookup d k with Some v => v | None => default end.

(** [d[k] = v]: in place for a key already there, at the end otherwise. *)
Fixpoint dict_set (d : dict) (k : string) (v : json) : dict :=
  match d with
  | [] => [(k, v)]
  | (k', v') :: d' =>
      if String.eqb k' k then (k', v) :: d' else (k', v') :: dict_set d' k v
  end.

(** The two shapes every adapter function returns. *)
Definition error_result (message : string) : json :=
  JObj [("status", JStr "error"); ("message", JStr message)].

(** What a run of a script leaves behind: the values printed on standard
    output (one [print(json.dumps(v))] each), the exit status, and the
    exception that ended the run when one propagated out of the script. *)
Record outcome : Type := mk_outcome {
  stdout : list json;
  exit_code : Z;
  unhandled : option exn
}.

(** [print(json.dumps(v)); return] at the top level of [main]: the
    interpreter then exits with status 0. *)
Definition print_and_return (v : json) : outcome :=
  {| stdout := [v]; exit_code := 0; unhandled := None |}.

(** An exception nobody caught: traceback on standard error, status 1. *)
Definition traceback (e : exn) : outcome :=
  {| stdout := []; exit_code := 1; unhandled := Some e |}.

(** [result = f(...)] followed by [print(json.dumps(result))]. *)
Definition print_result (r : res json) : outcome :=
  match r with
  | Ret v => print_and_return v
  | Raise e => traceback e
  end.

(** [sys.argv[i]] and the test [len(sys.argv) > i]. *)
Definition arg (argv : list string) (i : nat) : string := nth i argv "".
Definition has_arg (argv : list string) (i : nat) : bool :=
  Nat.ltb i (List.length argv).

(** [s.split()] without argument: the maximal runs of characters that are
    not white space.  The auxiliary result is the run being read and the
    runs after it. *)
Fixpoint words_aux (s : string) : string * list string :=
  match s with
  | "" => ("", [])
  | String c s' =>
      let '(w, ws) := words_aux s' in
      if is_space c then ("", if truthy w then w :: ws else ws)
      else (String c w, ws)
  end.
Definition words (s : string) : list string :=
  let '(w, ws) := words_aux s in if truthy w then w :: ws else ws.

(** [repr(s)] of a string of code points below 256: single quotes, or
    double quotes when the string holds a single quote and no double one;
    the quote, the backslash, TAB, LF and CR escaped, every other
    unprintable character as [\xhh]. *)
Definition APOSTROPHE : ascii := "039"%char.
Definition QUOTE : ascii := "034"%char.
Definition BACKSLASH : ascii := "092"%char.

Fixpoint contains (c : ascii) (s : string) : bool :=
  match s with
  | "" => false
  | String d s' => Ascii.eqb c d || contains c s'
  end.

(** [str.isprintable] on one code point below 256. *)
Definition is_printable (c : ascii) : bool :=
  let n := N_of_ascii c in
  ((32 <=? n) && (n <=? 126) || (161 <=? n) && negb (n =? 173))%N.

Definition hex_digit (n : N) : ascii :=
  ascii_of_N (if (n <? 10)%N then 48 + n else 87 + n)%N.

Definition repr_char (quote c : ascii) : string :=
  if Ascii.eqb c quote || Ascii.eqb c BACKSLASH then
    String BACKSLASH (String c "")
  else if Ascii.eqb c "009" then String BACKSLASH "t"
  else if Ascii.eqb c "010" then String BACKSLASH "n"
  else if Ascii.eqb c "013" then String BACKSLASH "r"
  else if is_printable c then String c ""
  else
    let n := N_of_ascii c in
    String BACKSLASH
      (String "x" (String (hex_digit (n / 16)) (String (hex_digit (n mod 16)) ""))).

Fixpoint repr_body (quote : ascii) (s : string) : string :=
  match s with
  | "" => String quote ""
  | String c s' => repr_char quote c ++ repr_body quote s'
  end.

Definition repr (s : string) : string :=
  let quote :=
    if contains APOSTROPHE s && negb (contains QUOTE s) then QUOTE
    else APOSTROPHE in
  String quote (repr_body quote s).

Definition ValueError (message : string) : exn :=
  {| exn_mro := ["ValueError"; "Exception"; "BaseException"];
     exn_str := message |}.

(** The two errors of [int(s)]; the first shows at most 200 characters of
    the argument's [repr]. *)
Definition invalid_literal (s : string) : exn :=
  ValueError ("invalid literal for int() with base 10: "
              ++ substring 0 200 (repr s)).

Definition exceeds_limit (digits : N) : exn :=
  ValueError ("Exceeds the limit (4300 digits) for integer string conversion: "
              ++ "value has " ++ NilEmpty.string_of_uint (N.to_uint digits)
              ++ " digits; use sys.set_int_max_str_digits() to increase the limit").

(** The white space [int] passes over at both ends of its argument:
    TAB..CR and SPACE, and NEL and NBSP, which the conversion first turns
    into spaces; FS..US are not among them. *)
Definition is_int_space (c : ascii) : bool :=
  let n := N_of_ascii c in
  ((9 <=? n) && (n <=? 13) || (n =? 32) || (n =? 133) || (n =? 160))%N.

Fixpoint skip_int_space (s : string) : string :=
  match s with
  | "" => ""
  | String c s' => if is_int_space c then skip_int_space s' else s
  end.

Definition digit_value (c : ascii) : option Z :=
  let n := N_of_ascii c in
  if ((48 <=? n) && (n <=? 57))%N then Some (Z.of_N (n - 48)) else None.

(** The run of decimal digits and underscores [s] starts with: its value
    and its number of digits, unless it is empty or an underscore stands
    first, last or next to another; and what follows the run. *)
Fixpoint scan_digits (s : string) (acc : Z) (count : N) (after_digit : bool)
  : option (Z * N) * string :=
  match s with
  | "" => (if after_digit then Some (acc, count) else None, "")
  | String c s' =>
      if Ascii.eqb c "_" then
        if after_digit then scan_digits s' acc count false else (None, s)
      else
        match digit_value c with
        | Some d => scan_digits s' (10 * acc + d) (count + 1) true
        | None => (if after_digit then Some (acc, count) else None, s)
        end
  end.

(** [int(s)] on a string, with the interpreter's default limit of 4300
    digits: white space, an optional sign, the run of digits, white space.
    The limit is tested once the run is read and before what follows it
    is looked at. *)
Definition int (s : string) : res Z :=
  let t := skip_int_space s in
  let '(sign, digits) :=
    match t with
    | String "-" r => ((-1)%Z, r)
    | String "+" r => (1%Z, r)
    | _ => (1%Z, t)
    end in
  match scan_digits digits 0 0 false with
  | (Some (n, count), rest) =>
      if (4300 <? count)%N then Raise (exceeds_limit count)
      else if truthy (skip_int_space rest) then Raise (invalid_literal s)
      else Ret (sign * n)%Z
  | (None, _) => Raise (invalid_literal s)
  end.

End Py.
Import Py.

(** ** scripts/yahoo_finance.py *)

Module YahooFinance.

Section Adapter.

(** A pandas [DataFrame]; the script only hands it to library calls. *)
Variable frame : Type.

(** The market-data provider and the library calls made on its answers.
    Each call returns or raises. *)
Record provider : Type := {
  (** [yf.Ticker(symbol)] *)
  Ticker : string -> res unit;
  (** [ticker.history(period=period)] *)
  history : string -> string -> res frame;
  (** [ticker.info] *)
  info : string -> res dict;
  (** [yf.Tickers(query)] *)
  Tickers : string -> res unit;
  (** lines 16-19: [reset_index()], the ['Date'] column through
      [strftime], [to_dict('records')] *)
  history_records : frame -> res (list json);
  (** line 33: [datetime.fromtimestamp(t).strftime('%Y-%m-%d')] *)
  format_timestamp : json -> res string;
  (** [len(hist)] *)
  frame_len : frame -> nat;
  (** lines 56-60: the last two rows and the percent change between
      their closes *)
  index_change : frame -> res json;
  (** lines 67-70: the fields ['price'], ['change'], ['change_percent']
      and ['volume'], rounded *)
  index_quote : frame -> json -> res dict;
  (** lines 109-122: the day, week and month changes, rounded; the fields
      ['day_change'], ['week_change'] and ['month_change'] *)
  sector_changes : frame -> res dict;
  (** [datetime.now().strftime('%Y-%m-%d')] *)
  today : string
}.

Variable yf : provider.

Notation "x <- m ;; k" := (bind m (fun x => k))
  (at level 61, m at next level, right associativity).

(** Lines 40-44, 77-81, 131-135, 166-170: the handler every function
    ends with. *)
Definition report_error (e : exn) : res json := Ret (error_result (exn_str e)).

(** Lines 24-29. *)
Definition info_fields : list string :=
  ["shortName"; "longName"; "sector"; "industry"; "website";
   "market"; "marketCap"; "currency"; "previousClose"; "open";
   "fiftyTwoWeekHigh"; "fiftyTwoWeekLow"; "volume";
   "averageVolume"; "beta"; "trailingPE"; "forwardPE"].

Definition filter_info (d : dict) : dict :=
  flat_map (fun k => match dict_lookup d k with
                     | Some v => [(k, v)]
                     | None => []
                     end) info_fields.

(** Lines 12-39. *)
Definition get_stock_data_body (symbol period : string) : res json :=
  _ <- Ticker yf symbol ;;
  hist <- history yf symbol period ;;
  history_data <- history_records yf hist ;;
  info <- info yf symbol ;;
  let filtered_info := filter_info info in
  filtered_info <-
    match dict_lookup info "lastDividendDate" with
    | Some JNull | None => Ret filtered_info
    | Some t =>
        d <- format_timestamp yf t ;;
        Ret (dict_set filtered_info "lastDividendDate" (JStr d))
    end ;;
  Ret (JObj [("status", JStr "success");
             ("info", JObj filtered_info);
             ("history", JList history_data)]).

Definition get_stock_data (symbol period : string) : res json :=
  try_except (get_stock_data_body symbol period) report_error.

(** Line 50. *)
Definition indices : list string :=
  ["^GSPC"; "^DJI"; "^IXIC"; "^FTSE"; "^GDAXI"; "^FCHI"; "^N225"].

(** Lines 54-71: one turn of the loop over the indices. *)
Definition market_step (results : dict) (idx : string) : res dict :=
  _ <- Ticker yf idx ;;
  hist <- history yf idx "5d" ;;
  change_pct <- index_change yf hist ;;
  index_info <- info yf idx ;;
  let index_name := dict_get index_info "shortName" (JStr idx) in
  quote <- index_quote yf hist change_pct ;;
  Ret (dict_set results idx (JObj (("name", index_name) :: quote))).

(** A [for] loop whose body may raise: the first exception ends it. *)
Fixpoint for_each {A S : Type} (step : S -> A -> res S) (l : list A) (s : S)
  : res S :=
  match l with
  | [] => Ret s
  | x :: l' => s' <- step s x ;; for_each step l' s'
  end.

Definition get_market_summary_body : res json :=
  results <- for_each market_step indices [] ;;
  Ret (JObj [("status", JStr "success"); ("data", JObj results)]).

Definition get_market_summary : res json :=
  try_except get_market_summary_body report_error.

(** Lines 87-99, in insertion order. *)
Definition sector_etfs : list (string * string) :=
  [("Technology", "XLK"); ("Healthcare", "XLV"); ("Financials", "XLF");
   ("Energy", "XLE"); ("Consumer Cyclicals", "XLY");
   ("Consumer Staples", "XLP"); ("Industrials", "XLI");
   ("Materials", "XLB"); ("Utilities", "XLU"); ("Real Estate", "XLRE");
   ("Communication Services", "XLC")].

(** Lines 105-124: one turn of the loop over the sectors. *)
Definition sector_step (current_date : string) (results : list json)
           (item : string * string) : res (list json) :=
  let '(sector_name, etf) := item in
  _ <- Ticker yf etf ;;
  hist <- history yf etf "1mo" ;;
  if Nat.ltb 0 (frame_len yf hist) then
    changes <- sector_changes yf hist ;;
    Ret (results ++ [JObj ((("sector", JStr sector_name) :: changes)
                            ++ [("last_updated", JStr current_date)])])%list
  else Ret results.

Definition get_industry_performance_body : res json :=
  let current_date := today yf in
  results <- for_each (sector_step current_date) sector_etfs [] ;;
  Ret (JObj [("status", JStr "success"); ("date", JStr current_date);
             ("data", JList results)]).

Definition get_industry_performance : res json :=
  try_except get_industry_performance_body report_error.

(** Lines 147-158, inside the inner [try]: the lookup of one symbol.  The
    result is the entry to append, if any. *)
Definition lookup_symbol (ticker_symbol : string) : res (option json) :=
  _ <- Ticker yf ticker_symbol ;;
  info <- info yf ticker_symbol ;;
  if dict_mem info "shortName" then
    Ret (Some (JObj [("symbol", JStr ticker_symbol);
                     ("name", dict_get info "shortName" (JStr ""));
                     ("exchange", dict_get info "exchange" (JStr ""));
                     ("sector", dict_get info "sector" (JStr ""));
                     ("industry", dict_get info "industry" (JStr ""))]))
  else Ret None.

(** Lines 145-160: the loop over the symbols; a lookup that raises is
    skipped ([except: continue]), and the loop stops once [limit] entries
    are there. *)
Fixpoint search_loop (symbols : list string) (limit : Z) (results : list json)
  : list json :=
  match symbols with
  | [] => results
  | ticker_symbol :: rest =>
      match try_except_all (lookup_symbol ticker_symbol) (Ret None) with
      | Ret (Some entry) =>
          let results := (results ++ [entry])%list in
          if (limit <=? Z.of_nat (List.length results))%Z then results
          else search_loop rest limit results
      | Ret None | Raise _ => search_loop rest limit results
      end
  end.

(** Lines 140-165. *)
Definition search_stocks_body (query : string) (limit : Z) : res json :=
  _ <- Tickers yf query ;;
  let results := search_loop (words query) limit [] in
  Ret (JObj [("status", JStr "success"); ("data", JList results)]).

Definition search_stocks (query : string) (limit : Z) : res json :=
  try_except (search_stocks_body query limit) report_error.

(** Lines 172-200; [argv] is [sys.argv], the script's name first. *)
Definition main (argv : list string) : outcome :=
  if negb (has_arg argv 1) then
    print_and_return (error_result "No command specified")
  else
    let command := arg argv 1 in
    if String.eqb command "stock" then
      if negb (has_arg argv 2) then
        print_and_return (error_result "No symbol specified")
      else
        let symbol := arg argv 2 in
        let period := if has_arg argv 3 then arg argv 3 else "1mo" in
        print_result (get_stock_data symbol period)
    else if String.eqb command "market" then
      print_result get_market_summary
    else if String.eqb command "sectors" then
      print_result get_industry_performance
    else if String.eqb command "search" then
      if negb (has_arg argv 2) then
        print_and_return (error_result "No query specified")
      else
        let query := arg argv 2 in
        print_result
          (limit <- (if has_arg argv 3 then int (arg argv 3) else Ret 10%Z) ;;
           search_stocks query limit)
    else
      print_and_return (error_result ("Unknown command: " ++ command)).

End Adapter.

End YahooFinance.

(** ** scripts/google_trends.py *)

Module GoogleTrends.

(** What [build_payload] stores in the client: the keywords, the time
    frame and the region of the requests that follow. *)
Record payload : Type := {
  kw_list : list string;
  timeframe : string;
  geo : string
}.

(** The calls made on the client. *)
Inductive call : Type :=
  | BuildPayload (p : payload)
  | InterestOverTime
  | RelatedQueries
  | RelatedTopics
  | TrendingSearches (pn : string).

(** The module-level client [pytrends] (line 10), shared by all the
    functions: the payload in force and the calls made so far. *)
Record client : Type := {
  current : option payload;
  calls : list call
}.

(** One record of the melted frame of lines 178-187. *)
Record trend_record : Type := {
  date : string;
  keyword : string;
  interest : json
}.

Definition record_json (r : trend_record) : json :=
  JObj [("date", JStr (date r)); ("keyword", JStr (keyword r));
        ("interest", interest r)].

Section Adapter.

Variable frame : Type.

(** The trends provider and the library calls made on its answers. *)
Record provider : Type := {
  (** line 10: [TrendReq(hl='en-US', tz=360)] *)
  TrendReq : res unit;
  (** what [build_payload] does with the provider under the new payload:
      it returns or raises *)
  build : payload -> res unit;
  (** [interest_over_time()], [related_queries()], [related_topics()]
      under the payload in force, [trending_searches(pn=geo)] *)
  interest_over_time : option payload -> res frame;
  related_queries : option payload -> res (list (string * list (string * option frame)));
  related_topics : option payload -> res (list (string * list (string * option frame)));
  trending_searches : string -> res frame;
  (** [df.empty] *)
  empty : frame -> bool;
  (** lines 28-32: [reset_index()], the dates through [strftime],
      [to_dict('records')] *)
  dated_records : frame -> res (list json);
  (** [df.to_dict('records')] *)
  to_records : frame -> res (list json);
  (** lines 132-136: the column renamed, the rank added, the records *)
  ranked_records : frame -> res (list json);
  (** lines 170-187: [isPartial] dropped, the index reset, the dates
      through [strftime], [pd.melt] with [id_vars=['date']],
      [value_vars=chunk], [var_name='keyword'], [value_name='interest'],
      and [to_dict('records')] *)
  melted_records : frame -> list string -> res (list trend_record);
  (** [datetime.now().strftime('%Y-%m-%d')] *)
  today : string
}.

Variable pt : provider.

(** Code that uses the shared client: it returns or raises, and leaves the
    client as its calls made it. *)
Definition M (A : Type) : Type := client -> res A * client.

Definition ret {A : Type} (a : A) : M A := fun c => (Ret a, c).
Definition lift {A : Type} (r : res A) : M A := fun c => (r, c).
Definition bindM {A B : Type} (m : M A) (k : A -> M B) : M B :=
  fun c => match m c with
           | (Ret a, c') => k a c'
           | (Raise e, c') => (Raise e, c')
           end.

Notation "x <- m ;; k" := (bindM m (fun x => k))
  (at level 61, m at next level, right associativity).

(** [try: body  except Exception as e: return error] *)
Definition catching (body : M json) : M json :=
  fun c => match body c with
           | (Ret v, c') => (Ret v, c')
           | (Raise e, c') =>
               if derives_Exception e
               then (Ret (error_result (exn_str e)), c')
               else (Raise e, c')
           end.

Definition no_data : json := error_result "No data returned for the query".

(** [pytrends.build_payload(kw_list, cat=0, timeframe=..., geo=..., gprop='')] *)
Definition build_payload (kws : list string) (tf g : string) : M unit :=
  fun c =>
    let p := {| kw_list := kws; timeframe := tf; geo := g |} in
    (build pt p,
     {| current := Some p; calls := (calls c ++ [BuildPayload p])%list |}).

(** A request made under the payload in force. *)
Definition request_with {A : Type} (r : call)
           (answer : option payload -> res A) : M A :=
  fun c => (answer (current c),
            {| current := current c; calls := (calls c ++ [r])%list |}).

(** Lines 14-47; [keywords] is a list at the only call site. *)
Definition get_interest_over_time_body (keywords : list string)
           (period : string) : M json :=
  _ <- build_payload keywords period "" ;;
  df <- request_with InterestOverTime (interest_over_time pt) ;;
  if negb (empty pt df) then
    result_data <- lift (dated_records pt df) ;;
    ret (JObj [("status", JStr "success"); ("data", JList result_data)])
  else ret no_data.

Definition get_interest_over_time (keywords : list string) (period : string)
  : M json := catching (get_interest_over_time_body keywords period).

(** Lines 64-65 and 68-69 (101-102 and 105-106): one of the two parts of
    the answer for a keyword.  [query_data[part]] may be [None], and
    [None.empty] raises. *)
Definition AttributeError_empty : exn :=
  {| exn_mro := ["AttributeError"; "Exception"; "BaseException"];
     exn_str := "'NoneType' object has no attribute 'empty'" |}.

Fixpoint lookup {A : Type} (d : list (string * A)) (k : string) : option A :=
  match d with
  | [] => None
  | (k', v) :: d' => if String.eqb k' k then Some v else lookup d' k
  end.

Definition add_part (query_data : list (string * option frame))
           (part : string) (result : dict) : res dict :=
  match lookup query_data part with
  | None => Ret result
  | Some None => Raise AttributeError_empty
  | Some (Some df) =>
      if negb (empty pt df) then
        bind (to_records pt df)
             (fun rs => Ret (dict_set result part (JList rs)))
      else Ret result
  end.

(** Lines 58-79 and 95-116, from the provider's answer on. *)
Definition related_result
           (answer : list (string * list (string * option frame)))
           (keyword : string) : res json :=
  match lookup answer keyword with
  | Some query_data =>
      bind (add_part query_data "top" [])
           (fun result =>
              bind (add_part query_data "rising" result)
                   (fun result =>
                      Ret (JObj [("status", JStr "success");
                                 ("data", JObj result)])))
  | None => Ret no_data
  end.

(** Lines 51-84. *)
Definition get_related_queries_body (keyword period : string) : M json :=
  _ <- build_payload [keyword] period "" ;;
  related_queries_dict <- request_with RelatedQueries (related_queries pt) ;;
  lift (related_result related_queries_dict keyword).

Definition get_related_queries (keyword period : string) : M json :=
  catching (get_related_queries_body keyword period).

(** Lines 88-121. *)
Definition get_related_topics_body (keyword period : string) : M json :=
  _ <- build_payload [keyword] period "" ;;
  related_topics_dict <- request_with RelatedTopics (related_topics pt) ;;
  lift (related_result related_topics_dict keyword).

Definition get_related_topics (keyword period : string) : M json :=
  catching (get_related_topics_body keyword period).

(** Lines 125-153. *)
Definition get_trending_searches_body (g : string) : M json :=
  trending_searches_df <-
    request_with (TrendingSearches g) (fun _ => trending_searches pt g) ;;
  if negb (empty pt trending_searches_df) then
    result_data <- lift (ranked_records pt trending_searches_df) ;;
    ret (JObj [("status", JStr "success"); ("geo", JStr g);
               ("date", JStr (today pt)); ("data", JList result_data)])
  else ret no_data.

Definition get_trending_searches (g : string) : M json :=
  catching (get_trending_searches_body g).

(** [range(0, n, step)] and [l[i:j]] for [0 <= i <= j]. *)
Definition range0 (n step : nat) : list nat :=
  map (fun j => j * step) (seq 0 ((n + step - 1) / step)).
Definition slice {A : Type} (l : list A) (i j : nat) : list A :=
  firstn (j - i) (skipn i l).

(** Line 159. *)
Definition chunks (industry_keywords : list string) : list (list string) :=
  map (fun i => slice industry_keywords i (i + 5))
      (range0 (List.length industry_keywords) 5).

(** Lines 162-187: one turn of the loop over the chunks. *)
Definition chunk_step (period region : string) (all_data : list trend_record)
           (chunk : list string) : M (list trend_record) :=
  _ <- build_payload chunk period region ;;
  interest_df <- request_with InterestOverTime (interest_over_time pt) ;;
  if negb (empty pt interest_df) then
    records <- lift (melted_records pt interest_df chunk) ;;
    ret (all_data ++ records)%list
  else ret all_data.

Fixpoint for_each {A S : Type} (step : S -> A -> M S) (l : list A) (s : S)
  : M S :=
  match l with
  | [] => ret s
  | x :: l' => s' <- step s x ;; for_each step l' s'
  end.

(** Lines 158-200. *)
Definition get_industry_interest_body (industry_keywords : list string)
           (period region : string) : M json :=
  all_data <- for_each (chunk_step period region) (chunks industry_keywords) [] ;;
  match all_data with
  | _ :: _ =>
      ret (JObj [("status", JStr "success"); ("region", JStr region);
                 ("period", JStr period);
                 ("data", JList (map record_json all_data))])
  | [] => ret no_data
  end.

Definition get_industry_interest (industry_keywords : list string)
           (period region : string) : M json :=
  catching (get_industry_interest_body industry_keywords period region).

(** [sys.argv[3] if len(sys.argv) > 3 else 'today 12-m'] *)
Definition period_arg (argv : list string) : string :=
  if has_arg argv 3 then arg argv 3 else "today 12-m".

(** Lines 207-249. *)
Definition run (m : M json) (c : client) : outcome := print_result (fst (m c)).

Definition main (argv : list string) (c : client) : outcome :=
  if negb (has_arg argv 1) then
    print_and_return (error_result "No command specified")
  else
    let command := arg argv 1 in
    if String.eqb command "interest" then
      if negb (has_arg argv 2) then
        print_and_return (error_result "No keywords specified")
      else
        let period := period_arg argv in
        run (get_interest_over_time (PyStr.split "," (arg argv 2)) period) c
    else if String.eqb command "related_queries" then
      if negb (has_arg argv 2) then
        print_and_return (error_result "No keyword specified")
      else
        let period := period_arg argv in
        run (get_related_queries (arg argv 2) period) c
    else if String.eqb command "related_topics" then
      if negb (has_arg argv 2) then
        print_and_return (error_result "No keyword specified")
      else
        let period := period_arg argv in
        run (get_related_topics (arg argv 2) period) c
    else if String.eqb command "trending" then
      let g := if has_arg argv 2 then arg argv 2 else "US" in
      run (get_trending_searches g) c
    else if String.eqb command "industry" then
      if negb (has_arg argv 2) then
        print_and_return (error_result "No industry keywords specified")
      else
        let period := period_arg argv in
        let region := if has_arg argv 4 then arg argv 4 else "US" in
        run (get_industry_interest (PyStr.split "," (arg argv 2)) period region) c
    else
      print_and_return (error_result ("Unknown command: " ++ command)).

(** The script: the module-level client is created, then [main] runs. *)
Definition script (argv : list string) : outcome :=
  match TrendReq pt with
  | Ret _ => main argv {| current := None; calls := [] |}
  | Raise e => traceback e
  end.

End Adapter.

End GoogleTrends.

(** ** convert-report-to-doc.py: the script around the conversion pass *)

Module ConverterScript.

(** REPORT.docx after a run: as it was before, holding a whole document,
    or holding what a write that broke off left there. *)
Inductive report_docx : Type :=
  | Untouched
  | Whole (doc : document)
  | Partial.

(** [doc.save('REPORT.docx')] writes the file in place: it returns with
    the document written, or raises, having left the file alone
    ([partial = false]) or not ([partial = true]). *)
Inductive save_outcome : Type :=
  | Saved
  | SaveFailed (x : exn) (partial : bool).

(** What the script meets outside itself. *)
Record env : Type := {
  (** lines 10-12: the imports at the top of the module *)
  imports : res unit;
  (** line 17: [import docx] inside [main] *)
  import_docx : res unit;
  (** line 23: [os.path.exists('REPORT.md')] *)
  report_exists : bool;
  (** lines 29-30: opening and reading REPORT.md *)
  read_report : res string;
  (** line 33: [markdown.markdown(md_content)], its value unused *)
  markdown : string -> res unit;
  (** line 36: [Document()] *)
  new_document : res unit;
  (** lines 43, 53, 63, 73, 86, 88: [add_heading] or [add_paragraph] on
      the python-docx document, which takes the node or raises *)
  add_node : node -> res unit;
  (** line 91 *)
  save : document -> save_outcome;
  (** line 92: the one [print] inside the [try] *)
  print_success : res unit
}.

(** A run: the lines printed, the exit status, REPORT.docx afterwards, and
    the exception that ended the run when one propagated.  The prints
    outside the [try] are taken to succeed. *)
Record run : Type := {
  printed : list string;
  status : Z;
  saved : report_docx;
  fault : option exn
}.

(** [print(message); sys.exit(1)] with REPORT.docx in the state [st]. *)
Definition report (message : string) (st : report_docx) : run :=
  {| printed := [message]; status := 1; saved := st; fault := None |}.

Definition exit1 (message : string) : run := report message Untouched.

Definition crash (e : exn) (st : report_docx) : run :=
  {| printed := []; status := 1; saved := st; fault := Some e |}.

(** The calls that put the nodes into the document, in the order of the
    pass; the first that raises ends them. *)
Fixpoint add_all (e : env) (nodes : list node) : res unit :=
  match nodes with
  | [] => Ret tt
  | n :: rest => bind (add_node e n) (fun _ => add_all e rest)
  end.

(** Lines 28-92, the body of the [try]: how it ends, and REPORT.docx at
    that point. *)
Definition try_body (e : env) : res unit * report_docx :=
  match read_report e with
  | Raise x => (Raise x, Untouched)
  | Ret md_content =>
      match
        bind (markdown e md_content) (fun _ =>
        bind (new_document e) (fun _ =>
        add_all e (convert md_content)))
      with
      | Raise x => (Raise x, Untouched)
      | Ret _ =>
          match save e (convert md_content) with
          | SaveFailed x partial =>
              (Raise x, if partial then Partial else Untouched)
          | Saved => (print_success e, Whole (convert md_content))
          end
      end
  end.

(** Lines 14-96. *)
Definition main (e : env) : run :=
  match import_docx e with
  | Raise x =>
      if isinstance x "ImportError" then
        exit1 ("The 'python-docx' library is required. "
               ++ "Install it using 'pip install python-docx markdown'")
      else crash x Untouched
  | Ret _ =>
      if negb (report_exists e) then
        exit1 "Error: REPORT.md file not found in the current directory."
      else
        match try_body e with
        | (Ret _, st) =>
            {| printed := ["Successfully converted REPORT.md to REPORT.docx"];
               status := 0; saved := st; fault := None |}
        | (Raise x, st) =>
            if derives_Exception x then
              report ("Error converting the report: " ++ exn_str x) st
            else crash x st
        end
  end.

(** The script: the imports, then [main]. *)
Definition script (e : env) : run :=
  match imports e with
  | Ret _ => main e
  | Raise x => crash x Untouched
  end.

End ConverterScript.

(** ** Reports and fragments used as examples *)

Definition three_items : string :=
  "- one" ++ nl ++ "- two" ++ nl ++ "- three".

Definition nested_marker : string := "- a" ++ nl ++ "- - b".

Definition csharp_report : string :=
  "# C# Guide" ++ nl ++ "## Intro" ++ nl ++ "body".

(** A heading text as the heading convention has it: not empty, on one
    line, no white space at either end. *)
Definition clean (a : string) : bool :=
  truthy a && single_line a && String.eqb (lstrip a) a && String.eqb (rstrip a) a.

Definition nested_section : string :=
  "## S" ++ nl ++ "text" ++ nl ++ "### Sub" ++ nl ++ "more".

Definition empty_item_report : string :=
  "# T" ++ nl ++ "## S" ++ nl ++ "intro" ++ nl
        ++ "### Sub" ++ nl ++ "- " ++ nl ++ "- b".

Definition leading_subsection_report : string :=
  "# T" ++ nl ++ "## S" ++ nl ++ "### First" ++ nl ++ "lost" ++ nl
        ++ "### Second" ++ nl ++ "kept".

Definition leading_subsection_section : string :=
  "S" ++ nl ++ "### First" ++ nl ++ "lost" ++ nl ++ "### Second" ++ nl ++ "kept".

(** A provider that answers every request, except that the details of a
    symbol cannot be fetched: [ticker.info] raises. *)
Definition connection_error : exn :=
  {| exn_mro := ["ConnectionError"; "OSError"; "Exception"; "BaseException"];
     exn_str := "Max retries exceeded" |}.

Definition yf_info_down : YahooFinance.provider unit :=
  {| YahooFinance.Ticker := fun _ => Ret tt;
     YahooFinance.history := fun _ _ => Ret tt;
     YahooFinance.info := fun _ => Raise connection_error;
     YahooFinance.Tickers := fun _ => Ret tt;
     YahooFinance.history_records := fun _ => Ret [];
     YahooFinance.format_timestamp := fun _ => Ret "2024-01-01";
     YahooFinance.frame_len := fun _ => 1;
     YahooFinance.index_change := fun _ => Ret (JNum "0.0");
     YahooFinance.index_quote := fun _ _ => Ret [];
     YahooFinance.sector_changes := fun _ => Ret [];
     YahooFinance.today := "2024-01-01" |}.

(** The claim of C4 about one run: a single JSON object is printed, with
    status error and a non-empty message, and the exit status is 0. *)
Definition reports_error (o : outcome) : Prop :=
  exists message,
    message <> "" /\ stdout o = [error_result message] /\ exit_code o = 0%Z.

(** A trends provider that answers every request with a frame holding one
    record per keyword asked for. *)
Definition pt_echo : GoogleTrends.provider (list string) :=
  {| GoogleTrends.TrendReq := Ret tt;
     GoogleTrends.build := fun _ => Ret tt;
     GoogleTrends.interest_over_time := fun p =>
       match p with
       | Some p => Ret (GoogleTrends.kw_list p)
       | None => Raise (ValueError "no payload")
       end;
     GoogleTrends.related_queries := fun _ => Ret [];
     GoogleTrends.related_topics := fun _ => Ret [];
     GoogleTrends.trending_searches := fun _ => Ret [];
     GoogleTrends.empty := fun df => match df with [] => true | _ => false end;
     GoogleTrends.dated_records := fun _ => Ret [];
     GoogleTrends.to_records := fun _ => Ret [];
     GoogleTrends.ranked_records := fun _ => Ret [];
     GoogleTrends.melted_records := fun df chunk =>
       Ret (map (fun k => {| GoogleTrends.date := "2024-01-07";
                             GoogleTrends.keyword := k;
                             GoogleTrends.interest := JNum "50" |}) chunk);
     GoogleTrends.today := "2024-01-07" |}.

(** A trends client that cannot be created (no network). *)
Definition pt_offline : GoogleTrends.provider unit :=
  {| GoogleTrends.TrendReq := Raise connection_error;
     GoogleTrends.build := fun _ => Ret tt;
     GoogleTrends.interest_over_time := fun _ => Ret tt;
     GoogleTrends.related_queries := fun _ => Ret [];
     GoogleTrends.related_topics := fun _ => Ret [];
     GoogleTrends.trending_searches := fun _ => Ret tt;
     GoogleTrends.empty := fun _ => true;
     GoogleTrends.dated_records := fun _ => Ret [];
     GoogleTrends.to_records := fun _ => Ret [];
     GoogleTrends.ranked_records := fun _ => Ret [];
     GoogleTrends.melted_records := fun _ _ => Ret [];
     GoogleTrends.today := "2024-01-07" |}.

(** The records one chunk contributes, lines 163-187: what the provider
    answers under the payload built from the chunk, melted. *)
Definition chunk_records {frame : Type} (pt : GoogleTrends.provider frame)
           (period region : string) (chunk : list string)
  : list GoogleTrends.trend_record :=
  let p := {| GoogleTrends.kw_list := chunk; GoogleTrends.timeframe := period;
              GoogleTrends.geo := region |} in
  match GoogleTrends.interest_over_time _ pt (Some p) with
  | Ret df =>
      if negb (GoogleTrends.empty _ pt df) then
        match GoogleTrends.melted_records _ pt df chunk with
        | Ret records => records
        | Raise _ => []
        end
      else []
  | Raise _ => []
  end.

(** The calls one chunk causes: its payload built, one request sent. *)
Definition chunk_calls (period region : string) (chunk : list string)
  : list GoogleTrends.call :=
  [GoogleTrends.BuildPayload
     {| GoogleTrends.kw_list := chunk; GoogleTrends.timeframe := period;
        GoogleTrends.geo := region |};
   GoogleTrends.InterestOverTime].

(** The field of a JSON object. *)
Definition field (v : json) (k : string) : option json :=
  match v with
  | JObj fields => dict_lookup fields k
  | _ => None
  end.


(** A list none of whose fragments is a marker alone: every fragment that
    is not blank is not blank without its marker either. *)
Definition bare_marker_free (block : string) : bool :=
  forallb (fun i => negb (nonblank i) || nonblank (unmark i))
          (split sep_item block).





(** Eleven keywords, three chunks; the provider [pt_knows_a] of the
    further properties fails on the second. *)
Definition eleven_keywords : list string :=
  ["a"; "b"; "c"; "d"; "e"; "f"; "g"; "h"; "i"; "j"; "k"].


(** Seven keywords asked of the echoing provider by a fresh client. *)
Definition seven_keywords : list string := ["a"; "b"; "c"; "d"; "e"; "f"; "g"].

Definition fresh_client : GoogleTrends.client :=
  {| GoogleTrends.current := None; GoogleTrends.calls := [] |}.

Definition echo_run : res json * GoogleTrends.client :=
  GoogleTrends.get_industry_interest (list string) pt_echo seven_keywords
    "today 12-m" "US" fresh_client.

Definition echo_result : json :=
  match fst echo_run with
  | Ret v => v
  | Raise _ => JNull
  end.

(** ** Further notions used in the properties of the three scripts *)

(** A bulleted list as the heading convention writes it: a marker before
    every item, one item per line. *)
Definition render_list (items : list string) : string :=
  "- " ++ join sep_item items.

(** A list item that comes back unchanged: a clean text that does not
    itself start with a marker. *)
Definition plain_item (i : string) : bool :=
  clean i && negb (startswith "- " i).

(** A text no white space surrounds. *)
Definition trimmed (s : string) : bool :=
  String.eqb (lstrip s) s && String.eqb (rstrip s) s.

(** A paragraph in the default style. *)
Definition is_plain (n : node) : bool :=
  match n with
  | Paragraph _ Normal => true
  | _ => false
  end.

(** Nothing, or nodes that begin with a level-2 heading. *)
Definition opens_with_subsection (l : list node) : bool :=
  match l with
  | [] => true
  | Heading _ 2 :: _ => true
  | _ => false
  end.

Definition plain (t : string) : node := Paragraph t Normal.

(** Reports and fragments for the further properties. *)
Definition title_only_report : string := "# Only a title" ++ nl ++ "and a line".

Definition two_line_section : string :=
  "  Overview  " ++ nl ++ nl ++ "first" ++ nl ++ "second  " ++ nl.

Definition shopping_list : list string := ["milk"; "two eggs"; "-5 degrees"].

(** A paragraph that comes back unchanged: not empty, trimmed, without a
    blank line inside, not a list. *)
Definition plain_para (p : string) : bool :=
  truthy p && trimmed p && negb (occurs sep_paragraph p)
  && negb (startswith "- " p).

(** The last character is not a line feed. *)
Fixpoint open_ended (s : string) : bool :=
  match s with
  | "" => true
  | String c "" => negb (Ascii.eqb c LF)
  | String _ s' => open_ended s'
  end.

Definition two_paragraphs : list string :=
  ["Revenue grew." ++ nl ++ "Costs fell."; "Outlook: stable"].

(** ** Notions for the adapters *)

(** A computation that raises, if at all, an exception deriving from
    [Exception]. *)
Definition catchable {A : Type} (r : res A) : Prop :=
  forall e, r = Raise e -> derives_Exception e = true.

(** A provider none of whose calls raises anything else. *)
Record yahoo_catchable {frame : Type} (yf : YahooFinance.provider frame)
  : Prop := {
  catch_Ticker : forall s, catchable (YahooFinance.Ticker frame yf s);
  catch_history : forall s p, catchable (YahooFinance.history frame yf s p);
  catch_info : forall s, catchable (YahooFinance.info frame yf s);
  catch_Tickers : forall q, catchable (YahooFinance.Tickers frame yf q);
  catch_history_records :
    forall f, catchable (YahooFinance.history_records frame yf f);
  catch_format_timestamp :
    forall t, catchable (YahooFinance.format_timestamp frame yf t);
  catch_index_change :
    forall f, catchable (YahooFinance.index_change frame yf f);
  catch_index_quote :
    forall f j, catchable (YahooFinance.index_quote frame yf f j);
  catch_sector_changes :
    forall f, catchable (YahooFinance.sector_changes frame yf f)
}.

(** The two values of the status field. *)
Definition is_success (v : json) : Prop :=
  field v "status" = Some (JStr "success").
Definition has_status (v : json) : Prop :=
  is_success v \/ field v "status" = Some (JStr "error").

(** An entry of the market summary for the index [fst kv]: its name is
    the provider's short name, or the index symbol when there is none. *)
Definition summary_entry {frame : Type} (yf : YahooFinance.provider frame)
           (kv : string * json) : Prop :=
  exists info quote,
    YahooFinance.info frame yf (fst kv) = Ret info /\
    snd kv = JObj (("name", dict_get info "shortName" (JStr (fst kv))) :: quote).

(** The sectors whose fund has a history that is not empty. *)
Definition has_history {frame : Type} (yf : YahooFinance.provider frame)
           (item : string * string) : bool :=
  match YahooFinance.history frame yf (snd item) "1mo" with
  | Ret hist => Nat.ltb 0 (YahooFinance.frame_len frame yf hist)
  | Raise _ => false
  end.

(** A provider that knows [MSFT] and [AAPL] and fails on everything else. *)
Definition yf_two_known : YahooFinance.provider unit :=
  {| YahooFinance.Ticker := fun _ => Ret tt;
     YahooFinance.history := fun _ _ => Ret tt;
     YahooFinance.info := fun s =>
       if String.eqb s "MSFT" then Ret [("shortName", JStr "Microsoft")]
       else if String.eqb s "AAPL" then Ret [("shortName", JStr "Apple");
                                            ("lastDividendDate", JNull)]
       else Raise connection_error;
     YahooFinance.Tickers := fun _ => Ret tt;
     YahooFinance.history_records := fun _ => Ret [];
     YahooFinance.format_timestamp := fun _ => Ret "2024-01-01";
     YahooFinance.frame_len := fun _ => 0;
     YahooFinance.index_change := fun _ => Ret (JNum "0.0");
     YahooFinance.index_quote := fun _ _ => Ret [];
     YahooFinance.sector_changes := fun _ => Ret [];
     YahooFinance.today := "2024-01-01" |}.

(** A provider that answers everything. *)
Definition yf_up : YahooFinance.provider unit :=
  {| YahooFinance.Ticker := fun _ => Ret tt;
     YahooFinance.history := fun _ _ => Ret tt;
     YahooFinance.info := fun s => Ret [("exchange", JStr "NMS")];
     YahooFinance.Tickers := fun _ => Ret tt;
     YahooFinance.history_records := fun _ => Ret [];
     YahooFinance.format_timestamp := fun _ => Ret "2024-01-01";
     YahooFinance.frame_len := fun _ => 3;
     YahooFinance.index_change := fun _ => Ret (JNum "0.5");
     YahooFinance.index_quote := fun _ _ => Ret [("price", JNum "10.0")];
     YahooFinance.sector_changes := fun _ => Ret [("day_change", JNum "0.1")];
     YahooFinance.today := "2024-01-01" |}.

(** Code on the shared client that raises, if at all, an exception
    deriving from [Exception]. *)
Definition catchableM {A : Type} (m : GoogleTrends.M A) : Prop :=
  forall c e c', m c = (Raise e, c') -> derives_Exception e = true.

Record trends_catchable {frame : Type} (pt : GoogleTrends.provider frame)
  : Prop := {
  catch_build : forall p, catchable (GoogleTrends.build frame pt p);
  catch_interest_over_time :
    forall p, catchable (GoogleTrends.interest_over_time frame pt p);
  catch_related_queries :
    forall p, catchable (GoogleTrends.related_queries frame pt p);
  catch_related_topics :
    forall p, catchable (GoogleTrends.related_topics frame pt p);
  catch_trending_searches :
    forall g, catchable (GoogleTrends.trending_searches frame pt g);
  catch_dated_records :
    forall f, catchable (GoogleTrends.dated_records frame pt f);
  catch_to_records : forall f, catchable (GoogleTrends.to_records frame pt f);
  catch_ranked_records :
    forall f, catchable (GoogleTrends.ranked_records frame pt f);
  catch_melted_records :
    forall f ch, catchable (GoogleTrends.melted_records frame pt f ch)
}.

(** The payload lines 163 builds for a chunk. *)
Definition chunk_payload (period region : string) (chunk : list string)
  : GoogleTrends.payload :=
  {| GoogleTrends.kw_list := chunk; GoogleTrends.timeframe := period;
     GoogleTrends.geo := region |}.

(** What the provider makes of one chunk, lines 163-187: the records it
    contributes, none for an empty frame, or the exception raised on the
    way. *)
Definition chunk_outcome {frame : Type} (pt : GoogleTrends.provider frame)
           (period region : string) (chunk : list string)
  : res (list GoogleTrends.trend_record) :=
  let p := chunk_payload period region chunk in
  bind (GoogleTrends.build frame pt p) (fun _ =>
  bind (GoogleTrends.interest_over_time frame pt (Some p)) (fun df =>
  if negb (GoogleTrends.empty frame pt df)
  then GoogleTrends.melted_records frame pt df chunk
  else Ret [])).

(** The success object of lines 190-195. *)
Definition industry_success (period region : string)
           (all_data : list GoogleTrends.trend_record) : json :=
  JObj [("status", JStr "success"); ("region", JStr region);
        ("period", JStr period);
        ("data", JList (map GoogleTrends.record_json all_data))].

(** A trends provider that answers the first chunk asked and fails on
    keywords it does not know. *)
Definition pt_knows_a : GoogleTrends.provider (list string) :=
  {| GoogleTrends.TrendReq := Ret tt;
     GoogleTrends.build := fun _ => Ret tt;
     GoogleTrends.interest_over_time := fun p =>
       match p with
       | Some p =>
           match GoogleTrends.kw_list p with
           | "a" :: _ => Ret (GoogleTrends.kw_list p)
           | _ => Raise connection_error
           end
       | None => Raise (ValueError "no payload")
       end;
     GoogleTrends.related_queries := fun _ =>
       Ret [("rust", [("top", None); ("rising", None)]); ("go", [])];
     GoogleTrends.related_topics := fun _ => Ret [];
     GoogleTrends.trending_searches := fun _ => Ret [];
     GoogleTrends.empty := fun df => match df with [] => true | _ => false end;
     GoogleTrends.dated_records := fun _ => Ret [];
     GoogleTrends.to_records := fun _ => Ret [];
     GoogleTrends.ranked_records := fun _ => Ret [];
     GoogleTrends.melted_records := fun df chunk =>
       Ret (map (fun k => {| GoogleTrends.date := "2024-01-07";
                             GoogleTrends.keyword := k;
                             GoogleTrends.interest := JNum "50" |}) chunk);
     GoogleTrends.today := "2024-01-07" |}.

(** A trends provider whose frames are all empty. *)
Definition pt_silent : GoogleTrends.provider (list string) :=
  {| GoogleTrends.TrendReq := Ret tt;
     GoogleTrends.build := fun _ => Ret tt;
     GoogleTrends.interest_over_time := fun _ => Ret [];
     GoogleTrends.related_queries := fun _ => Ret [];
     GoogleTrends.related_topics := fun _ => Ret [];
     GoogleTrends.trending_searches := fun _ => Ret [];
     GoogleTrends.empty := fun df => match df with [] => true | _ => false end;
     GoogleTrends.dated_records := fun _ => Ret [];
     GoogleTrends.to_records := fun _ => Ret [];
     GoogleTrends.ranked_records := fun _ => Ret [];
     GoogleTrends.melted_records := fun _ _ => Ret [];
     GoogleTrends.today := "2024-01-07" |}.

Definition permission_error : exn :=
  {| exn_mro := ["PermissionError"; "OSError"; "Exception"; "BaseException"];
     exn_str := "[Errno 13] Permission denied: 'REPORT.docx'" |}.

(** The converter's surroundings when REPORT.docx cannot be written. *)
Definition env_read_only : ConverterScript.env :=
  {| ConverterScript.imports := Ret tt;
     ConverterScript.import_docx := Ret tt;
     ConverterScript.report_exists := true;
     ConverterScript.read_report := Ret csharp_report;
     ConverterScript.markdown := fun _ => Ret tt;
     ConverterScript.new_document := Ret tt;
     ConverterScript.add_node := fun _ => Ret tt;
     ConverterScript.save :=
       fun _ => ConverterScript.SaveFailed permission_error false;
     ConverterScript.print_success := Ret tt |}.

(** A provider with a history for two of the sector funds only. *)
Definition yf_two_funds : YahooFinance.provider bool :=
  {| YahooFinance.Ticker := fun _ => Ret tt;
     YahooFinance.history := fun etf _ =>
       Ret (String.eqb etf "XLK" || String.eqb etf "XLE");
     YahooFinance.info := fun _ => Ret [];
     YahooFinance.Tickers := fun _ => Ret tt;
     YahooFinance.history_records := fun _ => Ret [];
     YahooFinance.format_timestamp := fun _ => Ret "2024-01-01";
     YahooFinance.frame_len := fun hist => if hist then 21 else 0;
     YahooFinance.index_change := fun _ => Ret (JNum "0.5");
     YahooFinance.index_quote := fun _ _ => Ret [];
     YahooFinance.sector_changes := fun _ =>
       Ret [("day_change", JNum "0.1"); ("week_change", JNum "0.4");
            ("month_change", JNum "1.2")];
     YahooFinance.today := "2024-01-01" |}.

Definition two_funds_result : json :=
  match YahooFinance.get_industry_performance bool yf_two_funds with
  | Ret v => v
  | Raise _ => JNull
  end.


(** * Properties *)

(** ** Sanity checks of the string primitives *)

Example split_ex1 : split "ab" "xabyabab" = ["x"; "y"; ""; ""].
Proof. reflexivity. Qed.
Example split_ex2 : split "aa" "aaa" = [""; "a"].
Proof. reflexivity. Qed.
Example split_ex3 : split "-" "" = [""].
Proof. reflexivity. Qed.
Example strip_ex : strip ("  a b " ++ nl) = "a b".
Proof. reflexivity. Qed.
Example replace_ex : replace "# " "" "# C# x" = "Cx".
Proof. reflexivity. Qed.

(** ** Equations of [split] *)

Section SplitFacts.

Lemma prefix_app (p s : string) : prefix p (p ++ s) = true.
Proof.
  induction p as [|c p IH]; simpl.
  - now destruct s.
  - destruct (ascii_dec c c) as [_|n]; [exact IH | now elim n].
Qed.

Lemma prefix_head_neq (c d : ascii) (p s : string) :
  c <> d -> prefix (String c p) (String d s) = false.
Proof.
  intros H; simpl. destruct (ascii_dec c d) as [e|_]; [now elim H | reflexivity].
Qed.

Lemma split_from_skip (sep x rest : string) :
  split_from sep (x ++ rest) (String.length x) = split_from sep rest 0.
Proof.
  induction x as [|c x IH]; simpl.
  - reflexivity.
  - exact IH.
Qed.

(** At an occurrence of the separator a piece ends and the scan resumes
    after the separator. *)
Lemma split_at_sep (c : ascii) (sep' rest : string) :
  split (String c sep') (String c sep' ++ rest)
  = "" :: split (String c sep') rest.
Proof.
  unfold split.
  change (String c sep' ++ rest) with (String c (sep' ++ rest)).
  cbn [split_from].
  change (String c (sep' ++ rest)) with (String c sep' ++ rest).
  rewrite prefix_app.
  change (String.length (String c sep') - 1) with (String.length sep' - 0).
  rewrite Nat.sub_0_r.
  now rewrite split_from_skip.
Qed.

(** Elsewhere the character read joins the piece being read. *)
Lemma split_step (sep : string) (c : ascii) (s : string) :
  prefix sep (String c s) = false ->
  split sep (String c s) = cons_head c (split sep s).
Proof.
  intros H. unfold split. cbn [split_from]. now rewrite H.
Qed.

Lemma split_from_not_nil (sep s : string) (k : nat) : split_from sep s k <> [].
Proof.
  revert k; induction s as [|c s IH]; intros k; cbn [split_from].
  - discriminate.
  - destruct k as [|k]; [|apply IH].
    destruct (prefix sep (String c s)); [discriminate|].
    specialize (IH 0). destruct (split_from sep s 0); [now elim IH | discriminate].
Qed.

Lemma split_not_nil (sep s : string) : split sep s <> [].
Proof. apply split_from_not_nil. Qed.

(** A prefix test on a concatenation succeeds inside the first part or
    straddles the seam. *)
Lemma prefix_app_inv (p x y : string) :
  prefix p (x ++ y) = true ->
  prefix p x = true \/ exists q, p = x ++ q /\ q <> "" /\ prefix q y = true.
Proof.
  revert p; induction x as [|c x IH]; intros p H.
  - destruct p as [|d p]; [now left|].
    right. exists (String d p). repeat split; [discriminate | exact H].
  - destruct p as [|d p]; [now left|].
    simpl in H. simpl. destruct (ascii_dec d c) as [->|_]; [|discriminate].
    destruct (IH p H) as [Hp | (q & -> & Hq & Hpq)]; [now left|].
    right. now exists q.
Qed.

Lemma single_line_app_LF (u v : string) :
  single_line (u ++ String LF v) = false.
Proof.
  induction u as [|c u IH]; simpl.
  - reflexivity.
  - rewrite IH. apply andb_false_r.
Qed.

(** A separator made of a line feed and a single-line rest cannot
    straddle the seam before another line feed. *)
Lemma prefix_seam (sep' a t : string) :
  single_line sep' = true ->
  prefix (String LF sep') a = false ->
  a <> "" ->
  prefix (String LF sep') (a ++ String LF t) = false.
Proof.
  intros Hs Ha Hne.
  destruct (prefix (String LF sep') (a ++ String LF t)) eqn:E; [|reflexivity].
  apply prefix_app_inv in E.
  destruct E as [E | (q & Hq & Hqne & Hpre)]; [congruence|].
  destruct a as [|c a]; [now elim Hne|].
  destruct q as [|d q]; [now elim Hqne|].
  simpl in Hpre. destruct (ascii_dec d LF) as [->|_]; [|discriminate].
  simpl in Hq. injection Hq as _ Hq.
  rewrite Hq, single_line_app_LF in Hs. discriminate.
Qed.

(** A fragment free of the separator, followed by the separator, is the
    first piece of the split. *)
Lemma split_first_piece (sep' a b : string) :
  single_line sep' = true ->
  occurs (String LF sep') a = false ->
  split (String LF sep') (a ++ String LF sep' ++ b)
  = a :: split (String LF sep') b.
Proof.
  intros Hs. induction a as [|c a IH]; intros Ha.
  - apply split_at_sep.
  - cbn [occurs] in Ha. apply orb_false_iff in Ha. destruct Ha as [Hp Ho].
    change (String c a ++ String LF sep' ++ b)
      with (String c (a ++ String LF sep' ++ b)).
    rewrite split_step.
    + rewrite (IH Ho). reflexivity.
    + change (String c (a ++ String LF sep' ++ b))
        with (String c a ++ String LF (sep' ++ b)).
      apply prefix_seam; [exact Hs | exact Hp | discriminate].
Qed.

(** Without any occurrence the split is the whole string. *)
Lemma split_no_occurrence (sep s : string) :
  occurs sep s = false -> split sep s = [s].
Proof.
  induction s as [|c s IH]; intros H.
  - reflexivity.
  - cbn [occurs] in H. apply orb_false_iff in H. destruct H as [Hp Ho].
    rewrite split_step by exact Hp. now rewrite (IH Ho).
Qed.

Lemma single_line_no_occurrence (sep' s : string) :
  single_line s = true -> occurs (String LF sep') s = false.
Proof.
  induction s as [|c s IH]; intros H.
  - reflexivity.
  - cbn [single_line] in H. apply andb_true_iff in H. destruct H as [Hc Hs].
    cbn [occurs]. rewrite (IH Hs), orb_false_r.
    apply prefix_head_neq. intros <-. now rewrite Ascii.eqb_refl in Hc.
Qed.

End SplitFacts.

(** ** The loops as concatenations *)

Section Emission.

Lemma fold_left_emit {A : Type} (f : document -> A -> document)
      (g : A -> list node) :
  (forall d x, f d x = (d ++ g x)%list) ->
  forall l d, fold_left f l d = (d ++ flat_map g l)%list.
Proof.
  intros Hf l. induction l as [|x l IH]; intros d; simpl.
  - now rewrite app_nil_r.
  - now rewrite IH, Hf, <- app_assoc.
Qed.

Lemma add_main_para_emit (d : document) (para : string) :
  add_main_para d para = (d ++ main_para_nodes para)%list.
Proof.
  unfold add_main_para, main_para_nodes, add_paragraph.
  destruct (truthy (strip para)); [reflexivity | now rewrite app_nil_r].
Qed.

(** The loop of lines 82-86 emits the pipeline's items, one bullet each. *)
Lemma list_items_emit (items : list string) (d : document) :
  fold_left add_list_item items d
  = (d ++ map bullet (map strip (map unmark (filter nonblank items))))%list.
Proof.
  revert d. induction items as [|i items IH]; intros d; simpl.
  - now rewrite app_nil_r.
  - rewrite IH. unfold add_list_item, nonblank, add_paragraph.
    destruct (truthy (strip i)); simpl.
    + now rewrite <- app_assoc.
    + reflexivity.
Qed.

Lemma add_sub_para_emit (d : document) (para : string) :
  add_sub_para d para = (d ++ sub_para_nodes para)%list.
Proof.
  unfold add_sub_para, sub_para_nodes.
  destruct (truthy (strip para)); [|now rewrite app_nil_r].
  destruct (startswith "- " (strip para)).
  - apply list_items_emit.
  - reflexivity.
Qed.

Lemma process_subsection_emit (d : document) (subsection : string) :
  process_subsection d subsection = (d ++ subsection_nodes subsection)%list.
Proof.
  unfold process_subsection, subsection_nodes, add_heading.
  fold (subsection_title subsection) (subsection_content subsection).
  destruct (truthy (subsection_content subsection)).
  - rewrite (fold_left_emit _ _ add_sub_para_emit), <- app_assoc. reflexivity.
  - reflexivity.
Qed.

Lemma process_body_emit (d : document) (content : string) :
  process_body d content = (d ++ body_nodes content)%list.
Proof.
  unfold process_body, body_nodes.
  rewrite (fold_left_emit _ _ process_subsection_emit).
  destruct (negb (startswith "###" (hd "" (split sep_subsection content)))).
  - rewrite (fold_left_emit _ _ add_main_para_emit), <- app_assoc. reflexivity.
  - reflexivity.
Qed.

Lemma process_section_emit (d : document) (section : string) :
  process_section d section = (d ++ section_nodes section)%list.
Proof.
  unfold process_section, section_nodes, add_heading.
  rewrite process_body_emit, <- app_assoc. reflexivity.
Qed.

(** The whole pass: the title, then the sections' nodes in order. *)
Lemma convert_emit (md_content : string) :
  convert md_content
  = Heading (title_of md_content) 0 ::
    flat_map section_nodes (tl (split sep_section md_content)).
Proof.
  unfold convert, Document, add_heading.
  now rewrite (fold_left_emit _ _ process_section_emit).
Qed.

End Emission.

(** ** Blocks: paragraphs and bullet lists *)

Section BareMarkers.

(** A blank fragment does not start with a marker. *)
Lemma blank_not_marked (i : string) :
  nonblank i = false -> startswith "- " i = false.
Proof.
  unfold nonblank, startswith. intros H.
  destruct (prefix "- " i) eqn:E; [|reflexivity].
  destruct i as [|c i]; [discriminate E|].
  cbn [prefix] in E. destruct (ascii_dec "-" c) as [<-|]; [|discriminate E].
  unfold strip in H. cbn in H. discriminate H.
Qed.

(** Without a bare marker, dropping the blank fragments first (line 83)
    or the empty items last gives the same items. *)
Lemma items_either_order (l : list string) :
  forallb (fun i => negb (nonblank i) || nonblank (unmark i)) l = true ->
  map strip (map unmark (filter nonblank l))
  = filter truthy (map strip (map unmark l)).
Proof.
  induction l as [|i l IH]; [reflexivity|]. intros H.
  cbn [forallb] in H. apply andb_true_iff in H. destruct H as [Hi Hl].
  cbn [filter map]. destruct (nonblank i) eqn:E.
  - cbn [negb orb] in Hi. unfold nonblank in Hi.
    cbn [map]. now rewrite Hi, IH.
  - assert (Hu : unmark i = i)
      by (unfold unmark; now rewrite (blank_not_marked i E)).
    rewrite Hu. unfold nonblank in E. now rewrite E, IH.
Qed.

End BareMarkers.

(** C1 (as amended).  A non-blank block of a Subsection whose trimmed text
    starts with the list marker, and none of whose fragments is a marker
    alone, is emitted as one List Bullet paragraph per item, the items
    being the fragments of the trimmed text between the item delimiters,
    each with a leading marker removed wherever a fragment still starts
    with one, trimmed, the empty ones dropped; a non-blank block that
    does not start with the marker is emitted as one plain paragraph
    holding the trimmed text.  The block "- one\n- two\n- three" gives
    exactly the items one, two, three. *)
Theorem subsection_block_emission (doc : document) (para : string) :
  truthy (strip para) = true ->
  (startswith "- " (strip para) = true ->
   bare_marker_free (strip para) = true) ->
  add_sub_para doc para
  = (doc ++ (if startswith "- " (strip para)
             then map bullet
                    (filter truthy
                       (map strip (map unmark (split sep_item (strip para)))))
             else [Paragraph (strip para) Normal]))%list
  /\ add_sub_para doc three_items
     = (doc ++ [bullet "one"; bullet "two"; bullet "three"])%list.
Proof.
  intros Hne Hfree. split.
  - rewrite add_sub_para_emit. unfold sub_para_nodes. rewrite Hne.
    destruct (startswith "- " (strip para)); [|reflexivity].
    unfold bullet_items. now rewrite items_either_order by now apply Hfree.
  - now rewrite add_sub_para_emit.
Qed.

Lemma subsection_block_emission_witness :
  truthy (strip nested_marker) = true /\
  bare_marker_free (strip nested_marker) = true /\
  add_sub_para Document nested_marker = [bullet "a"; bullet "b"].
Proof.
  split; [reflexivity | split; [reflexivity|]].
  exact (proj1 (subsection_block_emission Document nested_marker eq_refl
                  (fun _ => eq_refl))).
Defined.

(** C1 (as stated) fails: in the block "- a\n- - b" of a Subsection the
    second fragment still starts with a marker; the code removes it, the
    statement keeps it (first item only). *)
Lemma marker_removed_from_later_item :
  add_sub_para Document nested_marker <> spec_block_nodes nested_marker.
Proof.
  assert (H : spec_block_nodes nested_marker = [bullet "a"; bullet "- b"])
    by reflexivity.
  rewrite H, add_sub_para_emit. discriminate.
Qed.

(** A direct block of a Section is never classified: the same three
    items come out as one plain paragraph (lines 60-63 have no list
    branch, lines 81-86 do). *)
Example section_block_not_classified :
  add_main_para Document three_items = [Paragraph three_items Normal].
Proof. reflexivity. Qed.

(** ** The title *)

(** C2.  On the report whose title line is "# C# Guide" the code's title is
    "CGuide": [replace] removes the marker inside the title too, where the
    statement leaves "C# Guide". *)
Theorem title_loses_inner_marker :
  title_of csharp_report = "CGuide" /\ spec_title csharp_report = "C# Guide".
Proof. split; reflexivity. Qed.

Lemma replace_no_occurrence (old new s : string) :
  occurs old s = false -> replace old new s = s.
Proof. intros H. unfold replace. now rewrite split_no_occurrence. Qed.

(** Where the trimmed fragment holds no marker besides a leading one, the
    code's title is the statement's. *)
Lemma title_single_marker (md_content t : string) :
  strip (hd "" (split sep_section md_content)) = "# " ++ t ->
  occurs "# " t = false ->
  title_of md_content = t /\ spec_title md_content = t.
Proof.
  intros H Ho. unfold title_of, spec_title. rewrite H. split.
  - unfold replace. change ("# " ++ t) with (String "#" " " ++ t).
    now rewrite split_at_sep, split_no_occurrence.
  - unfold startswith. now rewrite prefix_app.
Qed.

Lemma title_no_marker (md_content : string) :
  occurs "# " (strip (hd "" (split sep_section md_content))) = false ->
  title_of md_content = strip (hd "" (split sep_section md_content)).
Proof. intros H. unfold title_of. now apply replace_no_occurrence. Qed.

(** ** Headings and trimming *)

Section Trimming.


Lemma lstrip_length (s : string) : String.length (lstrip s) <= String.length s.
Proof.
  induction s as [|c s IH]; simpl; [lia|].
  destruct (is_space c); simpl; lia.
Qed.

(** A string [lstrip] leaves alone starts with a character that is not
    white space. *)
Lemma lstrip_fixed_app (a r : string) :
  truthy a = true -> lstrip a = a -> lstrip (a ++ r) = a ++ r.
Proof.
  destruct a as [|c a]; [discriminate|]. intros _ H. simpl in *.
  destruct (is_space c); [|reflexivity].
  pose proof (lstrip_length a) as L. rewrite H in L. simpl in L. lia.
Qed.

Lemma rstrip_app (a r : string) :
  rstrip (a ++ r) = if truthy (rstrip r) then a ++ rstrip r else rstrip a.
Proof.
  induction a as [|c a IH]; simpl.
  - now destruct (rstrip r).
  - rewrite IH. destruct (truthy (rstrip r)) eqn:E.
    + assert (T : truthy (a ++ rstrip r) = true)
        by (destruct a; [exact E | reflexivity]).
      now rewrite T, andb_false_r.
    + reflexivity.
Qed.


Lemma hd_cons_head (c : ascii) (l : list string) :
  hd "" (cons_head c l) = String c (hd "" l).
Proof. now destruct l. Qed.


End Trimming.

Lemma clean_inv (a : string) :
  clean a = true ->
  truthy a = true /\ single_line a = true /\ lstrip a = a /\ rstrip a = a.
Proof.
  unfold clean. intros H.
  repeat (apply andb_true_iff in H; destruct H as [H ?]).
  repeat split; try assumption; now apply String.eqb_eq.
Qed.


Section HeadingOrder.

Lemma headings_at_app (k : nat) (d1 d2 : document) :
  headings_at k (d1 ++ d2)%list = (headings_at k d1 ++ headings_at k d2)%list.
Proof.
  induction d1 as [|n d1 IH]; simpl; [reflexivity|].
  destruct n as [t l|t s]; [|exact IH].
  destruct (Nat.eqb l k); simpl; now rewrite IH.
Qed.

Lemma headings_at_flat_map_none {A : Type} (k : nat) (g : A -> list node) :
  (forall x, headings_at k (g x) = []) ->
  forall l, headings_at k (flat_map g l) = [].
Proof.
  intros Hg l. induction l as [|x l IH]; simpl; [reflexivity|].
  now rewrite headings_at_app, Hg, IH.
Qed.


Lemma headings_at_bullets (k : nat) (l : list string) :
  headings_at k (map bullet l) = [].
Proof. induction l as [|x l IH]; simpl; [reflexivity | exact IH]. Qed.

Lemma headings_at_main_para (k : nat) (para : string) :
  headings_at k (main_para_nodes para) = [].
Proof. unfold main_para_nodes. now destruct (truthy (strip para)). Qed.

Lemma headings_at_sub_para (k : nat) (para : string) :
  headings_at k (sub_para_nodes para) = [].
Proof.
  unfold sub_para_nodes. destruct (truthy (strip para)); [|reflexivity].
  destruct (startswith "- " (strip para)); [apply headings_at_bullets | reflexivity].
Qed.

Lemma headings_at_blocks (k : nat) (l : list string) :
  headings_at k (flat_map sub_para_nodes l) = [].
Proof. apply headings_at_flat_map_none, headings_at_sub_para. Qed.



Lemma headings_at_main_text (k : nat) (content : string) :
  headings_at k
    (if negb (startswith "###" (hd "" (split sep_subsection content)))
     then flat_map main_para_nodes
            (split sep_paragraph (strip (hd "" (split sep_subsection content))))
     else []) = [].
Proof.
  destruct (negb _); [|reflexivity].
  apply headings_at_flat_map_none, headings_at_main_para.
Qed.





End HeadingOrder.

(** ** Sections and subsections *)

(** C5.  After any title line, the section "## S\ntext\n### Sub\nmore" is
    emitted as the heading S, one plain paragraph "text", the level-2
    heading Sub and one plain paragraph "more", and nothing else. *)
Theorem nested_section_emitted (title_line : string) :
  single_line title_line = true ->
  convert (title_line ++ nl ++ nested_section)
  = [Heading (replace "# " "" (strip title_line)) 0;
     Heading "S" 1; Paragraph "text" Normal;
     Heading "Sub" 2; Paragraph "more" Normal].
Proof.
  intros Ht.
  assert (Hs : split sep_section (title_line ++ nl ++ nested_section)
               = [title_line; "S" ++ nl ++ "text" ++ nl ++ "### Sub" ++ nl ++ "more"]).
  { change (nl ++ nested_section)
      with (String LF "## " ++ "S" ++ nl ++ "text" ++ nl ++ "### Sub" ++ nl ++ "more").
    change sep_section with (String LF "## ").
    rewrite split_first_piece;
      [reflexivity | reflexivity | now apply single_line_no_occurrence]. }
  rewrite convert_emit. unfold title_of. rewrite Hs. reflexivity.
Qed.

Lemma nested_section_emitted_witness :
  single_line "# T" = true /\
  convert ("# T" ++ nl ++ nested_section)
  = [Heading "T" 0; Heading "S" 1; Paragraph "text" Normal;
     Heading "Sub" 2; Paragraph "more" Normal].
Proof.
  split; [reflexivity | exact (nested_section_emitted "# T" eq_refl)].
Defined.



(** The bare two-section report of the specification's first test. *)
Example two_sections :
  convert ("# T" ++ nl ++ "## A" ++ nl ++ "## B")
  = [Heading "T" 0; Heading "A" 1; Heading "B" 1].
Proof. reflexivity. Qed.

(** ** Empty nodes *)

(** C7.  On a report whose subsection holds the list "- \n- b" (a marker
    with nothing after it, then an item) the output contains a List Bullet
    paragraph with empty text: line 83 tests the fragment before line 85
    removes its marker. *)
Theorem empty_bullet_emitted :
  convert empty_item_report
  = [Heading "T" 0; Heading "S" 1; Paragraph "intro" Normal;
     Heading "Sub" 2; Paragraph "" ListBullet; Paragraph "b" ListBullet].
Proof. reflexivity. Qed.

(** Blank lines between two paragraphs leave no node behind. *)
Example blank_run_suppressed :
  convert ("# T" ++ nl ++ "## S" ++ nl ++ "one" ++ nl ++ nl ++ nl ++ nl ++ "two")
  = [Heading "T" 0; Heading "S" 1; Paragraph "one" Normal;
     Paragraph "two" Normal].
Proof. reflexivity. Qed.

(** Plain paragraphs, on the other hand, are never empty. *)
Lemma plain_paragraphs_not_empty (md_content t : string) :
  In (Paragraph t Normal) (convert md_content) -> truthy t = true.
Proof.
  rewrite convert_emit. intros [H|H]; [discriminate|].
  apply in_flat_map in H. destruct H as (section & _ & H).
  destruct H as [H|H]; [discriminate|].
  assert (Hmain : forall p, In (Paragraph t Normal) (main_para_nodes p) ->
                            truthy t = true).
  { intros p. unfold main_para_nodes.
    destruct (truthy (strip p)) eqn:E; [|now intros []].
    intros [Hp|[]]. now injection Hp as <-. }
  assert (Hsub : forall p, In (Paragraph t Normal) (sub_para_nodes p) ->
                           truthy t = true).
  { intros p. unfold sub_para_nodes.
    destruct (truthy (strip p)) eqn:E; [|now intros []].
    destruct (startswith "- " (strip p)).
    - intros Hp. apply in_map_iff in Hp. now destruct Hp as (x & Hx & _).
    - intros [Hp|[]]. now injection Hp as <-. }
  unfold body_nodes in H. apply in_app_or in H. destruct H as [H|H].
  - destruct (negb _); [|now elim H].
    apply in_flat_map in H. destruct H as (p & _ & H). now apply (Hmain p).
  - apply in_flat_map in H. destruct H as (sub & _ & H).
    destruct H as [H|H]; [discriminate|].
    destruct (truthy (subsection_content sub)); [|now elim H].
    apply in_flat_map in H. destruct H as (p & _ & H). now apply (Hsub p).
Qed.

(** ** A section that opens with a subsection *)

Section LeadingSubsection.

Lemma prefix_empty (s : string) : prefix "" s = true.
Proof. now destruct s. Qed.

(** A single-line prefix of a text is a prefix of the first piece of its
    split at a delimiter that begins with a line feed. *)
Lemma prefix_first_piece (sep' p s : string) :
  single_line p = true -> prefix p s = true ->
  prefix p (hd "" (split (String LF sep') s)) = true.
Proof.
  revert s. induction p as [|c p IH]; intros s Hp Hs.
  - apply prefix_empty.
  - destruct s as [|d s]; [discriminate|].
    simpl in Hs. destruct (ascii_dec c d) as [<-|_]; [|discriminate].
    cbn [single_line] in Hp. apply andb_true_iff in Hp. destruct Hp as [Hc Hp].
    rewrite split_step.
    + rewrite hd_cons_head. simpl.
      destruct (ascii_dec c c) as [_|n]; [now apply IH | now elim n].
    + apply prefix_head_neq. intros <-. now rewrite Ascii.eqb_refl in Hc.
Qed.

Lemma prefix_shorter (p q s : string) :
  prefix (p ++ q) s = true -> prefix p s = true.
Proof.
  revert s. induction p as [|c p IH]; intros s H.
  - apply prefix_empty.
  - destruct s as [|d s]; [discriminate|]. simpl in *.
    destruct (ascii_dec c d); [now apply IH | discriminate].
Qed.

Lemma startswith_marker (s : string) :
  startswith "### " s = true -> startswith "###" s = true.
Proof. apply (prefix_shorter "###" " "). Qed.

End LeadingSubsection.

(** C9.  When the trimmed body of a section begins with "### ", the section
    contributes its heading followed by the nodes of the fragments that
    come after a subsection delimiter, and nothing of the first fragment:
    with a first fragment free of the delimiter the output is the same
    whatever that fragment holds. *)
Theorem leading_subsection_dropped (doc : document) (section : string) :
  startswith "### " (section_content section) = true ->
  process_section doc section
  = fold_left process_subsection
      (tl (split sep_subsection (section_content section)))
      (add_heading doc (section_title section) 1)
  /\ (forall first rest,
        section_content section = first ++ sep_subsection ++ rest ->
        occurs sep_subsection first = false ->
        process_section doc section
        = fold_left process_subsection (split sep_subsection rest)
            (add_heading doc (section_title section) 1))
  /\ (occurs sep_subsection (section_content section) = false ->
      process_section doc section
      = add_heading doc (section_title section) 1).
Proof.
  intros H.
  assert (E : process_section doc section
              = fold_left process_subsection
                  (tl (split sep_subsection (section_content section)))
                  (add_heading doc (section_title section) 1)).
  { unfold process_section, process_body.
    change sep_subsection with (String LF "### ").
    unfold startswith in *.
    rewrite (prefix_first_piece "### " "###"); [reflexivity | reflexivity |].
    now apply startswith_marker. }
  split; [exact E | split].
  - intros first rest Hc Ho. rewrite E, Hc.
    change sep_subsection with (String LF "### ") in *.
    now rewrite split_first_piece.
  - intros Ho. rewrite E, split_no_occurrence by exact Ho. reflexivity.
Qed.

Lemma leading_subsection_dropped_witness :
  startswith "### " (section_content leading_subsection_section) = true /\
  process_section [Heading "T" 0] leading_subsection_section
  = [Heading "T" 0; Heading "S" 1; Heading "Second" 2;
     Paragraph "kept" Normal].
Proof.
  split; [reflexivity|].
  exact (proj1 (leading_subsection_dropped
                  [Heading "T" 0] leading_subsection_section eq_refl)).
Defined.

Example leading_subsection_report_converted :
  convert leading_subsection_report
  = [Heading "T" 0; Heading "S" 1; Heading "Second" 2;
     Paragraph "kept" Normal].
Proof. reflexivity. Qed.

(** ** Sanity checks of [int] and of the split at white space *)

Example int_ex1 : int " 12 " = Ret 12%Z.
Proof. reflexivity. Qed.
Example int_ex2 : int "-1_000" = Ret (-1000)%Z.
Proof. reflexivity. Qed.
Example int_ex3 : int "1__0" = Raise (ValueError "invalid literal for int() with base 10: '1__0'").
Proof. reflexivity. Qed.
Example int_ex4 :
  int (String "7" (String "031" ""))
  = Raise (ValueError "invalid literal for int() with base 10: '7\x1f'").
Proof. reflexivity. Qed.
Example int_ex5 : int (String "160" "7") = Ret 7%Z.
Proof. reflexivity. Qed.
Example int_ex6 : int "12 3" = Raise (invalid_literal "12 3").
Proof. reflexivity. Qed.
Example words_ex : words "  AAPL MSFT   GOOG " = ["AAPL"; "MSFT"; "GOOG"].
Proof. reflexivity. Qed.

(** ** The adapters: what reaches the top level *)

(** C3.  [yahoo_finance.py search AAPL abc]: the limit is converted by
    [int] outside every [try], so with any provider the run ends in an
    unhandled [ValueError], nothing printed, exit status 1. *)
Theorem search_limit_unhandled (frame : Type) (yf : YahooFinance.provider frame) :
  YahooFinance.main frame yf ["yahoo_finance.py"; "search"; "AAPL"; "abc"]
  = traceback (ValueError "invalid literal for int() with base 10: 'abc'").
Proof. reflexivity. Qed.

(** So does every third argument that [int] rejects. *)
Lemma search_bad_limit_unhandled (frame : Type)
      (yf : YahooFinance.provider frame) (prog query limit : string) (e : exn) :
  int limit = Raise e ->
  YahooFinance.main frame yf [prog; "search"; query; limit] = traceback e.
Proof.
  intros H. unfold YahooFinance.main. cbn -[int]. now rewrite H.
Qed.

(** The trends script fails the same way when its module-level client
    cannot be created. *)
Example trends_client_unhandled :
  GoogleTrends.script unit pt_offline ["google_trends.py"; "trending"]
  = traceback connection_error.
Proof. reflexivity. Qed.

(** ** The adapters: exceptions inside the fetch functions *)

Section AdapterErrors.

Variable frame : Type.
Variable yf : YahooFinance.provider frame.
Variable pt : GoogleTrends.provider frame.

Lemma has_arg_below (argv : list string) (i j : nat) :
  i <= j -> has_arg argv j = true -> has_arg argv i = true.
Proof.
  unfold has_arg. intros Hij H.
  apply Nat.ltb_lt in H. apply Nat.ltb_lt. lia.
Qed.

(** [try ... except Exception] around a body that raises. *)
Lemma try_except_caught (body : res json) (e : exn) :
  body = Raise e -> derives_Exception e = true ->
  try_except body (YahooFinance.report_error) = Ret (error_result (exn_str e)).
Proof. intros -> He. unfold try_except. now rewrite He. Qed.

Lemma catching_caught (body : GoogleTrends.M json) (c : GoogleTrends.client)
      (e : exn) :
  fst (body c) = Raise e -> derives_Exception e = true ->
  fst (GoogleTrends.catching body c) = Ret (error_result (exn_str e)).
Proof.
  intros Hb He. unfold GoogleTrends.catching.
  destruct (body c) as [[v|e'] c']; simpl in Hb; [discriminate|].
  injection Hb as ->. now rewrite He.
Qed.

(** A provider failure inside [get_stock_data] ends its body. *)
Lemma stock_history_failure (symbol period : string) (e : exn) :
  YahooFinance.Ticker frame yf symbol = Ret tt ->
  YahooFinance.history frame yf symbol period = Raise e ->
  YahooFinance.get_stock_data_body frame yf symbol period = Raise e.
Proof.
  intros Ht Hh. unfold YahooFinance.get_stock_data_body. now rewrite Ht, Hh.
Qed.

(** The lookup of one symbol in [search_stocks] that raises is skipped. *)
Lemma search_lookup_skipped (e : exn) (sym : string) (symbols : list string)
      (limit : Z) (results : list json) :
  YahooFinance.lookup_symbol frame yf sym = Raise e ->
  YahooFinance.search_loop frame yf (sym :: symbols) limit results
  = YahooFinance.search_loop frame yf symbols limit results.
Proof. intros H. simpl. now rewrite H. Qed.

Ltac dispatch H1 Hcmd :=
  rewrite H1; cbn [negb]; rewrite Hcmd; cbn [String.eqb Ascii.eqb Bool.eqb].

(** C4 (as amended).  Whenever the body of a fetch function raises an
    exception deriving from [Exception], the function turns it into the
    error result whose message is the exception's text, and the script
    prints that one object and exits with status 0; the message is
    non-empty when the text is.  In [search_stocks] this holds for what
    is raised outside the per-symbol lookups: a lookup that raises is
    skipped. *)
Theorem adapter_errors_reported (e : exn) (argv : list string)
        (c : GoogleTrends.client) :
  derives_Exception e = true ->
  let reported (o : outcome) :=
    o = print_and_return (error_result (exn_str e)) /\
    (exn_str e <> "" -> reports_error o) in
  (arg argv 1 = "stock" -> has_arg argv 2 = true ->
   YahooFinance.get_stock_data_body frame yf (arg argv 2)
     (if has_arg argv 3 then arg argv 3 else "1mo") = Raise e ->
   reported (YahooFinance.main frame yf argv))
  /\ (arg argv 1 = "market" -> has_arg argv 1 = true ->
      YahooFinance.get_market_summary_body frame yf = Raise e ->
      reported (YahooFinance.main frame yf argv))
  /\ (arg argv 1 = "sectors" -> has_arg argv 1 = true ->
      YahooFinance.get_industry_performance_body frame yf = Raise e ->
      reported (YahooFinance.main frame yf argv))
  /\ (forall limit,
        arg argv 1 = "search" -> has_arg argv 2 = true ->
        (if has_arg argv 3 then int (arg argv 3) else Ret 10%Z) = Ret limit ->
        YahooFinance.search_stocks_body frame yf (arg argv 2) limit = Raise e ->
        reported (YahooFinance.main frame yf argv))
  /\ (arg argv 1 = "interest" -> has_arg argv 2 = true ->
      fst (GoogleTrends.get_interest_over_time_body frame pt
             (split "," (arg argv 2)) (GoogleTrends.period_arg argv) c)
      = Raise e ->
      reported (GoogleTrends.main frame pt argv c))
  /\ (arg argv 1 = "related_queries" -> has_arg argv 2 = true ->
      fst (GoogleTrends.get_related_queries_body frame pt
             (arg argv 2) (GoogleTrends.period_arg argv) c) = Raise e ->
      reported (GoogleTrends.main frame pt argv c))
  /\ (arg argv 1 = "related_topics" -> has_arg argv 2 = true ->
      fst (GoogleTrends.get_related_topics_body frame pt
             (arg argv 2) (GoogleTrends.period_arg argv) c) = Raise e ->
      reported (GoogleTrends.main frame pt argv c))
  /\ (arg argv 1 = "trending" -> has_arg argv 1 = true ->
      fst (GoogleTrends.get_trending_searches_body frame pt
             (if has_arg argv 2 then arg argv 2 else "US") c) = Raise e ->
      reported (GoogleTrends.main frame pt argv c))
  /\ (arg argv 1 = "industry" -> has_arg argv 2 = true ->
      fst (GoogleTrends.get_industry_interest_body frame pt
             (split "," (arg argv 2)) (GoogleTrends.period_arg argv)
             (if has_arg argv 4 then arg argv 4 else "US") c) = Raise e ->
      reported (GoogleTrends.main frame pt argv c))
  /\ (forall sym symbols limit results,
        YahooFinance.lookup_symbol frame yf sym = Raise e ->
        YahooFinance.search_loop frame yf (sym :: symbols) limit results
        = YahooFinance.search_loop frame yf symbols limit results).
Proof.
  intros He reported.
  assert (R : forall o, o = print_and_return (error_result (exn_str e)) ->
                        reported o).
  { intros o ->. split; [reflexivity|]. intros Hne.
    exists (exn_str e). now repeat split. }
  subst reported. cbv beta in *.
  repeat match goal with |- _ /\ _ => split end.
  - intros Hcmd H2 Hb. pose proof (has_arg_below argv 1 2 ltac:(lia) H2) as H1.
    unfold YahooFinance.main. dispatch H1 Hcmd. rewrite H2. cbn [negb].
    unfold YahooFinance.get_stock_data.
    apply R. now rewrite (try_except_caught _ e Hb He).
  - intros Hcmd H1 Hb.
    unfold YahooFinance.main. dispatch H1 Hcmd.
    unfold YahooFinance.get_market_summary.
    apply R. now rewrite (try_except_caught _ e Hb He).
  - intros Hcmd H1 Hb.
    unfold YahooFinance.main. dispatch H1 Hcmd.
    unfold YahooFinance.get_industry_performance.
    apply R. now rewrite (try_except_caught _ e Hb He).
  - intros limit Hcmd H2 Hl Hb. pose proof (has_arg_below argv 1 2 ltac:(lia) H2) as H1.
    unfold YahooFinance.main. dispatch H1 Hcmd. rewrite H2. cbn [negb].
    rewrite Hl. cbn [bind]. unfold YahooFinance.search_stocks.
    apply R. now rewrite (try_except_caught _ e Hb He).
  - intros Hcmd H2 Hb. pose proof (has_arg_below argv 1 2 ltac:(lia) H2) as H1.
    unfold GoogleTrends.main. dispatch H1 Hcmd. rewrite H2. cbn [negb].
    unfold GoogleTrends.run, GoogleTrends.get_interest_over_time.
    apply R. now rewrite (catching_caught _ c e Hb He).
  - intros Hcmd H2 Hb. pose proof (has_arg_below argv 1 2 ltac:(lia) H2) as H1.
    unfold GoogleTrends.main. dispatch H1 Hcmd. rewrite H2. cbn [negb].
    unfold GoogleTrends.run, GoogleTrends.get_related_queries.
    apply R. now rewrite (catching_caught _ c e Hb He).
  - intros Hcmd H2 Hb. pose proof (has_arg_below argv 1 2 ltac:(lia) H2) as H1.
    unfold GoogleTrends.main. dispatch H1 Hcmd. rewrite H2. cbn [negb].
    unfold GoogleTrends.run, GoogleTrends.get_related_topics.
    apply R. now rewrite (catching_caught _ c e Hb He).
  - intros Hcmd H1 Hb.
    unfold GoogleTrends.main. dispatch H1 Hcmd.
    unfold GoogleTrends.run, GoogleTrends.get_trending_searches.
    apply R. now rewrite (catching_caught _ c e Hb He).
  - intros Hcmd H2 Hb. pose proof (has_arg_below argv 1 2 ltac:(lia) H2) as H1.
    unfold GoogleTrends.main. dispatch H1 Hcmd. rewrite H2. cbn [negb].
    unfold GoogleTrends.run, GoogleTrends.get_industry_interest.
    apply R. now rewrite (catching_caught _ c e Hb He).
  - intros sym symbols limit results. apply search_lookup_skipped.
Qed.

End AdapterErrors.

Lemma adapter_errors_reported_witness :
  derives_Exception connection_error = true /\
  YahooFinance.main unit yf_info_down ["yahoo_finance.py"; "stock"; "AAPL"]
  = print_and_return (error_result "Max retries exceeded").
Proof.
  split; [reflexivity|].
  exact (proj1 (proj1 (adapter_errors_reported unit yf_info_down pt_offline
                         connection_error
                         ["yahoo_finance.py"; "stock"; "AAPL"]
                         fresh_client eq_refl)
                      eq_refl eq_refl eq_refl)).
Defined.

(** C4 (as stated) fails: with a provider whose [ticker.info] raises,
    [yahoo_finance.py search AAPL] has an exception raised inside its data
    fetch, yet what it prints is a success object with no entries. *)
Lemma search_failure_printed_as_success :
  YahooFinance.info unit yf_info_down "AAPL" = Raise connection_error /\
  stdout (YahooFinance.main unit yf_info_down ["yahoo_finance.py"; "search"; "AAPL"])
  = [JObj [("status", JStr "success"); ("data", JList [])]] /\
  ~ reports_error
      (YahooFinance.main unit yf_info_down ["yahoo_finance.py"; "search"; "AAPL"]).
Proof.
  split; [reflexivity | split; [reflexivity|]].
  intros (message & _ & Hs & _). vm_compute in Hs. discriminate.
Qed.

(** ** The converter: what is written, and when *)

Section ConverterRuns.

Import ConverterScript.



End ConverterRuns.



(** A [print] that fails after the save leaves the whole document with a
    status that is not 0. *)
Lemma failed_print_after_save (e : ConverterScript.env) (md_content : string)
      (x : exn) :
  ConverterScript.imports e = Ret tt ->
  ConverterScript.import_docx e = Ret tt ->
  ConverterScript.report_exists e = true ->
  ConverterScript.read_report e = Ret md_content ->
  ConverterScript.markdown e md_content = Ret tt ->
  ConverterScript.new_document e = Ret tt ->
  ConverterScript.add_all e (convert md_content) = Ret tt ->
  ConverterScript.save e (convert md_content) = ConverterScript.Saved ->
  ConverterScript.print_success e = Raise x ->
  ConverterScript.status (ConverterScript.script e) = 1%Z /\
  ConverterScript.saved (ConverterScript.script e)
  = ConverterScript.Whole (convert md_content).
Proof.
  intros Hi Hd He Hr Hm Hn Ha Hs Hp.
  unfold ConverterScript.script, ConverterScript.main, ConverterScript.try_body.
  rewrite Hi, Hd, He, Hr, Hm. cbn [negb bind]. rewrite Hn. cbn [bind].
  rewrite Ha, Hs, Hp. now destruct (derives_Exception x).
Qed.

(** ** The trends adapter: keywords in chunks of five *)

Section Chunks.

Lemma range0_count (n : nat) :
  1 <= n -> (n + 5 - 1) / 5 = S ((n - 5 + 5 - 1) / 5).
Proof.
  intros Hn. destruct (Nat.lt_ge_cases n 5) as [Hlt|Hge].
  - replace (n - 5 + 5 - 1) with 4 by lia.
    change (4 / 5) with 0.
    symmetry. apply (Nat.div_unique (n + 5 - 1) 5 1 (n - 1)); lia.
  - replace (n + 5 - 1) with ((n - 5 + 5 - 1) + 1 * 5) by lia.
    rewrite Nat.div_add by lia. lia.
Qed.

(** The comprehension of line 159, one chunk at a time. *)
Lemma chunks_unfold (l : list string) :
  l <> [] ->
  GoogleTrends.chunks l = firstn 5 l :: GoogleTrends.chunks (skipn 5 l).
Proof.
  intros Hl. unfold GoogleTrends.chunks, GoogleTrends.range0, GoogleTrends.slice.
  assert (Hn : 1 <= List.length l) by (destruct l; [now elim Hl | simpl; lia]).
  rewrite (range0_count _ Hn), length_skipn.
  cbn [seq map]. f_equal.
  rewrite <- seq_shift, !map_map. apply map_ext. intros j.
  rewrite skipn_skipn. replace (S j * 5) with (j * 5 + 5) by lia.
  f_equal. lia.
Qed.

(** The chunks are consecutive, cover the list, and hold between one and
    five keywords each. *)
Lemma chunks_partition (l : list string) :
  concat (GoogleTrends.chunks l) = l /\
  Forall (fun ch => 1 <= List.length ch <= 5) (GoogleTrends.chunks l).
Proof.
  remember (List.length l) as n eqn:Hn.
  revert l Hn. induction n as [n IH] using lt_wf_ind. intros l Hn.
  destruct l as [|k l]; [now split|].
  rewrite chunks_unfold by discriminate.
  destruct (IH (List.length (skipn 5 (k :: l)))) with (l := skipn 5 (k :: l))
    as [Hc Hf].
  - rewrite length_skipn. subst n. simpl. lia.
  - reflexivity.
  - split.
    + cbn [concat]. rewrite Hc. apply firstn_skipn.
    + constructor; [|exact Hf].
      rewrite length_firstn. simpl List.length. lia.
Qed.

End Chunks.

Section IndustryInterest.

Variable frame : Type.
Variable pt : GoogleTrends.provider frame.
Variables period region : string.

(** The loop of lines 161-187, when no turn raises: the records of the
    chunks appended in order, two calls on the client per chunk. *)
Lemma chunk_loop (cs : list (list string)) :
  forall acc c all c',
    GoogleTrends.for_each
      (GoogleTrends.chunk_step frame pt period region) cs acc c = (Ret all, c') ->
    all = (acc ++ flat_map (chunk_records pt period region) cs)%list /\
    GoogleTrends.calls c'
    = (GoogleTrends.calls c ++ flat_map (chunk_calls period region) cs)%list.
Proof.
  induction cs as [|ch cs IH]; intros acc c all c' H.
  - injection H as <- <-. now rewrite !app_nil_r.
  - cbn [GoogleTrends.for_each] in H. unfold GoogleTrends.bindM in H at 1.
    destruct (GoogleTrends.chunk_step frame pt period region acc ch c)
      as [[acc'|e] c1] eqn:Hstep; [|discriminate].
    apply IH in H. destruct H as [Hall Hcalls].
    assert (Hs : acc' = (acc ++ chunk_records pt period region ch)%list /\
                 GoogleTrends.calls c1
                 = (GoogleTrends.calls c ++ chunk_calls period region ch)%list).
    { clear - Hstep.
      unfold GoogleTrends.chunk_step, GoogleTrends.bindM,
        GoogleTrends.build_payload, GoogleTrends.request_with,
        GoogleTrends.lift, GoogleTrends.ret in Hstep.
      unfold chunk_records, chunk_calls.
      cbn [GoogleTrends.current GoogleTrends.calls] in Hstep.
      destruct (GoogleTrends.build frame pt _); [|discriminate].
      destruct (GoogleTrends.interest_over_time frame pt _) as [df|];
        [|discriminate].
      destruct (negb (GoogleTrends.empty frame pt df)).
      - destruct (GoogleTrends.melted_records frame pt df ch) as [rs|];
          [|discriminate].
        injection Hstep as <- <-. cbn [GoogleTrends.calls].
        now rewrite <- app_assoc.
      - injection Hstep as <- <-. cbn [GoogleTrends.calls].
        now rewrite app_nil_r, <- app_assoc. }
    destruct Hs as [-> Hc1]. cbn [flat_map].
    now rewrite Hall, Hcalls, Hc1, <- !app_assoc.
Qed.

(** A success of [get_industry_interest]: the client has built one
    payload and sent one interest-over-time request per chunk, in chunk
    order, and ['data'] is the concatenation, in chunk order, of the
    chunks' records. *)
Theorem industry_interest_chunked (industry_keywords : list string)
        (c c' : GoogleTrends.client) (v : json) :
  industry_keywords <> [] ->
  let cs := GoogleTrends.chunks industry_keywords in
  concat cs = industry_keywords /\
  Forall (fun ch => 1 <= List.length ch <= 5) cs /\
  (GoogleTrends.get_industry_interest frame pt industry_keywords period region c
   = (Ret v, c') ->
   field v "status" = Some (JStr "success") ->
   GoogleTrends.calls c'
   = (GoogleTrends.calls c ++ flat_map (chunk_calls period region) cs)%list /\
   field v "data"
   = Some (JList (map GoogleTrends.record_json
                      (flat_map (chunk_records pt period region) cs)))).
Proof.
  intros _ cs. subst cs.
  destruct (chunks_partition industry_keywords) as [Hc Hf].
  split; [exact Hc | split; [exact Hf|]].
  unfold GoogleTrends.get_industry_interest, GoogleTrends.catching,
    GoogleTrends.get_industry_interest_body.
  unfold GoogleTrends.bindM at 1.
  destruct (GoogleTrends.for_each _ _ _ c) as [[all|e] c1] eqn:Hloop.
  - apply chunk_loop in Hloop. destruct Hloop as [Hall Hcalls].
    simpl in Hall. destruct all as [|r all].
    + unfold GoogleTrends.ret. intros H. injection H as <- <-. discriminate.
    + unfold GoogleTrends.ret. intros H. injection H as <- <-. intros _.
      split; [exact Hcalls|]. rewrite <- Hall. reflexivity.
  - destruct (derives_Exception e).
    + intros H. injection H as <- <-. discriminate.
    + discriminate.
Qed.

End IndustryInterest.

Lemma industry_interest_chunked_witness :
  seven_keywords <> [] /\
  GoogleTrends.chunks seven_keywords = [["a"; "b"; "c"; "d"; "e"]; ["f"; "g"]] /\
  GoogleTrends.calls (snd echo_run)
  = flat_map (chunk_calls "today 12-m" "US")
      [["a"; "b"; "c"; "d"; "e"]; ["f"; "g"]] /\
  field echo_result "data"
  = Some (JList (map (fun k => JObj [("date", JStr "2024-01-07");
                                     ("keyword", JStr k);
                                     ("interest", JNum "50")])
                     seven_keywords)).
Proof.
  assert (Hne : seven_keywords <> []) by discriminate.
  split; [exact Hne | split; [reflexivity|]].
  exact (proj2 (proj2 (industry_interest_chunked (list string) pt_echo
                         "today 12-m" "US" seven_keywords fresh_client
                         (snd echo_run) echo_result Hne))
               eq_refl eq_refl).
Defined.

(** * Further properties of the three scripts *)

(** ** Splitting and joining *)

Section SplitJoin.

Lemma prefix_app_r (p x y : string) :
  prefix p x = true -> prefix p (x ++ y) = true.
Proof.
  revert x; induction p as [|c p IH]; intros x H; [apply prefix_empty|].
  destruct x as [|d x]; [discriminate|]. simpl in *.
  destruct (ascii_dec c d); [now apply IH | discriminate].
Qed.

Lemma prefix_length (p x : string) :
  prefix p x = true -> String.length p <= String.length x.
Proof.
  revert x; induction p as [|c p IH]; intros x H; simpl; [lia|].
  destruct x as [|d x]; [discriminate|]. simpl in *.
  destruct (ascii_dec c d); [|discriminate].
  apply IH in H. lia.
Qed.

Lemma prefix_drop (p x : string) :
  prefix p x = true -> x = p ++ drop (String.length p) x.
Proof.
  revert x; induction p as [|c p IH]; intros x H; simpl.
  - now destruct x.
  - destruct x as [|d x]; [discriminate|]. simpl in *.
    destruct (ascii_dec c d) as [<-|]; [|discriminate].
    f_equal. now apply IH.
Qed.

Lemma cons_head_app (c : ascii) (l l' : list string) :
  l <> [] -> (cons_head c l ++ l')%list = cons_head c (l ++ l')%list.
Proof. destruct l; [now intros H; elim H | reflexivity]. Qed.

(** The scan over a text followed by a separator and more text: the
    pieces of the text, then the pieces of what follows.  The separator
    starts with the only line feed it holds, so no occurrence straddles
    the seam. *)
Lemma split_from_app (sep' a b : string) (k : nat) :
  single_line sep' = true -> k <= String.length a ->
  split_from (String LF sep') (a ++ String LF sep' ++ b) k
  = (split_from (String LF sep') a k ++ split (String LF sep') b)%list.
Proof.
  intros Hs. revert k. induction a as [|c a IH]; intros k Hk.
  - simpl in Hk. assert (k = 0) by lia. subst k.
    apply (split_at_sep LF sep' b).
  - change (String c a ++ String LF sep' ++ b)
      with (String c (a ++ String LF sep' ++ b)).
    destruct k as [|k].
    + cbn [split_from].
      destruct (prefix (String LF sep') (String c a)) eqn:Hp.
      * change (String c (a ++ String LF sep' ++ b))
          with (String c a ++ String LF sep' ++ b).
        rewrite (prefix_app_r _ _ _ Hp). cbn [app]. f_equal.
        apply IH. apply prefix_length in Hp. simpl in *. lia.
      * change (String c (a ++ String LF sep' ++ b))
          with (String c a ++ String LF (sep' ++ b)).
        rewrite (prefix_seam sep' (String c a) (sep' ++ b) Hs Hp)
          by discriminate.
        change (String c a ++ String LF (sep' ++ b))
          with (String c (a ++ String LF sep' ++ b)).
        rewrite (IH 0) by lia.
        symmetry. apply cons_head_app, split_from_not_nil.
    + cbn [split_from]. apply IH. simpl in Hk. lia.
Qed.

Lemma split_app (sep' a b : string) :
  single_line sep' = true ->
  split (String LF sep') (a ++ String LF sep' ++ b)
  = (split (String LF sep') a ++ split (String LF sep') b)%list.
Proof. intros Hs. apply split_from_app; [exact Hs | lia]. Qed.

Lemma join_cons (sep x : string) (l : list string) :
  l <> [] -> join sep (x :: l) = x ++ sep ++ join sep l.
Proof. destruct l; [now intros H; elim H | reflexivity]. Qed.

Lemma join_cons_head (sep : string) (c : ascii) (l : list string) :
  l <> [] -> join sep (cons_head c l) = String c (join sep l).
Proof.
  destruct l as [|x l]; [now intros H; elim H|]. intros _.
  destruct l as [|y l]; reflexivity.
Qed.

Lemma drop_drop1 (k : nat) (c : ascii) (s : string) :
  drop (S k) (String c s) = drop k s.
Proof. reflexivity. Qed.

(** Joining the pieces with the separator gives the text back. *)
Lemma join_split_from (sep s : string) (k : nat) :
  truthy sep = true ->
  join sep (split_from sep s k) = drop k s.
Proof.
  intros Hsep. revert k. induction s as [|c s IH]; intros k.
  - now destruct k.
  - destruct k as [|k]; cbn [split_from]; [|apply IH].
    destruct (prefix sep (String c s)) eqn:Hp.
    + rewrite join_cons by apply split_from_not_nil.
      rewrite IH. apply prefix_drop in Hp.
      destruct sep as [|d sep]; [discriminate|].
      replace (String.length (String d sep) - 1) with (String.length sep)
        by (simpl; lia).
      change (drop (String.length (String d sep)) (String c s))
        with (drop (String.length sep) s) in Hp.
      symmetry. exact Hp.
    + rewrite join_cons_head by apply split_from_not_nil.
      now rewrite IH.
Qed.

Lemma join_split (sep s : string) :
  truthy sep = true -> join sep (split sep s) = s.
Proof. intros H. unfold split. now rewrite join_split_from. Qed.

End SplitJoin.

(** ** Trimming twice *)

Section TrimTwice.

Lemma rstrip_idem (s : string) : rstrip (rstrip s) = rstrip s.
Proof.
  induction s as [|c s IH]; [reflexivity|]. cbn [rstrip].
  destruct (is_space c && negb (truthy (rstrip s))) eqn:E; [reflexivity|].
  cbn [rstrip]. now rewrite IH, E.
Qed.

Lemma lstrip_idem (s : string) : lstrip (lstrip s) = lstrip s.
Proof.
  induction s as [|c s IH]; [reflexivity|]. cbn [lstrip].
  destruct (is_space c) eqn:E; [exact IH|]. cbn [lstrip]. now rewrite E.
Qed.

(** What [lstrip] leaves alone, [rstrip] does not spoil. *)
Lemma lstrip_rstrip (s : string) : lstrip s = s -> lstrip (rstrip s) = rstrip s.
Proof.
  destruct s as [|c s]; [reflexivity|]. cbn [lstrip rstrip]. intros H.
  destruct (is_space c) eqn:E.
  - pose proof (lstrip_length s) as L. rewrite H in L. simpl in L. lia.
  - cbn [andb]. cbn [lstrip]. now rewrite E.
Qed.

Lemma strip_trimmed (s : string) : trimmed (strip s) = true.
Proof.
  unfold trimmed, strip. apply andb_true_iff. split; apply String.eqb_eq.
  - apply lstrip_rstrip, lstrip_idem.
  - apply rstrip_idem.
Qed.

Lemma trimmed_strip (s : string) : trimmed s = true -> strip s = s.
Proof.
  unfold trimmed, strip. intros H. apply andb_true_iff in H.
  destruct H as [Hl Hr]. apply String.eqb_eq in Hl, Hr. now rewrite Hl.
Qed.

Lemma strip_idem (s : string) : strip (strip s) = strip s.
Proof. apply trimmed_strip, strip_trimmed. Qed.

End TrimTwice.

(** ** The conversion pass as a whole *)

(** X1.  A report that holds no section delimiter converts to a document
    of one node, the title heading, whatever else the text holds. *)
Theorem report_without_sections (md_content : string) :
  occurs sep_section md_content = false ->
  convert md_content = [Heading (replace "# " "" (strip md_content)) 0].
Proof.
  intros H. rewrite convert_emit. unfold title_of.
  now rewrite split_no_occurrence.
Qed.

Lemma report_without_sections_witness :
  occurs sep_section title_only_report = false /\
  convert title_only_report
  = [Heading ("Only a title" ++ nl ++ "and a line") 0].
Proof.
  split; [reflexivity | exact (report_without_sections title_only_report eq_refl)].
Defined.

(** X2.  Converting a report that goes on with a section delimiter and
    more text is converting the report up to there and then processing
    the sections of the rest, in order: what was emitted for the first
    part stays as it is, at the front. *)
Theorem convert_continues (a b : string) :
  convert (a ++ sep_section ++ b)
  = fold_left process_section (split sep_section b) (convert a).
Proof.
  unfold convert, title_of. change sep_section with (String LF "## ").
  rewrite split_app by reflexivity.
  pose proof (split_not_nil (String LF "## ") a) as Hne.
  destruct (split (String LF "## ") a) as [|t ss]; [now elim Hne|].
  cbn [app hd tl]. now rewrite fold_left_app.
Qed.

Section Shape.

Lemma headings0_subsection (subsection : string) :
  headings_at 0 (subsection_nodes subsection) = [].
Proof.
  unfold subsection_nodes. simpl.
  destruct (truthy (subsection_content subsection));
    [apply headings_at_blocks | reflexivity].
Qed.

Lemma headings0_section (section : string) :
  headings_at 0 (section_nodes section) = [].
Proof.
  unfold section_nodes, body_nodes. simpl.
  rewrite headings_at_app, headings_at_main_text. simpl.
  apply headings_at_flat_map_none, headings0_subsection.
Qed.

Lemma main_paras_plain (l : list string) :
  forallb is_plain (flat_map main_para_nodes l) = true.
Proof.
  induction l as [|p l IH]; [reflexivity|]. cbn [flat_map].
  rewrite forallb_app, IH, andb_true_r. unfold main_para_nodes.
  now destruct (truthy (strip p)).
Qed.

Lemma subsections_open (l : list string) :
  opens_with_subsection (flat_map subsection_nodes l) = true.
Proof. now destruct l. Qed.

End Shape.

(** X3.  The document starts with the title heading, and that is its only
    level-0 heading. *)
Theorem title_heading_first_and_only (md_content : string) :
  exists rest,
    convert md_content = Heading (title_of md_content) 0 :: rest /\
    headings_at 0 rest = [].
Proof.
  exists (flat_map section_nodes (tl (split sep_section md_content))).
  split; [apply convert_emit|].
  apply headings_at_flat_map_none, headings0_section.
Qed.

(** X4.  What a section contributes is its level-1 heading, then plain
    paragraphs only, then nothing or nodes that open with a level-2
    heading: no List Bullet paragraph and no heading comes before the
    first subsection heading. *)
Theorem section_shape (section : string) :
  exists direct subs,
    process_section Document section
    = (Heading (section_title section) 1 :: direct ++ subs)%list /\
    forallb is_plain direct = true /\
    opens_with_subsection subs = true.
Proof.
  rewrite process_section_emit. unfold section_nodes, body_nodes. cbn [app Document].
  eexists. eexists. split; [reflexivity|]. split.
  - destruct (negb _); [apply main_paras_plain | reflexivity].
  - apply subsections_open.
Qed.

Lemma title_and_content (section first rest : string) :
  strip section = first ++ nl ++ rest ->
  single_line first = true ->
  section_title section = first /\ section_content section = strip rest.
Proof.
  intros H Hf. unfold section_title, section_content. rewrite H.
  unfold nl.
  rewrite split_first_piece;
    [| reflexivity | now apply single_line_no_occurrence].
  cbn [hd tl]. split; [reflexivity|].
  now rewrite join_split.
Qed.

(** X5.  A section fragment whose trimmed text is a first line, a line
    feed and a rest has that first line as its title, white space at its
    end included, and the trimmed rest as its content. *)
Theorem section_first_line_and_rest (section first rest : string) :
  strip section = first ++ nl ++ rest ->
  single_line first = true ->
  section_title section = first /\ section_content section = strip rest.
Proof. apply title_and_content. Qed.

Lemma section_first_line_and_rest_witness :
  section_title two_line_section = "Overview  " /\
  section_content two_line_section = "first" ++ nl ++ "second".
Proof.
  exact (section_first_line_and_rest two_line_section "Overview  "
           (nl ++ "first" ++ nl ++ "second") eq_refl eq_refl).
Defined.

(** ** Paragraph texts *)

Section ParagraphTexts.

Lemma paragraph_origin (md_content t : string) (st : pstyle) :
  In (Paragraph t st) (convert md_content) ->
  (exists s, t = strip s) /\ (st = Normal -> truthy t = true).
Proof.
  rewrite convert_emit. intros [H|H]; [discriminate|].
  apply in_flat_map in H. destruct H as (section & _ & H).
  destruct H as [H|H]; [discriminate|].
  assert (Hmain : forall p, In (Paragraph t st) (main_para_nodes p) ->
                  (exists s, t = strip s) /\ (st = Normal -> truthy t = true)).
  { intros p. unfold main_para_nodes.
    destruct (truthy (strip p)) eqn:E; [|now intros []].
    intros [Hp|[]]. injection Hp as <- <-. split; [now exists p | now intros _]. }
  assert (Hsub : forall p, In (Paragraph t st) (sub_para_nodes p) ->
                 (exists s, t = strip s) /\ (st = Normal -> truthy t = true)).
  { intros p. unfold sub_para_nodes.
    destruct (truthy (strip p)) eqn:E; [|now intros []].
    destruct (startswith "- " (strip p)).
    - intros Hp. apply in_map_iff in Hp. destruct Hp as (x & Hx & Hin).
      injection Hx as <- <-. unfold bullet_items in Hin.
      apply in_map_iff in Hin. destruct Hin as (y & <- & _).
      split; [now exists y | discriminate].
    - intros [Hp|[]]. injection Hp as <- <-.
      split; [now exists p | now intros _]. }
  unfold body_nodes in H. apply in_app_or in H. destruct H as [H|H].
  - destruct (negb _); [|now elim H].
    apply in_flat_map in H. destruct H as (p & _ & H). now apply (Hmain p).
  - apply in_flat_map in H. destruct H as (sub & _ & H).
    destruct H as [H|H]; [discriminate|].
    destruct (truthy (subsection_content sub)); [|now elim H].
    apply in_flat_map in H. destruct H as (p & _ & H). now apply (Hsub p).
Qed.

End ParagraphTexts.

(** X6.  The text of every paragraph of the document, plain or List
    Bullet, has no white space at either end, and a plain paragraph is
    never empty. *)
Theorem paragraph_texts_trimmed (md_content t : string) (st : pstyle) :
  In (Paragraph t st) (convert md_content) ->
  trimmed t = true /\ (st = Normal -> truthy t = true).
Proof.
  intros H. apply paragraph_origin in H. destruct H as [(s & ->) Hn].
  split; [apply strip_trimmed | exact Hn].
Qed.

Lemma paragraph_texts_trimmed_witness :
  In (Paragraph "kept" Normal) (convert leading_subsection_report) /\
  trimmed "kept" = true /\ (Normal = Normal -> truthy "kept" = true).
Proof.
  assert (H : In (Paragraph "kept" Normal) (convert leading_subsection_report))
    by (vm_compute; tauto).
  split; [exact H|].
  exact (paragraph_texts_trimmed leading_subsection_report "kept" Normal H).
Defined.

(** ** Lists and paragraphs that come back as written *)

Section RoundTrips.

Lemma append_assoc (a b c : string) : (a ++ b) ++ c = a ++ b ++ c.
Proof. induction a as [|x a IH]; simpl; [reflexivity | now rewrite IH]. Qed.

Lemma join_prepend (sep x i : string) (l : list string) :
  x ++ join sep (i :: l) = join sep ((x ++ i) :: l).
Proof.
  destruct l as [|j l]; [reflexivity|].
  cbn [join]. now rewrite append_assoc.
Qed.

(** Single-line pieces joined by a separator that starts a new line are
    the pieces of the joined text. *)
Lemma split_join_lines (sep' : string) (items : list string) :
  single_line sep' = true -> items <> [] ->
  forallb single_line items = true ->
  split (String LF sep') (join (String LF sep') items) = items.
Proof.
  intros Hs. induction items as [|x l IH]; [now intros H; elim H|].
  intros _ H. cbn [forallb] in H. apply andb_true_iff in H. destruct H as [Hx Hl].
  destruct l as [|y l].
  - cbn [join]. apply split_no_occurrence.
    now apply single_line_no_occurrence.
  - rewrite join_cons by discriminate.
    rewrite split_first_piece;
      [| exact Hs | now apply single_line_no_occurrence].
    f_equal. apply IH; [discriminate | exact Hl].
Qed.

Lemma rstrip_fixed_app (a b : string) :
  truthy b = true -> rstrip b = b -> rstrip (a ++ b) = a ++ b.
Proof. intros Ht Hb. rewrite rstrip_app, Hb. now rewrite Ht. Qed.

Lemma truthy_app_r (a b : string) : truthy b = true -> truthy (a ++ b) = true.
Proof. destruct a; [now intros H | reflexivity]. Qed.

(** Joined pieces that [rstrip] leaves alone: [rstrip] leaves the whole
    alone. *)
Lemma rstrip_join (sep : string) (items : list string) :
  items <> [] ->
  Forall (fun i => truthy i = true /\ rstrip i = i) items ->
  truthy (join sep items) = true /\ rstrip (join sep items) = join sep items.
Proof.
  induction items as [|x l IH]; [now intros H; elim H|].
  intros _ H. inversion H as [|? ? [Hx1 Hx2] Hl]; subst.
  destruct l as [|y l]; [now split|].
  destruct (IH ltac:(discriminate) Hl) as [IH1 IH2].
  rewrite join_cons by discriminate. split.
  - now apply truthy_app_r, truthy_app_r.
  - rewrite <- append_assoc. apply rstrip_fixed_app; assumption.
Qed.

Lemma plain_item_inv (i : string) :
  plain_item i = true ->
  truthy i = true /\ single_line i = true /\ lstrip i = i /\ rstrip i = i /\
  startswith "- " i = false.
Proof.
  unfold plain_item. intros H. apply andb_true_iff in H. destruct H as [Hc Hm].
  apply clean_inv in Hc. destruct Hc as (H1 & H2 & H3 & H4).
  apply negb_true_iff in Hm. now repeat split.
Qed.

Lemma plain_items_kept (l : list string) :
  forallb plain_item l = true ->
  map strip (map unmark (filter nonblank l)) = l.
Proof.
  induction l as [|i l IH]; [reflexivity|]. intros H.
  cbn [forallb] in H. apply andb_true_iff in H. destruct H as [Hi Hl].
  apply plain_item_inv in Hi. destruct Hi as (Ht & _ & Hls & Hrs & Hm).
  assert (Hs : strip i = i) by (unfold strip; now rewrite Hls).
  cbn [filter]. unfold nonblank at 1. rewrite Hs, Ht. cbn [map].
  unfold unmark at 1. rewrite Hm, Hs. f_equal. now apply IH.
Qed.

End RoundTrips.

(** X7.  A list written with a marker before every item, one item per
    line, the items clean texts that do not start with a marker
    themselves, is emitted in a Subsection as exactly those items, one
    List Bullet paragraph each, in order. *)
Theorem bullet_list_round_trip (doc : document) (items : list string) :
  items <> [] ->
  forallb plain_item items = true ->
  add_sub_para doc (render_list items) = (doc ++ map bullet items)%list.
Proof.
  intros Hne Hall.
  destruct items as [|i l]; [now elim Hne|]. clear Hne.
  cbn [forallb] in Hall. apply andb_true_iff in Hall. destruct Hall as [Hi Hl].
  pose proof (plain_item_inv i Hi) as (Ht & Hsl & Hls & Hrs & Hm).
  assert (Hrest : Forall (fun i => truthy i = true /\ rstrip i = i) (i :: l)).
  { constructor; [now split|]. apply Forall_forall. intros x Hx.
    rewrite forallb_forall in Hl. apply Hl, plain_item_inv in Hx. tauto. }
  assert (Hlines : forallb single_line (("- " ++ i) :: l) = true).
  { cbn [forallb]. apply andb_true_iff. split; [simpl; exact Hsl|].
    apply forallb_forall. intros x Hx.
    rewrite forallb_forall in Hl. apply Hl, plain_item_inv in Hx. tauto. }
  destruct (rstrip_join sep_item (i :: l) ltac:(discriminate) Hrest) as [Hj1 Hj2].
  assert (Hstrip : strip (render_list (i :: l)) = render_list (i :: l)).
  { unfold strip, render_list.
    change (lstrip ("- " ++ join sep_item (i :: l)))
      with ("- " ++ join sep_item (i :: l)).
    now apply rstrip_fixed_app. }
  rewrite add_sub_para_emit. unfold sub_para_nodes. rewrite Hstrip.
  change (truthy (render_list (i :: l))) with true.
  assert (Hstart : startswith "- " (render_list (i :: l)) = true)
    by apply prefix_app.
  rewrite Hstart. f_equal. f_equal.
  unfold bullet_items, render_list. rewrite join_prepend.
  change sep_item with (String LF "- ").
  rewrite split_join_lines; [| reflexivity | discriminate | exact Hlines].
  cbn [filter]. unfold nonblank at 1.
  assert (Hfirst : strip ("- " ++ i) = "- " ++ i).
  { unfold strip. change (lstrip ("- " ++ i)) with ("- " ++ i).
    now apply rstrip_fixed_app. }
  rewrite Hfirst. change (truthy ("- " ++ i)) with true. cbn [map].
  assert (Hun : unmark ("- " ++ i) = i)
    by (unfold unmark, startswith; now rewrite prefix_app).
  rewrite Hun.
  f_equal; [unfold strip; now rewrite Hls | now apply plain_items_kept].
Qed.

Lemma bullet_list_round_trip_witness :
  shopping_list <> [] /\ forallb plain_item shopping_list = true /\
  add_sub_para Document
    ("- milk" ++ nl ++ "- two eggs" ++ nl ++ "- -5 degrees")
  = [bullet "milk"; bullet "two eggs"; bullet "-5 degrees"].
Proof.
  assert (Hne : shopping_list <> []) by discriminate.
  split; [exact Hne | split; [reflexivity|]].
  exact (bullet_list_round_trip Document shopping_list Hne eq_refl).
Defined.

(** X8.  A title line made of the marker and a clean text that holds no
    marker gives that text as the title, alone or followed by sections. *)
Theorem title_of_marked_line (t more : string) :
  clean t = true -> occurs "# " t = false ->
  title_of ("# " ++ t) = t /\
  title_of ("# " ++ t ++ sep_section ++ more) = t.
Proof.
  intros Hc Ho. apply clean_inv in Hc. destruct Hc as (Ht & Hsl & _ & Hrs).
  assert (Hno : occurs (String LF "## ") ("# " ++ t) = false)
    by (apply single_line_no_occurrence; exact Hsl).
  assert (Hstrip : strip ("# " ++ t) = "# " ++ t).
  { unfold strip. change (lstrip ("# " ++ t)) with ("# " ++ t).
    now apply rstrip_fixed_app. }
  assert (Hrep : replace "# " "" ("# " ++ t) = t).
  { unfold replace. change ("# " ++ t) with (String "#" " " ++ t).
    now rewrite split_at_sep, split_no_occurrence. }
  unfold title_of. change sep_section with (String LF "## "). split.
  - rewrite split_no_occurrence by exact Hno. cbn [hd]. now rewrite Hstrip.
  - change ("# " ++ t ++ String LF "## " ++ more)
      with (("# " ++ t) ++ String LF "## " ++ more).
    rewrite split_first_piece by (reflexivity || exact Hno).
    cbn [hd]. now rewrite Hstrip.
Qed.

Lemma title_of_marked_line_witness :
  clean "Q3 report" = true /\ occurs "# " "Q3 report" = false /\
  title_of ("# Q3 report" ++ sep_section ++ "Summary") = "Q3 report".
Proof.
  split; [reflexivity | split; [reflexivity|]].
  exact (proj2 (title_of_marked_line "Q3 report" "Summary" eq_refl eq_refl)).
Defined.

Section BlankLines.

Lemma trailing_kept_open (p : string) : rstrip p = p -> open_ended p = true.
Proof.
  induction p as [|c p IH]; [reflexivity|]. cbn [rstrip]. intros H.
  destruct (is_space c && negb (truthy (rstrip p))) eqn:E; [discriminate|].
  injection H as H. destruct p as [|d p].
  - simpl in E. rewrite andb_true_r in E. cbn [open_ended].
    destruct (Ascii.eqb c LF) eqn:Ec; [|reflexivity].
    apply Ascii.eqb_eq in Ec. subst c. discriminate.
  - cbn [open_ended]. now apply IH.
Qed.

(** A paragraph without a blank line inside that does not end in a line
    feed, followed by a blank line, is the first piece of the split at
    blank lines. *)
Lemma split_first_paragraph (a b : string) :
  occurs sep_paragraph a = false -> open_ended a = true ->
  split sep_paragraph (a ++ sep_paragraph ++ b) = a :: split sep_paragraph b.
Proof.
  change sep_paragraph with (String LF (String LF "")).
  induction a as [|c a IH]; intros Ho He.
  - apply split_at_sep.
  - cbn [occurs] in Ho. apply orb_false_iff in Ho. destruct Ho as [Hp Ho].
    change (String c a ++ String LF (String LF "") ++ b)
      with (String c (a ++ String LF (String LF "") ++ b)).
    rewrite split_step.
    + rewrite IH; [reflexivity | exact Ho |].
      destruct a; [reflexivity | exact He].
    + destruct (ascii_dec LF c) as [<-|Hc]; [|now apply prefix_head_neq].
      destruct a as [|d a]; [discriminate He|].
      cbn [prefix append] in Hp |- *.
      destruct (ascii_dec LF d); [|reflexivity].
      rewrite prefix_empty in Hp. discriminate Hp.
Qed.

Lemma split_join_paragraphs (paras : list string) :
  paras <> [] ->
  Forall (fun p => occurs sep_paragraph p = false /\ open_ended p = true) paras ->
  split sep_paragraph (join sep_paragraph paras) = paras.
Proof.
  induction paras as [|p l IH]; [now intros H; elim H|].
  intros _ H. inversion H as [|? ? [Hp1 Hp2] Hl]; subst.
  destruct l as [|q l].
  - cbn [join]. now apply split_no_occurrence.
  - rewrite join_cons by discriminate.
    rewrite split_first_paragraph by assumption.
    f_equal. apply IH; [discriminate | exact Hl].
Qed.

Lemma plain_para_inv (p : string) :
  plain_para p = true ->
  truthy p = true /\ lstrip p = p /\ rstrip p = p /\
  occurs sep_paragraph p = false /\ startswith "- " p = false.
Proof.
  unfold plain_para, trimmed. intros H.
  repeat match goal with
         | H : _ && _ = true |- _ => apply andb_true_iff in H; destruct H
         | H : negb _ = true |- _ => apply negb_true_iff in H
         | H : String.eqb _ _ = true |- _ => apply String.eqb_eq in H
         end.
  now repeat split.
Qed.

Lemma plain_paras_emitted (l : list string) :
  forallb plain_para l = true -> flat_map sub_para_nodes l = map plain l.
Proof.
  induction l as [|p l IH]; [reflexivity|]. intros H.
  cbn [forallb] in H. apply andb_true_iff in H. destruct H as [Hp Hl].
  apply plain_para_inv in Hp. destruct Hp as (Ht & Hls & Hrs & _ & Hm).
  assert (Hs : strip p = p) by (unfold strip; now rewrite Hls).
  cbn [flat_map map]. rewrite (IH Hl). unfold sub_para_nodes.
  now rewrite Hs, Ht, Hm.
Qed.

End BlankLines.

(** X9.  A subsection written as a clean title line followed by
    paragraphs separated by blank lines, each paragraph trimmed, without a
    blank line inside and not a list, is emitted as its level-2 heading
    and one plain paragraph per paragraph, text unchanged, in order. *)
Theorem subsection_paragraphs_round_trip (doc : document) (title : string)
        (paras : list string) :
  clean title = true -> paras <> [] -> forallb plain_para paras = true ->
  process_subsection doc (title ++ nl ++ join sep_paragraph paras)
  = (doc ++ Heading title 2 :: map plain paras)%list.
Proof.
  intros Hc Hne Hall.
  apply clean_inv in Hc. destruct Hc as (Ht & Hsl & Hls & _).
  assert (Hinv : Forall (fun p => truthy p = true /\ rstrip p = p) paras /\
                 Forall (fun p => occurs sep_paragraph p = false /\
                                  open_ended p = true) paras).
  { split; apply Forall_forall; intros p Hp;
      rewrite forallb_forall in Hall; apply Hall, plain_para_inv in Hp;
      destruct Hp as (? & ? & ? & ? & ?); split; auto using trailing_kept_open. }
  destruct Hinv as [Hr Ho].
  destruct (rstrip_join sep_paragraph paras Hne Hr) as [Hb1 Hb2].
  set (body := join sep_paragraph paras) in *.
  assert (Hbl : lstrip body = body).
  { subst body. destruct paras as [|p l]; [now elim Hne|].
    cbn [forallb] in Hall. apply andb_true_iff in Hall. destruct Hall as [Hp _].
    apply plain_para_inv in Hp. destruct Hp as (Hpt & Hpl & _).
    destruct l as [|q l]; [exact Hpl|].
    rewrite join_cons by discriminate. now apply lstrip_fixed_app. }
  assert (Hstrip : strip (title ++ nl ++ body) = title ++ nl ++ body).
  { unfold strip. rewrite lstrip_fixed_app by assumption.
    rewrite <- append_assoc. now apply rstrip_fixed_app. }
  destruct (title_and_content (title ++ nl ++ body) title body Hstrip Hsl)
    as [Htitle Hcontent].
  assert (Hbody : strip body = body) by (unfold strip; now rewrite Hbl).
  rewrite process_subsection_emit. unfold subsection_nodes.
  change (subsection_title (title ++ nl ++ body))
    with (section_title (title ++ nl ++ body)).
  change (subsection_content (title ++ nl ++ body))
    with (section_content (title ++ nl ++ body)).
  rewrite Htitle, Hcontent, Hbody, Hb1.
  subst body. rewrite split_join_paragraphs by assumption.
  now rewrite plain_paras_emitted.
Qed.

Lemma subsection_paragraphs_round_trip_witness :
  clean "Results" = true /\ two_paragraphs <> [] /\
  forallb plain_para two_paragraphs = true /\
  process_subsection Document
    ("Results" ++ nl ++ "Revenue grew." ++ nl ++ "Costs fell."
               ++ nl ++ nl ++ "Outlook: stable")
  = [Heading "Results" 2; plain ("Revenue grew." ++ nl ++ "Costs fell.");
     plain "Outlook: stable"].
Proof.
  assert (Hne : two_paragraphs <> []) by discriminate.
  split; [reflexivity | split; [exact Hne | split; [reflexivity|]]].
  exact (subsection_paragraphs_round_trip Document "Results" two_paragraphs
           eq_refl Hne eq_refl).
Defined.

(** ** The market-data adapter *)

Section YahooFacts.

Variable frame : Type.
Variable yf : YahooFinance.provider frame.

Lemma catchable_ret {A : Type} (a : A) : catchable (Ret a).
Proof. intros e H. discriminate. Qed.

Lemma catchable_bind {A B : Type} (m : res A) (k : A -> res B) :
  catchable m -> (forall a, catchable (k a)) -> catchable (bind m k).
Proof.
  intros Hm Hk e H. destruct m as [a|e']; simpl in H.
  - now apply (Hk a).
  - injection H as <-. now apply Hm.
Qed.

Lemma catchable_for_each {A S : Type} (step : S -> A -> res S) (l : list A) :
  (forall s x, catchable (step s x)) ->
  forall s, catchable (YahooFinance.for_each step l s).
Proof.
  intros Hstep. induction l as [|x l IH]; intros s; cbn [YahooFinance.for_each].
  - apply catchable_ret.
  - apply catchable_bind; [apply Hstep | intros s'; apply IH].
Qed.

Lemma bind_ret_inv {A B : Type} (m : res A) (k : A -> res B) (b : B) :
  bind m k = Ret b -> exists a, m = Ret a /\ k a = Ret b.
Proof. destruct m as [a|e]; [now exists a | discriminate]. Qed.

(** Around a body that raises nothing but [Exception]s and returns only
    success objects, [try ... except Exception] always returns an object
    with a status. *)
Lemma try_except_status (body : res json) :
  catchable body -> (forall v, body = Ret v -> is_success v) ->
  exists v, try_except body YahooFinance.report_error = Ret v /\ has_status v.
Proof.
  intros Hc Hs. destruct body as [v|e]; simpl.
  - exists v. split; [reflexivity | left; now apply Hs].
  - rewrite (Hc e eq_refl). eexists. split; [reflexivity | now right].
Qed.

(** A function's answer that is a success comes from its body. *)
Lemma try_except_success (body : res json) (v : json) :
  try_except body YahooFinance.report_error = Ret v -> is_success v ->
  body = Ret v.
Proof.
  destruct body as [v'|e]; simpl; [now intros [= ->]|].
  destruct (derives_Exception e); [|discriminate].
  intros [= <-] H. discriminate H.
Qed.

Hypothesis Hyf : yahoo_catchable yf.

Lemma stock_body_catchable (symbol period : string) :
  catchable (YahooFinance.get_stock_data_body frame yf symbol period).
Proof.
  unfold YahooFinance.get_stock_data_body.
  apply catchable_bind; [apply Hyf | intros _].
  apply catchable_bind; [apply Hyf | intros hist].
  apply catchable_bind; [apply Hyf | intros records].
  apply catchable_bind; [apply Hyf | intros info].
  apply catchable_bind; [|intros; apply catchable_ret].
  destruct (dict_lookup info "lastDividendDate") as [[]|];
    try apply catchable_ret;
    (apply catchable_bind; [apply Hyf | intros; apply catchable_ret]).
Qed.

Lemma market_body_catchable :
  catchable (YahooFinance.get_market_summary_body frame yf).
Proof.
  unfold YahooFinance.get_market_summary_body.
  apply catchable_bind; [|intros; apply catchable_ret].
  apply catchable_for_each. intros results idx. unfold YahooFinance.market_step.
  apply catchable_bind; [apply Hyf | intros _].
  apply catchable_bind; [apply Hyf | intros hist].
  apply catchable_bind; [apply Hyf | intros change].
  apply catchable_bind; [apply Hyf | intros info].
  apply catchable_bind; [apply Hyf | intros; apply catchable_ret].
Qed.

Lemma sectors_body_catchable :
  catchable (YahooFinance.get_industry_performance_body frame yf).
Proof.
  unfold YahooFinance.get_industry_performance_body.
  apply catchable_bind; [|intros; apply catchable_ret].
  apply catchable_for_each. intros results [name etf].
  unfold YahooFinance.sector_step.
  apply catchable_bind; [apply Hyf | intros _].
  apply catchable_bind; [apply Hyf | intros hist].
  destruct (Nat.ltb 0 _); [|apply catchable_ret].
  apply catchable_bind; [apply Hyf | intros; apply catchable_ret].
Qed.

Lemma search_body_catchable (query : string) (limit : Z) :
  catchable (YahooFinance.search_stocks_body frame yf query limit).
Proof.
  unfold YahooFinance.search_stocks_body.
  apply catchable_bind; [apply Hyf | intros; apply catchable_ret].
Qed.

End YahooFacts.

Section YahooSuccess.

Variable frame : Type.
Variable yf : YahooFinance.provider frame.

Ltac invert_binds H :=
  repeat (apply bind_ret_inv in H; destruct H as (? & ? & H)).

Lemma stock_body_success (symbol period : string) (v : json) :
  YahooFinance.get_stock_data_body frame yf symbol period = Ret v ->
  is_success v.
Proof.
  unfold YahooFinance.get_stock_data_body. intros H. invert_binds H.
  now injection H as <-.
Qed.

Lemma market_body_success (v : json) :
  YahooFinance.get_market_summary_body frame yf = Ret v -> is_success v.
Proof.
  unfold YahooFinance.get_market_summary_body. intros H. invert_binds H.
  now injection H as <-.
Qed.

Lemma sectors_body_success (v : json) :
  YahooFinance.get_industry_performance_body frame yf = Ret v -> is_success v.
Proof.
  unfold YahooFinance.get_industry_performance_body. intros H. invert_binds H.
  now injection H as <-.
Qed.

Lemma search_body_success (query : string) (limit : Z) (v : json) :
  YahooFinance.search_stocks_body frame yf query limit = Ret v -> is_success v.
Proof.
  unfold YahooFinance.search_stocks_body. intros H. invert_binds H.
  now injection H as <-.
Qed.

(** X10.  With a provider whose calls raise nothing but exceptions
    deriving from [Exception], and a search limit that [int] accepts when
    one is given, every run of the market-data script prints exactly one
    JSON object, which has the status success or error, and exits with
    status 0; nothing propagates. *)
Theorem yahoo_prints_one_object (argv : list string) :
  yahoo_catchable yf ->
  (arg argv 1 = "search" -> has_arg argv 3 = true ->
   exists limit, int (arg argv 3) = Ret limit) ->
  exists v,
    YahooFinance.main frame yf argv = print_and_return v /\ has_status v.
Proof.
  intros Hyf Hlimit. unfold YahooFinance.main.
  assert (Herr : forall m, exists v,
             print_and_return (error_result m) = print_and_return v /\
             has_status v).
  { intros m. eexists. split; [reflexivity | now right]. }
  assert (Hrun : forall body,
             catchable body -> (forall v, body = Ret v -> is_success v) ->
             exists v,
               print_result (try_except body YahooFinance.report_error)
               = print_and_return v /\ has_status v).
  { intros body Hc Hs. destruct (try_except_status body Hc Hs) as (v & -> & Hv).
    now exists v. }
  destruct (has_arg argv 1); cbn [negb]; [|apply Herr].
  destruct (String.eqb (arg argv 1) "stock").
  { destruct (has_arg argv 2); cbn [negb]; [|apply Herr].
    apply Hrun; [now apply stock_body_catchable | apply stock_body_success]. }
  destruct (String.eqb (arg argv 1) "market").
  { apply Hrun; [now apply market_body_catchable | apply market_body_success]. }
  destruct (String.eqb (arg argv 1) "sectors").
  { apply Hrun; [now apply sectors_body_catchable | apply sectors_body_success]. }
  destruct (String.eqb (arg argv 1) "search") eqn:Hcmd; [|apply Herr].
  apply String.eqb_eq in Hcmd.
  destruct (has_arg argv 2); cbn [negb]; [|apply Herr].
  destruct (has_arg argv 3).
  - destruct (Hlimit Hcmd eq_refl) as (limit & ->). cbn [bind].
    apply Hrun; [now apply search_body_catchable | apply search_body_success].
  - cbn [bind].
    apply Hrun; [now apply search_body_catchable | apply search_body_success].
Qed.

End YahooSuccess.

Lemma yf_info_down_catchable : yahoo_catchable yf_info_down.
Proof.
  constructor; intros; intros e H; try discriminate H.
  now injection H as <-.
Qed.

Lemma yahoo_prints_one_object_witness :
  (exists limit, int "5" = Ret limit) /\
  exists v,
    YahooFinance.main unit yf_info_down
      ["yahoo_finance.py"; "search"; "AAPL MSFT"; "5"]
    = print_and_return v /\ has_status v.
Proof.
  assert (H : exists limit, int "5" = Ret limit) by (now exists 5%Z).
  split; [exact H|].
  exact (yahoo_prints_one_object unit yf_info_down
           ["yahoo_finance.py"; "search"; "AAPL MSFT"; "5"]
           yf_info_down_catchable (fun _ _ => H)).
Defined.

Section SearchFacts.

Variable frame : Type.
Variable yf : YahooFinance.provider frame.

(** An entry of the search results: the symbol looked up comes first. *)
Lemma lookup_symbol_entry (s : string) (entry : json) :
  YahooFinance.lookup_symbol frame yf s = Ret (Some entry) ->
  field entry "symbol" = Some (JStr s).
Proof.
  unfold YahooFinance.lookup_symbol. intros H.
  apply bind_ret_inv in H. destruct H as (? & _ & H).
  apply bind_ret_inv in H. destruct H as (info & _ & H).
  destruct (dict_mem info "shortName"); [|discriminate].
  now injection H as <-.
Qed.

(** The loop of lines 145-160.  Entering it with no entry yet or with
    fewer than the limit, it leaves with at most the limit, or with one
    entry when the limit is below one; it adds at most one entry per
    symbol, each for one of the symbols. *)
Lemma search_loop_bounds (symbols : list string) (limit : Z) :
  forall results,
    results = [] \/ (Z.of_nat (List.length results) < limit)%Z ->
    exists added,
      YahooFinance.search_loop frame yf symbols limit results
      = (results ++ added)%list /\
      (Z.of_nat (List.length (results ++ added)) <= Z.max 1 limit)%Z /\
      List.length added <= List.length symbols /\
      Forall (fun r => exists s, In s symbols /\
                                 field r "symbol" = Some (JStr s)) added.
Proof.
  induction symbols as [|s symbols IH]; intros results Hin.
  - exists []. rewrite app_nil_r. cbn. repeat split; try lia; [|constructor].
    destruct Hin as [->|H]; simpl; lia.
  - cbn [YahooFinance.search_loop].
    assert (Hskip : exists added,
               YahooFinance.search_loop frame yf symbols limit results
               = (results ++ added)%list /\
               (Z.of_nat (List.length (results ++ added)) <= Z.max 1 limit)%Z /\
               List.length added <= List.length (s :: symbols) /\
               Forall (fun r => exists s', In s' (s :: symbols) /\
                                  field r "symbol" = Some (JStr s')) added).
    { destruct (IH results Hin) as (added & E & Hb & Hl & Hf).
      exists added. repeat split; try assumption; [simpl; lia|].
      eapply Forall_impl; [|exact Hf].
      intros r (s' & Hs' & Hr). exists s'. split; [now right | exact Hr]. }
    destruct (YahooFinance.lookup_symbol frame yf s) as [[entry|]|e] eqn:El;
      cbn [try_except_all]; try exact Hskip.
    pose proof (lookup_symbol_entry s entry El) as Hentry.
    destruct (limit <=? Z.of_nat (List.length (results ++ [entry])))%Z eqn:Eq.
    + exists [entry]. repeat split; [| simpl; lia |].
      * rewrite length_app in *. simpl in *.
        destruct Hin as [->|H]; simpl in *; lia.
      * constructor; [|constructor]. exists s. split; [now left | exact Hentry].
    + apply Z.leb_gt in Eq.
      destruct (IH (results ++ [entry])%list (or_intror Eq))
        as (added & E & Hb & Hl & Hf).
      exists (entry :: added). rewrite <- app_assoc in E, Hb. cbn [app] in *.
      repeat split; [exact E | exact Hb | simpl; lia |].
      constructor; [exists s; split; [now left | exact Hentry]|].
      eapply Forall_impl; [|exact Hf].
      intros r (s' & Hs' & Hr). exists s'. split; [now right | exact Hr].
Qed.

(** X11.  When [yf.Tickers(query)] returns, [search_stocks] returns a
    success object whatever the lookups of the symbols do; its data holds
    at most [limit] entries, or one when [limit] is below one, at most
    one per word of the query, and every entry's symbol is a word of the
    query. *)
Theorem search_results_bounded (query : string) (limit : Z) (u : unit) :
  YahooFinance.Tickers frame yf query = Ret u ->
  exists results,
    YahooFinance.search_stocks frame yf query limit
    = Ret (JObj [("status", JStr "success"); ("data", JList results)]) /\
    (Z.of_nat (List.length results) <= Z.max 1 limit)%Z /\
    List.length results <= List.length (words query) /\
    Forall (fun r => exists s, In s (words query) /\
                               field r "symbol" = Some (JStr s)) results.
Proof.
  intros Ht.
  destruct (search_loop_bounds (words query) limit [] (or_introl eq_refl))
    as (added & E & Hb & Hl & Hf).
  exists added. cbn [app] in *.
  unfold YahooFinance.search_stocks, YahooFinance.search_stocks_body.
  rewrite Ht. cbn [bind try_except]. rewrite E. now repeat split.
Qed.

End SearchFacts.

Lemma search_results_bounded_witness :
  exists results,
    YahooFinance.search_stocks unit yf_two_known "MSFT ZZZZ AAPL" 0
    = Ret (JObj [("status", JStr "success"); ("data", JList results)]) /\
    (Z.of_nat (List.length results) <= 1)%Z.
Proof.
  destruct (search_results_bounded unit yf_two_known "MSFT ZZZZ AAPL" 0 tt
              eq_refl) as (results & E & Hb & _).
  exists results. split; [exact E | exact Hb].
Defined.

Example search_limit_zero_returns_one :
  YahooFinance.search_stocks unit yf_two_known "ZZZZ MSFT AAPL" 0
  = Ret (JObj [("status", JStr "success");
               ("data", JList [JObj [("symbol", JStr "MSFT");
                                     ("name", JStr "Microsoft");
                                     ("exchange", JStr "");
                                     ("sector", JStr "");
                                     ("industry", JStr "")]])]).
Proof. reflexivity. Qed.

Section DictFacts.

(** Assigning a key that is not there yet puts it at the end. *)
Lemma dict_set_fresh (d : dict) (k : string) (v : json) :
  ~ In k (map fst d) -> dict_set d k v = (d ++ [(k, v)])%list.
Proof.
  induction d as [|[k' v'] d IH]; intros H; [reflexivity|].
  cbn [dict_set]. destruct (String.eqb k' k) eqn:E.
  - apply String.eqb_eq in E. subst. elim H. now left.
  - cbn [app]. f_equal. apply IH. intros Hin. apply H. now right.
Qed.

(** Assigning one key leaves what is stored under the others. *)
Lemma dict_set_other (d : dict) (k k' : string) (v : json) :
  k <> k' -> dict_lookup (dict_set d k' v) k = dict_lookup d k.
Proof.
  intros Hk. induction d as [|[k0 v0] d IH]; cbn [dict_set dict_lookup].
  - destruct (String.eqb k' k) eqn:E; [|reflexivity].
    apply String.eqb_eq in E. now elim Hk.
  - destruct (String.eqb k0 k') eqn:E; cbn [dict_lookup].
    + apply String.eqb_eq in E. subst k0.
      destruct (String.eqb k' k) eqn:E'; [|reflexivity].
      apply String.eqb_eq in E'. now elim Hk.
    + now rewrite IH.
Qed.

Lemma dict_set_keys (d : dict) (k' : string) (v : json) (k : string) :
  In k (map fst (dict_set d k' v)) -> In k (map fst d) \/ k = k'.
Proof.
  induction d as [|[k0 v0] d IH]; cbn [dict_set map fst].
  - intros [H|[]]. now right.
  - destruct (String.eqb k0 k'); cbn [map fst].
    + intros [H|H]; left; [now left | now right].
    + intros [H|H]; [left; now left|].
      destruct (IH H) as [H'|H']; [left; now right | now right].
Qed.

End DictFacts.

Section MarketFacts.

Variable frame : Type.
Variable yf : YahooFinance.provider frame.

Lemma market_step_entry (results results' : dict) (idx : string) :
  YahooFinance.market_step frame yf results idx = Ret results' ->
  exists entry,
    results' = dict_set results idx entry /\ summary_entry yf (idx, entry).
Proof.
  unfold YahooFinance.market_step. intros H.
  apply bind_ret_inv in H. destruct H as (? & _ & H).
  apply bind_ret_inv in H. destruct H as (hist & _ & H).
  apply bind_ret_inv in H. destruct H as (change & _ & H).
  apply bind_ret_inv in H. destruct H as (info & Hinfo & H).
  apply bind_ret_inv in H. destruct H as (quote & _ & H).
  injection H as <-. eexists. split; [reflexivity|].
  exists info, quote. now split.
Qed.

(** The loop of lines 53-71 over distinct indices none of which is in the
    results yet: one entry per index is added at the end, in order. *)
Lemma market_loop (l : list string) :
  forall results results',
    YahooFinance.for_each (YahooFinance.market_step frame yf) l results
    = Ret results' ->
    NoDup (map fst results ++ l) ->
    exists entries,
      results' = (results ++ entries)%list /\ map fst entries = l /\
      Forall (summary_entry yf) entries.
Proof.
  induction l as [|idx l IH]; intros results results' H Hnd.
  - injection H as <-. exists []. now rewrite app_nil_r.
  - cbn [YahooFinance.for_each] in H.
    apply bind_ret_inv in H. destruct H as (r1 & Hstep & H).
    apply market_step_entry in Hstep. destruct Hstep as (entry & -> & He).
    assert (Hfresh : ~ In idx (map fst results)).
    { intros Hin. apply NoDup_remove_2 in Hnd. apply Hnd.
      apply in_or_app. now left. }
    rewrite dict_set_fresh in H by exact Hfresh.
    apply IH in H.
    + destruct H as (entries & -> & Hk & Hf).
      exists ((idx, entry) :: entries). rewrite <- app_assoc.
      repeat split; [cbn; now rewrite Hk | now constructor].
    + rewrite map_app, <- app_assoc. exact Hnd.
Qed.

Lemma indices_distinct : NoDup YahooFinance.indices.
Proof.
  unfold YahooFinance.indices.
  repeat (constructor; [cbn; intuition discriminate|]). constructor.
Qed.

(** X12.  A market summary that is a success holds, under ['data'], one
    entry per index of the list of line 50, keyed by the index symbols in
    that order, and each entry starts with the name: the provider's
    short name, or the index symbol when the provider has none. *)
Theorem market_summary_entries (v : json) :
  YahooFinance.get_market_summary frame yf = Ret v -> is_success v ->
  exists results,
    field v "data" = Some (JObj results) /\
    map fst results = YahooFinance.indices /\
    Forall (summary_entry yf) results.
Proof.
  intros H Hs. apply try_except_success in H; [|exact Hs].
  unfold YahooFinance.get_market_summary_body in H.
  apply bind_ret_inv in H. destruct H as (results & Hloop & H).
  injection H as <-.
  apply market_loop in Hloop; [|exact indices_distinct].
  destruct Hloop as (entries & -> & Hk & Hf).
  exists entries. now repeat split.
Qed.

Lemma sector_step_result (current_date : string) (results results' : list json)
      (item : string * string) :
  YahooFinance.sector_step frame yf current_date results item = Ret results' ->
  (has_history yf item = true /\
   exists entry, results' = (results ++ [entry])%list /\
                 field entry "sector" = Some (JStr (fst item)))
  \/ (has_history yf item = false /\ results' = results).
Proof.
  destruct item as [name etf]. unfold YahooFinance.sector_step, has_history.
  cbn [fst snd]. intros H.
  apply bind_ret_inv in H. destruct H as (? & _ & H).
  apply bind_ret_inv in H. destruct H as (hist & Hh & H). rewrite Hh.
  destruct (Nat.ltb 0 _).
  - apply bind_ret_inv in H. destruct H as (changes & _ & H).
    injection H as <-. left. split; [reflexivity|].
    eexists. split; reflexivity.
  - injection H as <-. now right.
Qed.

Lemma sector_loop (current_date : string) (l : list (string * string)) :
  forall results results',
    YahooFinance.for_each (YahooFinance.sector_step frame yf current_date)
      l results = Ret results' ->
    exists entries,
      results' = (results ++ entries)%list /\
      map (fun r => field r "sector") entries
      = map (fun item => Some (JStr (fst item))) (filter (has_history yf) l).
Proof.
  induction l as [|item l IH]; intros results results' H.
  - injection H as <-. exists []. now rewrite app_nil_r.
  - cbn [YahooFinance.for_each] in H.
    apply bind_ret_inv in H. destruct H as (r1 & Hstep & H).
    apply IH in H. destruct H as (entries & -> & He).
    apply sector_step_result in Hstep. cbn [filter].
    destruct Hstep as [(Hh & entry & -> & Hs) | (Hh & ->)]; rewrite Hh.
    + exists (entry :: entries). rewrite <- app_assoc. split; [reflexivity|].
      cbn [map]. now rewrite Hs, He.
    + now exists entries.
Qed.

(** X13.  A sector performance that is a success carries the date of the
    run and, under ['data'], one entry for each sector of the table of
    lines 87-99 whose fund has a history that is not empty, in the order
    of the table; a sector whose history is empty is left out, not
    reported as an error. *)
Theorem sector_performance_entries (v : json) :
  YahooFinance.get_industry_performance frame yf = Ret v -> is_success v ->
  exists results,
    field v "data" = Some (JList results) /\
    field v "date" = Some (JStr (YahooFinance.today frame yf)) /\
    map (fun r => field r "sector") results
    = map (fun item => Some (JStr (fst item)))
          (filter (has_history yf) YahooFinance.sector_etfs).
Proof.
  intros H Hs. apply try_except_success in H; [|exact Hs].
  unfold YahooFinance.get_industry_performance_body in H.
  apply bind_ret_inv in H. destruct H as (results & Hloop & H).
  injection H as <-.
  apply sector_loop in Hloop. destruct Hloop as (entries & -> & He).
  exists entries. now repeat split.
Qed.

End MarketFacts.

Lemma market_summary_entries_witness :
  exists results,
    field (JObj [("status", JStr "success");
                 ("data", JObj (map (fun idx =>
                    (idx, JObj [("name", JStr idx); ("price", JNum "10.0")]))
                    YahooFinance.indices))]) "data"
    = Some (JObj results) /\
    map fst results = YahooFinance.indices /\
    Forall (summary_entry yf_up) results.
Proof.
  exact (market_summary_entries unit yf_up _ eq_refl eq_refl).
Defined.

Lemma sector_performance_entries_witness :
  YahooFinance.get_industry_performance bool yf_two_funds
  = Ret two_funds_result /\
  is_success two_funds_result /\
  exists results,
    field two_funds_result "data" = Some (JList results) /\
    field two_funds_result "date" = Some (JStr "2024-01-01") /\
    map (fun r => field r "sector") results
    = [Some (JStr "Technology"); Some (JStr "Energy")].
Proof.
  split; [reflexivity | split; [reflexivity|]].
  exact (sector_performance_entries bool yf_two_funds two_funds_result
           eq_refl eq_refl).
Defined.

Section StockInfo.

Variable frame : Type.
Variable yf : YahooFinance.provider frame.

(** The comprehension of lines 24-29 when read by key. *)
Lemma kept_fields_lookup (info : dict) (ks : list string) (k : string) :
  dict_lookup
    (flat_map (fun k => match dict_lookup info k with
                        | Some v => [(k, v)]
                        | None => []
                        end) ks) k
  = if existsb (String.eqb k) ks then dict_lookup info k else None.
Proof.
  induction ks as [|k0 ks IH]; [reflexivity|]. cbn [flat_map existsb].
  destruct (String.eqb k k0) eqn:E.
  - apply String.eqb_eq in E. subst k0. cbn [orb].
    destruct (dict_lookup info k) as [v|] eqn:El; cbn [app dict_lookup].
    + now rewrite String.eqb_refl.
    + rewrite IH. now destruct (existsb _ ks).
  - cbn [orb]. destruct (dict_lookup info k0) as [v|]; cbn [app dict_lookup].
    + rewrite String.eqb_sym, E. exact IH.
    + exact IH.
Qed.

Lemma kept_fields_keys (info : dict) (ks : list string) (k : string) :
  In k (map fst
          (flat_map (fun k => match dict_lookup info k with
                              | Some v => [(k, v)]
                              | None => []
                              end) ks)) ->
  In k ks.
Proof.
  induction ks as [|k0 ks IH]; [now intros []|]. cbn [flat_map].
  rewrite map_app, in_app_iff. intros [H|H].
  - destruct (dict_lookup info k0); [|now elim H].
    destruct H as [<-|[]]. now left.
  - right. now apply IH.
Qed.

Lemma existsb_eqb_In (k : string) (ks : list string) :
  In k ks -> existsb (String.eqb k) ks = true.
Proof.
  intros H. apply existsb_exists. exists k. split; [exact H|].
  apply String.eqb_refl.
Qed.

(** X14.  In a stock answer that is a success, the ['info'] object holds
    the provider's value for every key of the list of lines 24-29 that
    the provider's info has, and no other key except
    ['lastDividendDate']; that one is there only when the provider's
    info has it with a value other than [None]. *)
Theorem stock_info_filtered (symbol period : string) (v : json) :
  YahooFinance.get_stock_data frame yf symbol period = Ret v ->
  is_success v ->
  exists info filtered,
    YahooFinance.info frame yf symbol = Ret info /\
    field v "info" = Some (JObj filtered) /\
    (forall k, In k YahooFinance.info_fields ->
               dict_lookup filtered k = dict_lookup info k) /\
    (forall k, In k (map fst filtered) ->
               In k YahooFinance.info_fields \/ k = "lastDividendDate") /\
    (In "lastDividendDate" (map fst filtered) ->
     exists t, dict_lookup info "lastDividendDate" = Some t /\ t <> JNull).
Proof.
  intros H Hs. apply try_except_success in H; [|exact Hs].
  unfold YahooFinance.get_stock_data_body in H.
  apply bind_ret_inv in H. destruct H as (? & _ & H).
  apply bind_ret_inv in H. destruct H as (hist & _ & H).
  apply bind_ret_inv in H. destruct H as (records & _ & H).
  apply bind_ret_inv in H. destruct H as (info & Hinfo & H).
  apply bind_ret_inv in H. destruct H as (filtered & Hf & H).
  injection H as <-. exists info, filtered.
  split; [exact Hinfo | split; [reflexivity|]].
  assert (Hnot : ~ In "lastDividendDate" YahooFinance.info_fields)
    by (cbn; intuition discriminate).
  assert (Hbase :
            (forall k, In k YahooFinance.info_fields ->
                       dict_lookup (YahooFinance.filter_info info) k
                       = dict_lookup info k) /\
            (forall k, In k (map fst (YahooFinance.filter_info info)) ->
                       In k YahooFinance.info_fields)).
  { split.
    - intros k Hk. unfold YahooFinance.filter_info.
      now rewrite kept_fields_lookup, existsb_eqb_In.
    - intros k. apply kept_fields_keys. }
  destruct Hbase as [Hlook Hkeys].
  destruct (dict_lookup info "lastDividendDate") as [t|] eqn:El.
  - destruct t;
      try (apply bind_ret_inv in Hf; destruct Hf as (d & _ & Hf);
           injection Hf as <-; repeat split;
           [ intros k Hk; rewrite dict_set_other;
             [now apply Hlook | intros ->; now apply Hnot]
           | intros k Hk; apply dict_set_keys in Hk;
             destruct Hk as [Hk|Hk]; [left; now apply Hkeys | now right]
           | intros _; eexists; split; [reflexivity | discriminate] ]).
    injection Hf as <-. repeat split; [exact Hlook | |].
    + intros k Hk. left. now apply Hkeys.
    + intros Hin. now apply Hkeys in Hin.
  - injection Hf as <-. repeat split; [exact Hlook | |].
    + intros k Hk. left. now apply Hkeys.
    + intros Hin. now apply Hkeys in Hin.
Qed.

End StockInfo.

Lemma stock_info_filtered_witness :
  exists info filtered,
    YahooFinance.info unit yf_two_known "AAPL" = Ret info /\
    field (JObj [("status", JStr "success");
                 ("info", JObj [("shortName", JStr "Apple")]);
                 ("history", JList [])]) "info" = Some (JObj filtered) /\
    (forall k, In k YahooFinance.info_fields ->
               dict_lookup filtered k = dict_lookup info k) /\
    (forall k, In k (map fst filtered) ->
               In k YahooFinance.info_fields \/ k = "lastDividendDate") /\
    (In "lastDividendDate" (map fst filtered) ->
     exists t, dict_lookup info "lastDividendDate" = Some t /\ t <> JNull).
Proof.
  exact (stock_info_filtered unit yf_two_known "AAPL" "1mo" _ eq_refl eq_refl).
Defined.

(** ** The trends adapter *)

Section TrendsFacts.

Variable frame : Type.
Variable pt : GoogleTrends.provider frame.

Lemma catchableM_ret {A : Type} (a : A) : catchableM (GoogleTrends.ret a).
Proof. intros c e c' H. discriminate. Qed.

Lemma catchableM_lift {A : Type} (r : res A) :
  catchable r -> catchableM (GoogleTrends.lift r).
Proof.
  intros Hr c e c' H. unfold GoogleTrends.lift in H.
  injection H as H _. now apply Hr.
Qed.

Lemma catchableM_bind {A B : Type} (m : GoogleTrends.M A)
      (k : A -> GoogleTrends.M B) :
  catchableM m -> (forall a, catchableM (k a)) ->
  catchableM (GoogleTrends.bindM m k).
Proof.
  intros Hm Hk c e c' H. unfold GoogleTrends.bindM in H.
  destruct (m c) as [[a|e0] c0] eqn:E.
  - now apply (Hk a c0 e c').
  - injection H as <- _. now apply (Hm c e0 c0).
Qed.

Lemma catchableM_request {A : Type} (r : GoogleTrends.call)
      (answer : option GoogleTrends.payload -> res A) :
  (forall p, catchable (answer p)) ->
  catchableM (GoogleTrends.request_with r answer).
Proof.
  intros Ha c e c' H. unfold GoogleTrends.request_with in H.
  injection H as H _. now apply (Ha (GoogleTrends.current c)).
Qed.

Lemma catchableM_for_each {A S : Type} (step : S -> A -> GoogleTrends.M S)
      (l : list A) :
  (forall s x, catchableM (step s x)) ->
  forall s, catchableM (GoogleTrends.for_each step l s).
Proof.
  intros Hstep. induction l as [|x l IH]; intros s; cbn [GoogleTrends.for_each].
  - apply catchableM_ret.
  - apply catchableM_bind; [apply Hstep | intros s'; apply IH].
Qed.

Lemma bindM_ret_inv {A B : Type} (m : GoogleTrends.M A)
      (k : A -> GoogleTrends.M B) (c c' : GoogleTrends.client) (b : B) :
  GoogleTrends.bindM m k c = (Ret b, c') ->
  exists a c1, m c = (Ret a, c1) /\ k a c1 = (Ret b, c').
Proof.
  unfold GoogleTrends.bindM. destruct (m c) as [[a|e] c1]; [|discriminate].
  intros H. now exists a, c1.
Qed.

(** [catching] around a body that raises nothing but [Exception]s and
    returns only objects with a status. *)
Lemma catching_status (body : GoogleTrends.M json) (c : GoogleTrends.client) :
  catchableM body ->
  (forall v c', body c = (Ret v, c') -> has_status v) ->
  exists v, fst (GoogleTrends.catching body c) = Ret v /\ has_status v.
Proof.
  intros Hc Hs. unfold GoogleTrends.catching.
  destruct (body c) as [[v|e] c'] eqn:E.
  - exists v. split; [reflexivity | now apply (Hs v c')].
  - rewrite (Hc c e c' E). eexists. split; [reflexivity | now right].
Qed.

Lemma catching_success (body : GoogleTrends.M json)
      (c c' : GoogleTrends.client) (v : json) :
  GoogleTrends.catching body c = (Ret v, c') -> is_success v ->
  body c = (Ret v, c').
Proof.
  unfold GoogleTrends.catching. destruct (body c) as [[v0|e] c0].
  - now intros [= -> ->].
  - destruct (derives_Exception e); [|discriminate].
    intros [= <- <-] H. discriminate H.
Qed.

Lemma no_data_status : has_status GoogleTrends.no_data.
Proof. now right. Qed.

Hypothesis Hpt : trends_catchable pt.

Lemma build_payload_catchable (kws : list string) (tf g : string) :
  catchableM (GoogleTrends.build_payload frame pt kws tf g).
Proof.
  intros c e c' H. unfold GoogleTrends.build_payload in H.
  injection H as H _. now apply (catch_build pt Hpt) in H.
Qed.

Lemma add_part_catchable (qd : list (string * option frame))
      (part : string) (result : dict) :
  catchable (GoogleTrends.add_part frame pt qd part result).
Proof.
  unfold GoogleTrends.add_part.
  destruct (GoogleTrends.lookup qd part) as [[df|]|].
  - destruct (negb _); [|apply catchable_ret].
    apply catchable_bind; [apply Hpt | intros; apply catchable_ret].
  - intros e H. now injection H as <-.
  - apply catchable_ret.
Qed.

Lemma related_result_catchable
      (answer : list (string * list (string * option frame))) (k : string) :
  catchable (GoogleTrends.related_result frame pt answer k).
Proof.
  unfold GoogleTrends.related_result.
  destruct (GoogleTrends.lookup answer k) as [qd|]; [|apply catchable_ret].
  apply catchable_bind; [apply add_part_catchable | intros r1].
  apply catchable_bind; [apply add_part_catchable | intros; apply catchable_ret].
Qed.

Lemma interest_body_catchable (kws : list string) (period : string) :
  catchableM (GoogleTrends.get_interest_over_time_body frame pt kws period).
Proof.
  unfold GoogleTrends.get_interest_over_time_body.
  apply catchableM_bind; [apply build_payload_catchable | intros _].
  apply catchableM_bind; [apply catchableM_request, Hpt | intros df].
  destruct (negb _); [|apply catchableM_ret].
  apply catchableM_bind;
    [apply catchableM_lift, Hpt | intros; apply catchableM_ret].
Qed.

Lemma queries_body_catchable (k period : string) :
  catchableM (GoogleTrends.get_related_queries_body frame pt k period).
Proof.
  unfold GoogleTrends.get_related_queries_body.
  apply catchableM_bind; [apply build_payload_catchable | intros _].
  apply catchableM_bind; [apply catchableM_request, Hpt | intros answer].
  apply catchableM_lift, related_result_catchable.
Qed.

Lemma topics_body_catchable (k period : string) :
  catchableM (GoogleTrends.get_related_topics_body frame pt k period).
Proof.
  unfold GoogleTrends.get_related_topics_body.
  apply catchableM_bind; [apply build_payload_catchable | intros _].
  apply catchableM_bind; [apply catchableM_request, Hpt | intros answer].
  apply catchableM_lift, related_result_catchable.
Qed.

Lemma trending_body_catchable (g : string) :
  catchableM (GoogleTrends.get_trending_searches_body frame pt g).
Proof.
  unfold GoogleTrends.get_trending_searches_body.
  apply catchableM_bind; [apply catchableM_request; intros _; apply Hpt | intros df].
  destruct (negb _); [|apply catchableM_ret].
  apply catchableM_bind;
    [apply catchableM_lift, Hpt | intros; apply catchableM_ret].
Qed.

Lemma industry_body_catchable (kws : list string) (period region : string) :
  catchableM (GoogleTrends.get_industry_interest_body frame pt kws period region).
Proof.
  unfold GoogleTrends.get_industry_interest_body.
  apply catchableM_bind.
  - apply catchableM_for_each. intros acc ch. unfold GoogleTrends.chunk_step.
    apply catchableM_bind; [apply build_payload_catchable | intros _].
    apply catchableM_bind; [apply catchableM_request, Hpt | intros df].
    destruct (negb _); [|apply catchableM_ret].
    apply catchableM_bind;
      [apply catchableM_lift, Hpt | intros; apply catchableM_ret].
  - intros [|r all]; apply catchableM_ret.
Qed.

End TrendsFacts.

Section TrendsStatus.

Variable frame : Type.
Variable pt : GoogleTrends.provider frame.

Ltac invert_bindsM H :=
  repeat (apply bindM_ret_inv in H; destruct H as (? & ? & ? & H)).

Ltac finish_status H :=
  unfold GoogleTrends.ret in H; injection H as <- _;
  first [apply no_data_status | now left].

Lemma related_result_status
      (answer : list (string * list (string * option frame))) (k : string)
      (v : json) :
  GoogleTrends.related_result frame pt answer k = Ret v -> has_status v.
Proof.
  unfold GoogleTrends.related_result.
  destruct (GoogleTrends.lookup answer k) as [qd|].
  - intros H. apply bind_ret_inv in H. destruct H as (r1 & _ & H).
    apply bind_ret_inv in H. destruct H as (r2 & _ & H).
    injection H as <-. now left.
  - intros [= <-]. apply no_data_status.
Qed.

Lemma interest_body_status (kws : list string) (period : string)
      (c c' : GoogleTrends.client) (v : json) :
  GoogleTrends.get_interest_over_time_body frame pt kws period c = (Ret v, c') ->
  has_status v.
Proof.
  unfold GoogleTrends.get_interest_over_time_body. intros H.
  apply bindM_ret_inv in H. destruct H as (? & ? & _ & H).
  apply bindM_ret_inv in H. destruct H as (df & ? & _ & H).
  destruct (negb _).
  - apply bindM_ret_inv in H. destruct H as (? & ? & _ & H). finish_status H.
  - finish_status H.
Qed.

Lemma queries_body_status (k period : string)
      (c c' : GoogleTrends.client) (v : json) :
  GoogleTrends.get_related_queries_body frame pt k period c = (Ret v, c') ->
  has_status v.
Proof.
  unfold GoogleTrends.get_related_queries_body. intros H.
  apply bindM_ret_inv in H. destruct H as (? & ? & _ & H).
  apply bindM_ret_inv in H. destruct H as (answer & ? & _ & H).
  unfold GoogleTrends.lift in H. injection H as H _.
  now apply related_result_status in H.
Qed.

Lemma topics_body_status (k period : string)
      (c c' : GoogleTrends.client) (v : json) :
  GoogleTrends.get_related_topics_body frame pt k period c = (Ret v, c') ->
  has_status v.
Proof.
  unfold GoogleTrends.get_related_topics_body. intros H.
  apply bindM_ret_inv in H. destruct H as (? & ? & _ & H).
  apply bindM_ret_inv in H. destruct H as (answer & ? & _ & H).
  unfold GoogleTrends.lift in H. injection H as H _.
  now apply related_result_status in H.
Qed.

Lemma trending_body_status (g : string)
      (c c' : GoogleTrends.client) (v : json) :
  GoogleTrends.get_trending_searches_body frame pt g c = (Ret v, c') ->
  has_status v.
Proof.
  unfold GoogleTrends.get_trending_searches_body. intros H.
  apply bindM_ret_inv in H. destruct H as (df & ? & _ & H).
  destruct (negb _).
  - apply bindM_ret_inv in H. destruct H as (? & ? & _ & H). finish_status H.
  - finish_status H.
Qed.

Lemma industry_body_status (kws : list string) (period region : string)
      (c c' : GoogleTrends.client) (v : json) :
  GoogleTrends.get_industry_interest_body frame pt kws period region c
  = (Ret v, c') ->
  has_status v.
Proof.
  unfold GoogleTrends.get_industry_interest_body. intros H.
  apply bindM_ret_inv in H. destruct H as (all & ? & _ & H).
  destruct all; finish_status H.
Qed.

(** X15.  Once the module-level client has been created, with a provider
    whose calls raise nothing but exceptions deriving from [Exception],
    every run of the trends script prints exactly one JSON object, which
    has the status success or error, and exits with status 0. *)
Theorem trends_prints_one_object (argv : list string) (u : unit) :
  trends_catchable pt ->
  GoogleTrends.TrendReq frame pt = Ret u ->
  exists v,
    GoogleTrends.script frame pt argv = print_and_return v /\ has_status v.
Proof.
  intros Hpt Hinit. unfold GoogleTrends.script. rewrite Hinit.
  unfold GoogleTrends.main.
  set (c := {| GoogleTrends.current := None; GoogleTrends.calls := [] |}).
  assert (Herr : forall m, exists v,
             print_and_return (error_result m) = print_and_return v /\
             has_status v).
  { intros m. eexists. split; [reflexivity | now right]. }
  assert (Hrun : forall body,
             catchableM body ->
             (forall v c', body c = (Ret v, c') -> has_status v) ->
             exists v,
               GoogleTrends.run (GoogleTrends.catching body) c
               = print_and_return v /\ has_status v).
  { intros body Hc Hs. unfold GoogleTrends.run.
    destruct (catching_status body c Hc Hs) as (v & -> & Hv). now exists v. }
  destruct (has_arg argv 1); cbn [negb]; [|apply Herr].
  destruct (String.eqb (arg argv 1) "interest").
  { destruct (has_arg argv 2); cbn [negb]; [|apply Herr].
    apply Hrun; [now apply interest_body_catchable|].
    intros v c'. apply interest_body_status. }
  destruct (String.eqb (arg argv 1) "related_queries").
  { destruct (has_arg argv 2); cbn [negb]; [|apply Herr].
    apply Hrun; [now apply queries_body_catchable|].
    intros v c'. apply queries_body_status. }
  destruct (String.eqb (arg argv 1) "related_topics").
  { destruct (has_arg argv 2); cbn [negb]; [|apply Herr].
    apply Hrun; [now apply topics_body_catchable|].
    intros v c'. apply topics_body_status. }
  destruct (String.eqb (arg argv 1) "trending").
  { apply Hrun; [now apply trending_body_catchable|].
    intros v c'. apply trending_body_status. }
  destruct (String.eqb (arg argv 1) "industry"); [|apply Herr].
  destruct (has_arg argv 2); cbn [negb]; [|apply Herr].
  apply Hrun; [now apply industry_body_catchable|].
  intros v c'. apply industry_body_status.
Qed.

End TrendsStatus.

Lemma pt_echo_catchable : trends_catchable pt_echo.
Proof.
  constructor; intros; intros e H; try discriminate H.
  destruct p; [discriminate H | now injection H as <-].
Qed.

Lemma trends_prints_one_object_witness :
  exists v,
    GoogleTrends.script (list string) pt_echo
      ["google_trends.py"; "industry"; "a,b,c,d,e,f"]
    = print_and_return v /\ has_status v.
Proof.
  exact (trends_prints_one_object (list string) pt_echo
           ["google_trends.py"; "industry"; "a,b,c,d,e,f"] tt
           pt_echo_catchable eq_refl).
Defined.

Section ChunkSizes.

Lemma removelast_cons {A : Type} (x : A) (l : list A) :
  l <> [] -> removelast (x :: l) = x :: removelast l.
Proof. destruct l; [now intros H; elim H | reflexivity]. Qed.

Lemma chunks_not_nil (l : list string) : l <> [] -> GoogleTrends.chunks l <> [].
Proof. intros H. now rewrite chunks_unfold. Qed.

Lemma chunks_nil_inv (l : list string) : GoogleTrends.chunks l = [] -> l = [].
Proof.
  intros H. destruct l as [|k l]; [reflexivity|].
  now apply chunks_not_nil in H.
Qed.

Lemma full_chunks (l : list string) :
  Forall (fun ch => List.length ch = 5) (removelast (GoogleTrends.chunks l)).
Proof.
  remember (List.length l) as n eqn:Hn.
  revert l Hn. induction n as [n IH] using lt_wf_ind. intros l Hn.
  destruct l as [|k l]; [constructor|].
  rewrite chunks_unfold by discriminate.
  destruct (GoogleTrends.chunks (skipn 5 (k :: l))) as [|c cs] eqn:E.
  - constructor.
  - rewrite removelast_cons by discriminate. constructor.
    + assert (Hs : skipn 5 (k :: l) <> [])
        by (intros H; rewrite H in E; discriminate E).
      assert (Hl : 5 < List.length (k :: l)).
      { destruct (Nat.lt_ge_cases 5 (List.length (k :: l))) as [|Hle];
          [assumption|].
        elim Hs. apply length_zero_iff_nil. rewrite length_skipn. lia. }
      rewrite length_firstn. lia.
    + rewrite <- E.
      apply (IH (List.length (skipn 5 (k :: l)))); [|reflexivity].
      rewrite length_skipn. subst n. simpl. lia.
Qed.

End ChunkSizes.

(** X16.  The keywords are cut into as many chunks as a fifth of their
    number, rounded up, and every chunk but the last holds exactly five
    keywords. *)
Theorem chunks_count_and_sizes (industry_keywords : list string) :
  List.length (GoogleTrends.chunks industry_keywords)
  = (List.length industry_keywords + 4) / 5 /\
  Forall (fun ch => List.length ch = 5)
         (removelast (GoogleTrends.chunks industry_keywords)).
Proof.
  split; [|apply full_chunks].
  unfold GoogleTrends.chunks, GoogleTrends.range0.
  rewrite !length_map, length_seq. f_equal. lia.
Qed.

Section IndustryOutcomes.

Variable frame : Type.
Variable pt : GoogleTrends.provider frame.
Variables period region : string.

(** One turn of the loop in terms of what the provider makes of the chunk. *)
Lemma chunk_step_outcome (acc : list GoogleTrends.trend_record)
      (ch : list string) (c : GoogleTrends.client) :
  exists c',
    GoogleTrends.chunk_step frame pt period region acc ch c
    = (bind (chunk_outcome pt period region ch)
            (fun rs => Ret (acc ++ rs)%list), c') /\
    exists tail,
      GoogleTrends.calls c' = (GoogleTrends.calls c ++ tail)%list /\
      (tail = [GoogleTrends.BuildPayload (chunk_payload period region ch)] \/
       tail = chunk_calls period region ch) /\
      (forall rs, chunk_outcome pt period region ch = Ret rs ->
                  tail = chunk_calls period region ch).
Proof.
  unfold GoogleTrends.chunk_step, GoogleTrends.bindM, chunk_outcome,
    GoogleTrends.build_payload, GoogleTrends.request_with,
    GoogleTrends.lift, GoogleTrends.ret, chunk_calls, chunk_payload.
  cbn [GoogleTrends.current GoogleTrends.calls].
  destruct (GoogleTrends.build frame pt _) as [u|e]; cbn [bind].
  - destruct (GoogleTrends.interest_over_time frame pt _) as [df|e]; cbn [bind].
    + destruct (negb (GoogleTrends.empty frame pt df)).
      * destruct (GoogleTrends.melted_records frame pt df ch) as [rs|e];
          cbn [bind]; eexists; (split; [reflexivity|]);
          cbn [GoogleTrends.calls]; rewrite <- app_assoc;
          eexists; (split; [reflexivity|]); split; auto.
      * cbn [bind]. rewrite app_nil_r. eexists. split; [reflexivity|].
        cbn [GoogleTrends.calls]. rewrite <- app_assoc.
        eexists. split; [reflexivity|]. split; auto.
    + eexists. split; [reflexivity|]. cbn [GoogleTrends.calls].
      rewrite <- app_assoc. eexists. split; [reflexivity|].
      split; [now right | discriminate].
  - eexists. split; [reflexivity|]. cbn [GoogleTrends.calls].
    eexists. split; [reflexivity|]. split; [now left | discriminate].
Qed.

(** The loop over chunks that are all answered. *)
Lemma chunk_loop_answered (cs : list (list string))
      (rss : list (list GoogleTrends.trend_record)) :
  Forall2 (fun ch rs => chunk_outcome pt period region ch = Ret rs) cs rss ->
  forall acc c,
  exists c',
    GoogleTrends.for_each (GoogleTrends.chunk_step frame pt period region)
      cs acc c = (Ret (acc ++ concat rss)%list, c') /\
    GoogleTrends.calls c'
    = (GoogleTrends.calls c ++ flat_map (chunk_calls period region) cs)%list.
Proof.
  induction 1 as [|ch rs cs rss Hch _ IH]; intros acc c.
  - exists c. cbn. now rewrite !app_nil_r.
  - cbn [GoogleTrends.for_each]. unfold GoogleTrends.bindM at 1.
    destruct (chunk_step_outcome acc ch c) as (c1 & -> & tail & Hc1 & _ & Ht).
    rewrite Hch. cbn [bind].
    destruct (IH (acc ++ rs)%list c1) as (c' & -> & Hc').
    exists c'. cbn [concat flat_map].
    rewrite Hc', Hc1, (Ht rs Hch), <- !app_assoc. now split.
Qed.

(** X17.  When the provider fails on a chunk with an exception deriving
    from [Exception], after answering the chunks before it,
    [get_industry_interest] returns the error result with that
    exception's text: the records of the earlier chunks are dropped, and
    nothing is asked for the chunks after it. *)
Theorem industry_failure_aborts (industry_keywords : list string)
        (before : list (list string)) (ch : list string)
        (after : list (list string))
        (rss : list (list GoogleTrends.trend_record)) (e : exn)
        (c : GoogleTrends.client) :
  GoogleTrends.chunks industry_keywords = (before ++ ch :: after)%list ->
  Forall2 (fun b rs => chunk_outcome pt period region b = Ret rs) before rss ->
  chunk_outcome pt period region ch = Raise e ->
  derives_Exception e = true ->
  exists c' tail,
    GoogleTrends.get_industry_interest frame pt industry_keywords
      period region c = (Ret (error_result (exn_str e)), c') /\
    GoogleTrends.calls c'
    = (GoogleTrends.calls c ++ flat_map (chunk_calls period region) before
                            ++ tail)%list /\
    (tail = [GoogleTrends.BuildPayload (chunk_payload period region ch)] \/
     tail = chunk_calls period region ch).
Proof.
  intros Hcs Hbefore Hch He.
  unfold GoogleTrends.get_industry_interest, GoogleTrends.catching,
    GoogleTrends.get_industry_interest_body.
  unfold GoogleTrends.bindM at 1. rewrite Hcs.
  assert (Hloop : forall l1 l2 acc c0,
             GoogleTrends.for_each (GoogleTrends.chunk_step frame pt period region)
               (l1 ++ l2) acc c0
             = GoogleTrends.bindM
                 (GoogleTrends.for_each
                    (GoogleTrends.chunk_step frame pt period region) l1 acc)
                 (fun s => GoogleTrends.for_each
                    (GoogleTrends.chunk_step frame pt period region) l2 s) c0).
  { induction l1 as [|x l1 IH]; intros l2 acc c0; [reflexivity|].
    cbn [app GoogleTrends.for_each]. unfold GoogleTrends.bindM.
    destruct (GoogleTrends.chunk_step frame pt period region acc x c0)
      as [[s|e0] c1]; [|reflexivity].
    rewrite IH. reflexivity. }
  rewrite Hloop. unfold GoogleTrends.bindM at 1.
  destruct (chunk_loop_answered before rss Hbefore [] c) as (c1 & -> & Hc1).
  cbn [GoogleTrends.for_each]. unfold GoogleTrends.bindM at 1.
  destruct (chunk_step_outcome ([] ++ concat rss)%list ch c1)
    as (c2 & -> & tail & Hc2 & Htail & _).
  rewrite Hch. cbn [bind]. rewrite He.
  exists c2, tail. split; [reflexivity|]. split; [|exact Htail].
  now rewrite Hc2, Hc1, <- app_assoc.
Qed.

(** X18.  When the provider answers every chunk, [get_industry_interest]
    returns the success object over the chunks' records if there is at
    least one record, and otherwise the error "No data returned for the
    query", although no request failed. *)
Theorem industry_answered (industry_keywords : list string)
        (rss : list (list GoogleTrends.trend_record))
        (c : GoogleTrends.client) :
  Forall2 (fun ch rs => chunk_outcome pt period region ch = Ret rs)
          (GoogleTrends.chunks industry_keywords) rss ->
  fst (GoogleTrends.get_industry_interest frame pt industry_keywords
         period region c)
  = Ret (match concat rss with
         | [] => GoogleTrends.no_data
         | _ :: _ => industry_success period region (concat rss)
         end).
Proof.
  intros Hall.
  unfold GoogleTrends.get_industry_interest, GoogleTrends.catching,
    GoogleTrends.get_industry_interest_body.
  unfold GoogleTrends.bindM at 1.
  destruct (chunk_loop_answered _ rss Hall [] c) as (c1 & -> & _).
  cbn [app]. now destruct (concat rss).
Qed.

End IndustryOutcomes.

Lemma industry_failure_aborts_witness :
  exists c' tail,
    GoogleTrends.get_industry_interest (list string) pt_knows_a seven_keywords
      "today 12-m" "US" fresh_client
    = (Ret (error_result "Max retries exceeded"), c') /\
    GoogleTrends.calls c'
    = (chunk_calls "today 12-m" "US" ["a"; "b"; "c"; "d"; "e"] ++ tail)%list /\
    (tail = [GoogleTrends.BuildPayload
               (chunk_payload "today 12-m" "US" ["f"; "g"])] \/
     tail = chunk_calls "today 12-m" "US" ["f"; "g"]).
Proof.
  refine (industry_failure_aborts (list string) pt_knows_a "today 12-m" "US"
            seven_keywords [["a"; "b"; "c"; "d"; "e"]] ["f"; "g"] []
            [_] connection_error fresh_client eq_refl _ eq_refl eq_refl).
  constructor; [reflexivity | constructor].
Defined.

Lemma industry_answered_witness :
  fst (GoogleTrends.get_industry_interest (list string) pt_silent seven_keywords
         "today 12-m" "US" fresh_client)
  = Ret GoogleTrends.no_data.
Proof.
  refine (industry_answered (list string) pt_silent "today 12-m" "US"
            seven_keywords [[]; []] fresh_client _).
  repeat constructor.
Defined.

Section Related.

Variable frame : Type.
Variable pt : GoogleTrends.provider frame.

Lemma related_queries_run (keyword period : string) (c : GoogleTrends.client)
      (u : unit) (answer : list (string * list (string * option frame))) :
  let p := {| GoogleTrends.kw_list := [keyword];
              GoogleTrends.timeframe := period; GoogleTrends.geo := "" |} in
  GoogleTrends.build frame pt p = Ret u ->
  GoogleTrends.related_queries frame pt (Some p) = Ret answer ->
  fst (GoogleTrends.get_related_queries_body frame pt keyword period c)
  = GoogleTrends.related_result frame pt answer keyword.
Proof.
  intros p Hb Hq.
  unfold GoogleTrends.get_related_queries_body, GoogleTrends.bindM,
    GoogleTrends.build_payload, GoogleTrends.request_with, GoogleTrends.lift.
  fold p. rewrite Hb. cbn [GoogleTrends.current]. now rewrite Hq.
Qed.

Lemma catching_fst (body : GoogleTrends.M json) (c : GoogleTrends.client) :
  fst (GoogleTrends.catching body c)
  = try_except (fst (body c)) YahooFinance.report_error.
Proof.
  unfold GoogleTrends.catching, try_except, YahooFinance.report_error.
  destruct (body c) as [[v|e] c']; cbn [fst]; [reflexivity|].
  now destruct (derives_Exception e).
Qed.

(** X19.  When the provider's answer has the keyword but holds [None] as
    its top part, [get_related_queries] returns an error result whose
    message is the text of the [AttributeError] that [None.empty] raises,
    not a success without that part. *)
Theorem related_queries_none_part (keyword period : string)
        (c : GoogleTrends.client) (u : unit)
        (answer : list (string * list (string * option frame)))
        (query_data : list (string * option frame)) :
  let p := {| GoogleTrends.kw_list := [keyword];
              GoogleTrends.timeframe := period; GoogleTrends.geo := "" |} in
  GoogleTrends.build frame pt p = Ret u ->
  GoogleTrends.related_queries frame pt (Some p) = Ret answer ->
  GoogleTrends.lookup answer keyword = Some query_data ->
  GoogleTrends.lookup query_data "top" = Some None ->
  fst (GoogleTrends.get_related_queries frame pt keyword period c)
  = Ret (error_result "'NoneType' object has no attribute 'empty'").
Proof.
  intros p Hb Hq Hk Htop. unfold GoogleTrends.get_related_queries.
  rewrite catching_fst, (related_queries_run keyword period c u answer Hb Hq).
  unfold GoogleTrends.related_result, GoogleTrends.add_part.
  now rewrite Hk, Htop.
Qed.

(** X20.  When the provider's answer lacks the keyword,
    [get_related_queries] returns the error "No data returned for the
    query"; when it has the keyword with neither a top nor a rising part,
    the result is a success whose data is the empty object. *)
Theorem related_queries_without_data (keyword period : string)
        (c : GoogleTrends.client) (u : unit)
        (answer : list (string * list (string * option frame))) :
  let p := {| GoogleTrends.kw_list := [keyword];
              GoogleTrends.timeframe := period; GoogleTrends.geo := "" |} in
  GoogleTrends.build frame pt p = Ret u ->
  GoogleTrends.related_queries frame pt (Some p) = Ret answer ->
  (GoogleTrends.lookup answer keyword = None ->
   fst (GoogleTrends.get_related_queries frame pt keyword period c)
   = Ret GoogleTrends.no_data) /\
  (forall query_data,
     GoogleTrends.lookup answer keyword = Some query_data ->
     GoogleTrends.lookup query_data "top" = None ->
     GoogleTrends.lookup query_data "rising" = None ->
     fst (GoogleTrends.get_related_queries frame pt keyword period c)
     = Ret (JObj [("status", JStr "success"); ("data", JObj [])])).
Proof.
  intros p Hb Hq. unfold GoogleTrends.get_related_queries.
  rewrite catching_fst, (related_queries_run keyword period c u answer Hb Hq).
  unfold GoogleTrends.related_result, GoogleTrends.add_part. split.
  - now intros ->.
  - intros qd -> Ht Hr. now rewrite Ht, Hr.
Qed.

End Related.

Lemma related_queries_none_part_witness :
  fst (GoogleTrends.get_related_queries (list string) pt_knows_a
         "rust" "today 12-m" fresh_client)
  = Ret (error_result "'NoneType' object has no attribute 'empty'").
Proof.
  exact (related_queries_none_part (list string) pt_knows_a "rust" "today 12-m"
           fresh_client tt _ _ eq_refl eq_refl eq_refl eq_refl).
Defined.

Lemma related_queries_without_data_witness :
  fst (GoogleTrends.get_related_queries (list string) pt_knows_a
         "zig" "today 12-m" fresh_client) = Ret GoogleTrends.no_data /\
  fst (GoogleTrends.get_related_queries (list string) pt_knows_a
         "go" "today 12-m" fresh_client)
  = Ret (JObj [("status", JStr "success"); ("data", JObj [])]).
Proof.
  split.
  - exact (proj1 (related_queries_without_data (list string) pt_knows_a
                    "zig" "today 12-m" fresh_client tt _ eq_refl eq_refl)
                 eq_refl).
  - exact (proj2 (related_queries_without_data (list string) pt_knows_a
                    "go" "today 12-m" fresh_client tt _ eq_refl eq_refl)
                 [] eq_refl eq_refl eq_refl).
Defined.

(** ** The converter script: what is reported *)

Section ConverterReports.

Import ConverterScript.

(** X21.  When the modules load and REPORT.md exists, a step of the
    conversion that raises an exception deriving from [Exception],
    reading, rendering, creating, filling or saving the document, makes
    the script print "Error converting the report: " followed by the
    exception's text and exit with status 1; REPORT.docx is left as it
    was, unless the failing step is a [doc.save] that broke off
    part-way. *)
Theorem conversion_error_reported (e : env) (x : exn) :
  imports e = Ret tt -> import_docx e = Ret tt -> report_exists e = true ->
  derives_Exception x = true ->
  (read_report e = Raise x \/
   exists md_content,
     read_report e = Ret md_content /\
     (markdown e md_content = Raise x \/
      (markdown e md_content = Ret tt /\
       (new_document e = Raise x \/
        (new_document e = Ret tt /\
         (add_all e (convert md_content) = Raise x \/
          (add_all e (convert md_content) = Ret tt /\
           save e (convert md_content) = SaveFailed x false))))))) ->
  script e = exit1 ("Error converting the report: " ++ exn_str x).
Proof.
  intros Hi Hd Hr Hx H. unfold script, main, try_body.
  rewrite Hi, Hd, Hr. cbn [negb].
  destruct H as [->|(md & -> & H)]; cbn [bind]; [now rewrite Hx|].
  destruct H as [->|(-> & H)]; cbn [bind]; [now rewrite Hx|].
  destruct H as [->|(-> & H)]; cbn [bind]; [now rewrite Hx|].
  destruct H as [->|(-> & ->)]; now rewrite Hx.
Qed.

(** The same report when [doc.save] broke off part-way, with what it left
    in REPORT.docx. *)
Lemma broken_save_reported (e : env) (x : exn) (md_content : string) :
  imports e = Ret tt -> import_docx e = Ret tt -> report_exists e = true ->
  derives_Exception x = true ->
  read_report e = Ret md_content -> markdown e md_content = Ret tt ->
  new_document e = Ret tt -> add_all e (convert md_content) = Ret tt ->
  save e (convert md_content) = SaveFailed x true ->
  script e = report ("Error converting the report: " ++ exn_str x) Partial.
Proof.
  intros Hi Hd Hr Hx Hrd Hm Hn Ha Hs. unfold script, main, try_body.
  rewrite Hi, Hd, Hr, Hrd, Hm. cbn [negb bind]. rewrite Hn. cbn [bind].
  now rewrite Ha, Hs, Hx.
Qed.

End ConverterReports.

Lemma conversion_error_reported_witness :
  ConverterScript.script env_read_only
  = ConverterScript.exit1
      "Error converting the report: [Errno 13] Permission denied: 'REPORT.docx'".
Proof.
  refine (conversion_error_reported env_read_only permission_error
            eq_refl eq_refl eq_refl eq_refl _).
  right. exists csharp_report. split; [reflexivity|].
  right. split; [reflexivity|]. right. split; [reflexivity|].
  right. split; reflexivity.
Defined.

(** ** The trends adapter: the chunks, requested in order *)

Section ChunksInOrder.

Variable frame : Type.
Variable pt : GoogleTrends.provider frame.
Variables period region : string.

Lemma chunk_loop_split (l1 l2 : list (list string)) :
  forall acc c0,
    GoogleTrends.for_each (GoogleTrends.chunk_step frame pt period region)
      (l1 ++ l2) acc c0
    = GoogleTrends.bindM
        (GoogleTrends.for_each
           (GoogleTrends.chunk_step frame pt period region) l1 acc)
        (fun s => GoogleTrends.for_each
           (GoogleTrends.chunk_step frame pt period region) l2 s) c0.
Proof.
  induction l1 as [|x l1 IH]; intros acc c0; [reflexivity|].
  cbn [app GoogleTrends.for_each]. unfold GoogleTrends.bindM.
  destruct (GoogleTrends.chunk_step frame pt period region acc x c0)
    as [[s|e0] c1]; [|reflexivity].
  rewrite IH. reflexivity.
Qed.

(** The loop that meets a chunk the provider fails on. *)
Lemma chunk_loop_failure (before : list (list string)) (ch : list string)
      (after : list (list string))
      (rss : list (list GoogleTrends.trend_record)) (e : exn)
      (c : GoogleTrends.client) :
  Forall2 (fun b rs => chunk_outcome pt period region b = Ret rs) before rss ->
  chunk_outcome pt period region ch = Raise e ->
  exists c' tail,
    GoogleTrends.for_each (GoogleTrends.chunk_step frame pt period region)
      (before ++ ch :: after) [] c = (Raise e, c') /\
    GoogleTrends.calls c'
    = (GoogleTrends.calls c ++ flat_map (chunk_calls period region) before
                            ++ tail)%list /\
    (tail = [GoogleTrends.BuildPayload (chunk_payload period region ch)] \/
     tail = chunk_calls period region ch).
Proof.
  intros Hbefore Hch. rewrite chunk_loop_split.
  unfold GoogleTrends.bindM at 1.
  destruct (chunk_loop_answered frame pt period region before rss Hbefore [] c)
    as (c1 & -> & Hc1).
  cbn [GoogleTrends.for_each]. unfold GoogleTrends.bindM at 1.
  destruct (chunk_step_outcome frame pt period region
              ([] ++ concat rss)%list ch c1)
    as (c2 & -> & tail & Hc2 & Htail & _).
  rewrite Hch. cbn [bind].
  exists c2, tail. split; [reflexivity|]. split; [|exact Htail].
  now rewrite Hc2, Hc1, <- app_assoc.
Qed.

Lemma industry_run_answered (industry_keywords : list string)
      (rss : list (list GoogleTrends.trend_record)) (c : GoogleTrends.client) :
  Forall2 (fun ch rs => chunk_outcome pt period region ch = Ret rs)
          (GoogleTrends.chunks industry_keywords) rss ->
  exists c',
    GoogleTrends.get_industry_interest frame pt industry_keywords
      period region c
    = (Ret (match concat rss with
            | [] => GoogleTrends.no_data
            | _ :: _ => industry_success period region (concat rss)
            end), c') /\
    GoogleTrends.calls c'
    = (GoogleTrends.calls c ++ flat_map (chunk_calls period region)
                                 (GoogleTrends.chunks industry_keywords))%list.
Proof.
  intros Hall.
  unfold GoogleTrends.get_industry_interest, GoogleTrends.catching,
    GoogleTrends.get_industry_interest_body.
  unfold GoogleTrends.bindM at 1.
  destruct (chunk_loop_answered frame pt period region _ rss Hall [] c)
    as (c1 & -> & Hc1).
  exists c1. cbn [app]. split; [|exact Hc1].
  now destruct (concat rss).
Qed.

Lemma industry_run_failure (industry_keywords : list string)
      (before : list (list string)) (ch : list string)
      (after : list (list string))
      (rss : list (list GoogleTrends.trend_record)) (e : exn)
      (c : GoogleTrends.client) :
  GoogleTrends.chunks industry_keywords = (before ++ ch :: after)%list ->
  Forall2 (fun b rs => chunk_outcome pt period region b = Ret rs) before rss ->
  chunk_outcome pt period region ch = Raise e ->
  derives_Exception e = true ->
  exists c' tail,
    GoogleTrends.get_industry_interest frame pt industry_keywords
      period region c = (Ret (error_result (exn_str e)), c') /\
    GoogleTrends.calls c'
    = (GoogleTrends.calls c ++ flat_map (chunk_calls period region) before
                            ++ tail)%list /\
    (tail = [GoogleTrends.BuildPayload (chunk_payload period region ch)] \/
     tail = chunk_calls period region ch).
Proof.
  intros Hcs Hbefore Hch He.
  unfold GoogleTrends.get_industry_interest, GoogleTrends.catching,
    GoogleTrends.get_industry_interest_body.
  unfold GoogleTrends.bindM at 1. rewrite Hcs.
  destruct (chunk_loop_failure before ch after rss e c Hbefore Hch)
    as (c' & tail & -> & Hcalls & Htail).
  rewrite He. now exists c', tail.
Qed.

(** C10 (as amended).  A non-empty keyword list is cut into consecutive
    chunks of one to five keywords that together are the list, and the
    chunks are asked in order, one payload built and one
    interest-over-time request sent per chunk, up to the first chunk the
    provider fails on.  When every chunk is answered, every chunk has had
    its one request, and the result is the success object whose ['data']
    is the concatenation, in chunk order, of the chunks' records, each
    with date, keyword and interest, or the no-data error when there is
    no record.  The ['data'] of every success result is that
    concatenation, after one request per chunk.  When the provider fails
    on a chunk, the result is the error with the exception's text and no
    call is made for the chunks after it. *)
Theorem industry_chunks_in_order (industry_keywords : list string)
        (c : GoogleTrends.client) :
  industry_keywords <> [] ->
  let cs := GoogleTrends.chunks industry_keywords in
  let run :=
    GoogleTrends.get_industry_interest frame pt industry_keywords
      period region c in
  concat cs = industry_keywords /\
  Forall (fun ch => 1 <= List.length ch <= 5) cs /\
  (forall rss,
     Forall2 (fun ch rs => chunk_outcome pt period region ch = Ret rs) cs rss ->
     fst run = Ret (match concat rss with
                    | [] => GoogleTrends.no_data
                    | _ :: _ => industry_success period region (concat rss)
                    end) /\
     GoogleTrends.calls (snd run)
     = (GoogleTrends.calls c ++ flat_map (chunk_calls period region) cs)%list) /\
  (forall v,
     fst run = Ret v -> is_success v ->
     GoogleTrends.calls (snd run)
     = (GoogleTrends.calls c ++ flat_map (chunk_calls period region) cs)%list /\
     field v "data"
     = Some (JList (map GoogleTrends.record_json
                        (flat_map (chunk_records pt period region) cs)))) /\
  (forall before ch after rss e,
     cs = (before ++ ch :: after)%list ->
     Forall2 (fun b rs => chunk_outcome pt period region b = Ret rs)
             before rss ->
     chunk_outcome pt period region ch = Raise e ->
     derives_Exception e = true ->
     fst run = Ret (error_result (exn_str e)) /\
     exists tail,
       GoogleTrends.calls (snd run)
       = (GoogleTrends.calls c ++ flat_map (chunk_calls period region) before
                               ++ tail)%list /\
       (tail = [GoogleTrends.BuildPayload (chunk_payload period region ch)] \/
        tail = chunk_calls period region ch)).
Proof.
  intros Hne cs run.
  destruct (chunks_partition industry_keywords) as [Hc Hf].
  split; [exact Hc | split; [exact Hf|]]. split; [|split].
  - intros rss Hall. subst run cs.
    destruct (industry_run_answered industry_keywords rss c Hall)
      as (c' & -> & Hcalls).
    now split.
  - intros v Hv Hs. subst run.
    destruct (GoogleTrends.get_industry_interest frame pt industry_keywords
                period region c) as [r c'] eqn:E.
    cbn [fst snd] in *. subst r.
    exact (proj2 (proj2 (industry_interest_chunked frame pt period region
                           industry_keywords c c' v Hne)) E Hs).
  - intros before ch after rss e Hcs Hbefore Hch He. subst run cs.
    destruct (industry_run_failure industry_keywords before ch after rss e c
                Hcs Hbefore Hch He) as (c' & tail & -> & Hcalls & Htail).
    cbn [fst snd]. split; [reflexivity|]. now exists tail.
Qed.

End ChunksInOrder.

Lemma industry_chunks_in_order_witness :
  seven_keywords <> [] /\
  GoogleTrends.chunks seven_keywords = [["a"; "b"; "c"; "d"; "e"]; ["f"; "g"]] /\
  GoogleTrends.calls (snd echo_run)
  = flat_map (chunk_calls "today 12-m" "US")
      [["a"; "b"; "c"; "d"; "e"]; ["f"; "g"]] /\
  field echo_result "data"
  = Some (JList (map (fun k => JObj [("date", JStr "2024-01-07");
                                     ("keyword", JStr k);
                                     ("interest", JNum "50")])
                     seven_keywords)).
Proof.
  assert (Hne : seven_keywords <> []) by discriminate.
  split; [exact Hne | split; [reflexivity|]].
  exact (proj1 (proj2 (proj2 (proj2
           (industry_chunks_in_order (list string) pt_echo "today 12-m" "US"
              seven_keywords fresh_client Hne))))
           echo_result eq_refl eq_refl).
Defined.

(** C10 (as stated) fails: of the three chunks of eleven keywords the
    provider fails on the second, and no request is made for the third. *)
Lemma failed_chunk_ends_requests :
  GoogleTrends.chunks eleven_keywords
  = [["a"; "b"; "c"; "d"; "e"]; ["f"; "g"; "h"; "i"; "j"]; ["k"]] /\
  GoogleTrends.calls
    (snd (GoogleTrends.get_industry_interest (list string) pt_knows_a
            eleven_keywords "today 12-m" "US" fresh_client))
  = (chunk_calls "today 12-m" "US" ["a"; "b"; "c"; "d"; "e"]
     ++ chunk_calls "today 12-m" "US" ["f"; "g"; "h"; "i"; "j"])%list /\
  GoogleTrends.calls
    (snd (GoogleTrends.get_industry_interest (list string) pt_knows_a
            eleven_keywords "today 12-m" "US" fresh_client))
  <> flat_map (chunk_calls "today 12-m" "US")
       (GoogleTrends.chunks eleven_keywords).
Proof.
  split; [reflexivity | split; [reflexivity|]].
  intros H. vm_compute in H. discriminate H.
Qed.
